(** * Reunion management: the contribution ledger and the summaries

    A shallow embedding of the repository layer of the reunion
    application: the in-memory backend [MemStorage] (server/storage.ts) and
    the durable backend [DatabaseStorage] (server/database-storage.ts), over
    the row types of shared/schema.ts.

    Conventions of the embedding.
    - A JavaScript number that holds an identifier, an amount or a count is a
      [Z]; the development is about integers in the range where the
      arithmetic of JavaScript numbers is exact, and about arguments that
      fit the [integer] column they are for.  The one integer that the code
      computes for a column, the running total [contribution_amount] of an
      attendee, is checked against the range of the column wherever the
      database writes it.  The one place where the code leaves the
      integers, the percentage [Math.round((a / b) * 100)], is evaluated on
      binary64 floats.
    - [null] and [undefined] in a stored object are both [None].  An optional
      property of an input object is an [option]: [None] is "property
      absent"; for a nullable column the present value is itself an option.
    - A calendar date is a day number, a time stamp a number of
      milliseconds; [new Date()] is an argument [now] of the operation.
    - A [Map<number, V>] is the list of its entries in insertion order,
      which is the order [Map.prototype.values] yields them in.
    - A string holds ASCII characters, on which [toLowerCase] changes the
      letters A to Z only. *)

From Stdlib Require Import ZArith List String Ascii Bool Lia Floats Uint63.
From Stdlib Require Import Permutation Sorted.
From stdpp Require Import base option list gmap strings.

Open Scope Z_scope.

(** ** JavaScript helpers *)

Module Js.

(** [x || 0] for a number that may be absent. *)
Definition or_zero (x : option Z) : Z :=
  match x with
  | Some v => v
  | None => 0
  end.

(** Truthiness of a number that may be absent: [0], [null] and
    [undefined] are falsy. *)
Definition truthy (x : option Z) : bool :=
  match x with
  | Some v => negb (v =? 0)
  | None => false
  end.

(** [a === b] on numbers that may be [null]. *)
Definition strict_eq (a b : option Z) : bool :=
  match a, b with
  | Some x, Some y => x =? y
  | None, None => true
  | _, _ => false
  end.

(** [Array.prototype.reduce(f, init)]. *)
Definition reduce {A B : Type} (f : B -> A -> B) (init : B) (l : list A) : B :=
  fold_left f l init.

(** The clamping of a relative index in [Array.prototype.slice]. *)
Definition slice_index (len k : Z) : Z :=
  if k <? 0 then Z.max (len + k) 0 else Z.min k len.

(** [Array.prototype.slice(start, end)] for integer arguments. *)
Definition slice {A : Type} (l : list A) (start end_ : Z) : list A :=
  let len := Z.of_nat (length l) in
  let k := slice_index len start in
  let final := slice_index len end_ in
  take (Z.to_nat (final - k)) (drop (Z.to_nat k) l).

(** The number [z] as a binary64 float (exact below 2^53). *)
Definition of_Z (z : Z) : float :=
  if z <? 0
  then PrimFloat.opp (PrimFloat.of_uint63 (Uint63.of_Z (- z)))
  else PrimFloat.of_uint63 (Uint63.of_Z z).

(** [Math.round]: the integer nearest to [x], a tie going up.  A finite
    float is [± m * 2^e], so the result is computed exactly.  The last
    case is that of zero; the percentage of the dashboards is never
    infinite or [NaN], as its divisor is not 0. *)
Definition Math_round (x : float) : Z :=
  match Prim2SF x with
  | S754_finite s m e =>
      let num := if s then Z.neg m else Z.pos m in
      if 0 <=? e then num * 2 ^ e
      else (2 * num + 2 ^ (- e)) / 2 ^ (- e + 1)
  | _ => 0
  end.

(** [Math.round((a / b) * 100)]. *)
Definition round_percent (a b : Z) : Z :=
  Math_round (PrimFloat.mul (PrimFloat.div (of_Z a) (of_Z b)) (of_Z 100)).

(** Truthiness of a string that may be absent: the empty string,
    [null] and [undefined] are falsy. *)
Definition truthy_string (x : option string) : bool :=
  match x with
  | Some s => negb (String.eqb s "")
  | None => false
  end.




End Js.

(** ** [Map<number, V>] *)

Module JsMap.
Section Ops.
Context {V : Type}.

Definition t := list (Z * V).

Fixpoint get (k : Z) (m : list (Z * V)) : option V :=
  match m with
  | [] => None
  | (k', v) :: m' => if k' =? k then Some v else get k m'
  end.

Definition has (k : Z) (m : list (Z * V)) : bool :=
  match get k m with
  | Some _ => true
  | None => false
  end.

(** [set] replaces the value of a present key where it stands and
    appends an absent one. *)
Fixpoint set (k : Z) (v : V) (m : list (Z * V)) : list (Z * V) :=
  match m with
  | [] => [(k, v)]
  | (k', v') :: m' =>
      if k' =? k then (k, v) :: m' else (k', v') :: set k v m'
  end.

(** [delete] removes the entry of the key. *)
Fixpoint delete (k : Z) (m : list (Z * V)) : list (Z * V) :=
  match m with
  | [] => []
  | (k', v') :: m' =>
      if k' =? k then m' else (k', v') :: delete k m'
  end.

Definition values (m : list (Z * V)) : list V := map snd m.

Definition keys (m : list (Z * V)) : list Z := map fst m.

End Ops.
Arguments t : clear implicits.
End JsMap.

(** ** Rows and input objects (shared/schema.ts) *)

Inductive AttendingStatus := attending | not_attending | not_confirmed.

Inductive PaidStatus := paid | pending | not_paid | not_applicable.

Definition AttendingStatus_eqb (a b : AttendingStatus) : bool :=
  match a, b with
  | attending, attending | not_attending, not_attending
  | not_confirmed, not_confirmed => true
  | _, _ => false
  end.

Definition PaidStatus_eqb (a b : PaidStatus) : bool :=
  match a, b with
  | paid, paid | pending, pending | not_paid, not_paid
  | not_applicable, not_applicable => true
  | _, _ => false
  end.

(** The enumerated columns [section] and [gender]. *)
Module SectionName.
Inductive t := A | B | C | D.

Definition eqb (a b : t) : bool :=
  match a, b with
  | A, A | B, B | C, C | D, D => true
  | _, _ => false
  end.
End SectionName.

Module Gender.
Inductive t := male | female | other.
End Gender.

(** [status === 'attending'] and the like on a property that may be
    missing from the object. *)
Definition attending_is (x : AttendingStatus) (s : option AttendingStatus) : bool :=
  match s with
  | Some y => AttendingStatus_eqb y x
  | None => false
  end.

Definition paid_is (x : PaidStatus) (s : option PaidStatus) : bool :=
  match s with
  | Some y => PaidStatus_eqb y x
  | None => false
  end.

Module Student.
Record t := mk {
  id : Z;
  firstName : string;
  lastName : string;
  section : SectionName.t;
  gender : Gender.t;
  mobile : string;
  email : option string;
  dob : option Z;
  city : option string;
  work : option string;
  attendingStatus : option AttendingStatus;
  paidStatus : option PaidStatus;
  contributionAmount : option Z;
  createdAt : option Z
}.
End Student.

Module InsertStudent.
Record t := mk {
  firstName : string;
  lastName : string;
  section : SectionName.t;
  gender : Gender.t;
  mobile : string;
  email : option (option string);
  dob : option (option Z);
  city : option (option string);
  work : option (option string);
  attendingStatus : option AttendingStatus;
  paidStatus : option PaidStatus;
  contributionAmount : option (option Z)
}.
End InsertStudent.

(** [Partial<InsertStudent>]. *)
Module PartialStudent.
Record t := mk {
  firstName : option string;
  lastName : option string;
  section : option SectionName.t;
  gender : option Gender.t;
  mobile : option string;
  email : option (option string);
  dob : option (option Z);
  city : option (option string);
  work : option (option string);
  attendingStatus : option AttendingStatus;
  paidStatus : option PaidStatus;
  contributionAmount : option (option Z)
}.

Definition empty : t :=
  mk None None None None None None None None None None None None.

(** An [InsertStudent] passed where a [Partial<InsertStudent>] is
    expected. *)
Definition of_insert (i : InsertStudent.t) : t :=
  mk (Some (InsertStudent.firstName i)) (Some (InsertStudent.lastName i))
     (Some (InsertStudent.section i)) (Some (InsertStudent.gender i))
     (Some (InsertStudent.mobile i))
     (InsertStudent.email i) (InsertStudent.dob i) (InsertStudent.city i)
     (InsertStudent.work i) (InsertStudent.attendingStatus i)
     (InsertStudent.paidStatus i) (InsertStudent.contributionAmount i).

(** Whether the object has no property at all. *)
Definition is_empty (d : t) : bool :=
  match d with
  | mk None None None None None None None None None None None None => true
  | _ => false
  end.
End PartialStudent.

Module Contribution.
Record t := mk {
  id : Z;
  studentId : option Z;
  amount : Z;
  date : Z;
  recordedBy : option Z;
  createdAt : option Z
}.
End Contribution.

Module InsertContribution.
Record t := mk {
  studentId : option (option Z);
  amount : Z;
  date : Z;
  recordedBy : option (option Z)
}.
End InsertContribution.

(** [Partial<InsertContribution>]. *)
Module PartialContribution.
Record t := mk {
  studentId : option (option Z);
  amount : option Z;
  date : option Z;
  recordedBy : option (option Z)
}.

Definition is_empty (d : t) : bool :=
  match d with
  | mk None None None None => true
  | _ => false
  end.
End PartialContribution.

Module Expense.
Record t := mk {
  id : Z;
  title : string;
  category : string;
  description : string;
  amount : Z;
  date : Z;
  receiptImage : option string;
  createdBy : option Z;
  createdAt : option Z
}.
End Expense.

Module BudgetItem.
Record t := mk {
  id : Z;
  name : string;
  category : string;
  description : string;
  estimatedAmount : Z;
  createdAt : option Z
}.
End BudgetItem.

Module InsertExpense.
Record t := mk {
  title : string;
  category : string;
  description : string;
  amount : Z;
  date : Z;
  receiptImage : option (option string);
  createdBy : option (option Z)
}.
End InsertExpense.

Module InsertBudgetItem.
Record t := mk {
  name : string;
  category : string;
  description : string;
  estimatedAmount : Z
}.
End InsertBudgetItem.

(** The argument [{ studentId?, limit?, offset? }] of [getContributions];
    a call without argument is [ContributionQuery.none]. *)
Module ContributionQuery.
Record t := mk {
  studentId : option Z;
  limit : option Z;
  offset : option Z
}.

Definition none : t := mk None None None.
End ContributionQuery.

(** The argument [{ category?, limit?, offset? }] of [getExpenses]. *)
Module ExpenseQuery.
Record t := mk {
  category : option string;
  limit : option Z;
  offset : option Z
}.

Definition none : t := mk None None None.
End ExpenseQuery.

(** The object spreads [{ ...student, ...studentData }] and
    [{ ...contribution, ...contributionData }]: a property present on the
    right overwrites the one on the left. *)
Definition spread_student (s : Student.t) (d : PartialStudent.t) : Student.t :=
  {| Student.id := Student.id s;
     Student.firstName := default (Student.firstName s) (PartialStudent.firstName d);
     Student.lastName := default (Student.lastName s) (PartialStudent.lastName d);
     Student.section := default (Student.section s) (PartialStudent.section d);
     Student.gender := default (Student.gender s) (PartialStudent.gender d);
     Student.mobile := default (Student.mobile s) (PartialStudent.mobile d);
     Student.email := default (Student.email s) (PartialStudent.email d);
     Student.dob := default (Student.dob s) (PartialStudent.dob d);
     Student.city := default (Student.city s) (PartialStudent.city d);
     Student.work := default (Student.work s) (PartialStudent.work d);
     Student.attendingStatus :=
       match PartialStudent.attendingStatus d with
       | Some a => Some a
       | None => Student.attendingStatus s
       end;
     Student.paidStatus :=
       match PartialStudent.paidStatus d with
       | Some p => Some p
       | None => Student.paidStatus s
       end;
     Student.contributionAmount :=
       default (Student.contributionAmount s) (PartialStudent.contributionAmount d);
     Student.createdAt := Student.createdAt s |}.

Definition spread_contribution (c : Contribution.t) (d : PartialContribution.t)
  : Contribution.t :=
  {| Contribution.id := Contribution.id c;
     Contribution.studentId :=
       default (Contribution.studentId c) (PartialContribution.studentId d);
     Contribution.amount :=
       default (Contribution.amount c) (PartialContribution.amount d);
     Contribution.date := default (Contribution.date c) (PartialContribution.date d);
     Contribution.recordedBy :=
       default (Contribution.recordedBy c) (PartialContribution.recordedBy d);
     Contribution.createdAt := Contribution.createdAt c |}.

(** The update object that [createContribution] builds. *)
Definition contribution_update (amount : Z) (promote : bool) : PartialStudent.t :=
  {| PartialStudent.firstName := None; PartialStudent.lastName := None;
     PartialStudent.section := None; PartialStudent.gender := None;
     PartialStudent.mobile := None; PartialStudent.email := None;
     PartialStudent.dob := None; PartialStudent.city := None;
     PartialStudent.work := None; PartialStudent.attendingStatus := None;
     PartialStudent.paidStatus := if promote then Some paid else None;
     PartialStudent.contributionAmount := Some (Some amount) |}.

(** [Partial<InsertExpense>] and [Partial<InsertBudgetItem>]. *)
Module PartialExpense.
Record t := mk {
  title : option string;
  category : option string;
  description : option string;
  amount : option Z;
  date : option Z;
  receiptImage : option (option string);
  createdBy : option (option Z)
}.

Definition is_empty (d : t) : bool :=
  match d with
  | mk None None None None None None None => true
  | _ => false
  end.
End PartialExpense.

Module PartialBudgetItem.
Record t := mk {
  name : option string;
  category : option string;
  description : option string;
  estimatedAmount : option Z
}.

Definition is_empty (d : t) : bool :=
  match d with
  | mk None None None None => true
  | _ => false
  end.
End PartialBudgetItem.

(** The argument [{ section?, limit?, offset?, search? }] of
    [getStudents]. *)
Module StudentQuery.
Record t := mk {
  section : option string;
  limit : option Z;
  offset : option Z;
  search : option string
}.

Definition none : t := mk None None None None.
End StudentQuery.

(** The string that a section is in a TypeScript value and in a query. *)
Definition section_label (s : SectionName.t) : string :=
  match s with
  | SectionName.A => "A"
  | SectionName.B => "B"
  | SectionName.C => "C"
  | SectionName.D => "D"
  end.

(** [{ ...expense, ...expenseData }] and
    [{ ...budgetItem, ...budgetItemData }]. *)
Definition spread_expense (e : Expense.t) (d : PartialExpense.t) : Expense.t :=
  {| Expense.id := Expense.id e;
     Expense.title := default (Expense.title e) (PartialExpense.title d);
     Expense.category := default (Expense.category e) (PartialExpense.category d);
     Expense.description :=
       default (Expense.description e) (PartialExpense.description d);
     Expense.amount := default (Expense.amount e) (PartialExpense.amount d);
     Expense.date := default (Expense.date e) (PartialExpense.date d);
     Expense.receiptImage :=
       default (Expense.receiptImage e) (PartialExpense.receiptImage d);
     Expense.createdBy := default (Expense.createdBy e) (PartialExpense.createdBy d);
     Expense.createdAt := Expense.createdAt e |}.

Definition spread_budgetItem (b : BudgetItem.t) (d : PartialBudgetItem.t)
  : BudgetItem.t :=
  {| BudgetItem.id := BudgetItem.id b;
     BudgetItem.name := default (BudgetItem.name b) (PartialBudgetItem.name d);
     BudgetItem.category :=
       default (BudgetItem.category b) (PartialBudgetItem.category d);
     BudgetItem.description :=
       default (BudgetItem.description b) (PartialBudgetItem.description d);
     BudgetItem.estimatedAmount :=
       default (BudgetItem.estimatedAmount b)
               (PartialBudgetItem.estimatedAmount d);
     BudgetItem.createdAt := BudgetItem.createdAt b |}.

(** ** The summaries (shared/schema.ts) *)

Module SectionStat.
Record t := mk {
  section : SectionName.t;
  totalStudents : Z;
  attendingCount : Z;
  paidCount : Z;
  pendingCount : Z;
  notConfirmedCount : Z
}.
End SectionStat.

(** The dashboard snapshot without [daysRemaining] and
    [progressPercentage], which are functions of the wall clock alone.  The
    four counts that only the durable backend returns are optional. *)
Module DashboardSummary.
Record t := mk {
  totalStudents : Z;
  attendingCount : Z;
  notAttendingCount : option Z;
  notConfirmedCount : option Z;
  paidCount : Z;
  pendingCount : option Z;
  notPaidCount : option Z;
  totalContributions : Z;
  totalExpenses : Z;
  budgetUtilization : Z;
  sectionStats : list SectionStat.t
}.
End DashboardSummary.

Module CategoryEntry.
Record t := mk {
  category : string;
  estimatedAmount : Z;
  actualAmount : Z
}.
End CategoryEntry.

Module BudgetSummary.
Record t := mk {
  totalBudget : Z;
  totalExpenses : Z;
  totalContributions : Z;
  balance : Z;
  categoryBreakdown : list CategoryEntry.t
}.
End BudgetSummary.

(** [xs.filter(p).length]. *)
Definition count {A : Type} (p : A -> bool) (xs : list A) : Z :=
  Z.of_nat (length (List.filter p xs)).

(** The literal ['A', 'B', 'C', 'D'] of both dashboards. *)
Definition sections : list SectionName.t :=
  [SectionName.A; SectionName.B; SectionName.C; SectionName.D].

(** The literal category list of both budget summaries. *)
Definition categories : list string :=
  ["venue"; "food"; "entertainment"; "decoration"; "transportation";
   "gifts"; "technology"; "marketing"; "miscellaneous"]%string.

(** The labels of [expenseCategoryEnum], the type of the [category]
    columns in the database.  In a TypeScript value a category is a string,
    and the routes hand the request body to the budget and expense methods
    as it comes, so a category is a string here. *)
Definition expenseCategoryEnum : list string :=
  ["venue"; "food"; "entertainment"; "decoration"; "transportation";
   "gifts"; "technology"; "marketing"; "miscellaneous"]%string.

(** One element of [sectionStats]; the two backends compute it alike. *)
Definition section_stat (allStudents : list Student.t) (section : SectionName.t)
  : SectionStat.t :=
  let sectionStudents :=
    List.filter (fun s => SectionName.eqb (Student.section s) section)
                allStudents in
  {| SectionStat.section := section;
     SectionStat.totalStudents := Z.of_nat (length sectionStudents);
     SectionStat.attendingCount :=
       count (fun s => attending_is attending (Student.attendingStatus s))
             sectionStudents;
     SectionStat.paidCount :=
       count (fun s => paid_is paid (Student.paidStatus s)) sectionStudents;
     SectionStat.pendingCount :=
       count (fun s => paid_is pending (Student.paidStatus s)) sectionStudents;
     SectionStat.notConfirmedCount :=
       count (fun s => attending_is not_confirmed (Student.attendingStatus s))
             sectionStudents |}.

(** ** The in-memory backend (class [MemStorage]) *)

Module MemStorage.

(** The maps and counters of the class that the modelled methods touch;
    the user and category maps and the session store are left out. *)
Record t := mk {
  studentMap : JsMap.t Student.t;
  budgetItemMap : JsMap.t BudgetItem.t;
  expenseMap : JsMap.t Expense.t;
  contributionMap : JsMap.t Contribution.t;
  currentStudentId : Z;
  currentBudgetItemId : Z;
  currentExpenseId : Z;
  currentContributionId : Z
}.

(** The state the constructor builds. *)
Definition init : t := mk [] [] [] [] 1 1 1 1.

Definition with_studentMap (m : JsMap.t Student.t) (st : t) : t :=
  mk m (budgetItemMap st) (expenseMap st) (contributionMap st)
     (currentStudentId st) (currentBudgetItemId st) (currentExpenseId st)
     (currentContributionId st).

Definition with_budgetItemMap (m : JsMap.t BudgetItem.t) (st : t) : t :=
  mk (studentMap st) m (expenseMap st) (contributionMap st)
     (currentStudentId st) (currentBudgetItemId st) (currentExpenseId st)
     (currentContributionId st).

Definition with_expenseMap (m : JsMap.t Expense.t) (st : t) : t :=
  mk (studentMap st) (budgetItemMap st) m (contributionMap st)
     (currentStudentId st) (currentBudgetItemId st) (currentExpenseId st)
     (currentContributionId st).

Definition with_contributionMap (m : JsMap.t Contribution.t) (st : t) : t :=
  mk (studentMap st) (budgetItemMap st) (expenseMap st) m
     (currentStudentId st) (currentBudgetItemId st) (currentExpenseId st)
     (currentContributionId st).

Definition with_currentStudentId (n : Z) (st : t) : t :=
  mk (studentMap st) (budgetItemMap st) (expenseMap st) (contributionMap st)
     n (currentBudgetItemId st) (currentExpenseId st)
     (currentContributionId st).

Definition with_currentBudgetItemId (n : Z) (st : t) : t :=
  mk (studentMap st) (budgetItemMap st) (expenseMap st) (contributionMap st)
     (currentStudentId st) n (currentExpenseId st) (currentContributionId st).

Definition with_currentExpenseId (n : Z) (st : t) : t :=
  mk (studentMap st) (budgetItemMap st) (expenseMap st) (contributionMap st)
     (currentStudentId st) (currentBudgetItemId st) n
     (currentContributionId st).

Definition with_currentContributionId (n : Z) (st : t) : t :=
  mk (studentMap st) (budgetItemMap st) (expenseMap st) (contributionMap st)
     (currentStudentId st) (currentBudgetItemId st) (currentExpenseId st) n.

(** *** Student methods *)

(** [getStudent(id)]; at run time the callers may pass the [null] of a
    contribution without student, which is no key of the map. *)
Definition getStudent (id : option Z) (st : t) : option Student.t :=
  match id with
  | Some k => JsMap.get k (studentMap st)
  | None => None
  end.

Definition getStudentByMobile (mobile : string) (st : t) : option Student.t :=
  find (fun student => String.eqb (Student.mobile student) mobile)
       (JsMap.values (studentMap st)).

(** [getStudents()] as the summaries call it, without options. *)
Definition getStudents (st : t) : list Student.t :=
  JsMap.values (studentMap st).

Definition createStudent (now : Z) (insertStudent : InsertStudent.t) (st : t)
  : Student.t * t :=
  let id := currentStudentId st in
  let st := with_currentStudentId (id + 1) st in
  let student :=
    {| Student.id := id;
       Student.firstName := InsertStudent.firstName insertStudent;
       Student.lastName := InsertStudent.lastName insertStudent;
       Student.section := InsertStudent.section insertStudent;
       Student.gender := InsertStudent.gender insertStudent;
       Student.mobile := InsertStudent.mobile insertStudent;
       Student.email := mjoin (InsertStudent.email insertStudent);
       Student.dob := mjoin (InsertStudent.dob insertStudent);
       Student.city := mjoin (InsertStudent.city insertStudent);
       Student.work := mjoin (InsertStudent.work insertStudent);
       Student.attendingStatus := InsertStudent.attendingStatus insertStudent;
       Student.paidStatus := InsertStudent.paidStatus insertStudent;
       Student.contributionAmount :=
         mjoin (InsertStudent.contributionAmount insertStudent);
       Student.createdAt := Some now |} in
  (student, with_studentMap (JsMap.set id student (studentMap st)) st).

Definition updateStudent (id : Z) (studentData : PartialStudent.t) (st : t)
  : option Student.t * t :=
  match JsMap.get id (studentMap st) with
  | None => (None, st)
  | Some student =>
      let updatedStudent := spread_student student studentData in
      (Some updatedStudent,
       with_studentMap (JsMap.set id updatedStudent (studentMap st)) st)
  end.

Definition deleteStudent (id : Z) (st : t) : bool * t :=
  (JsMap.has id (studentMap st),
   with_studentMap (JsMap.delete id (studentMap st)) st).

(** *** Budget and expense methods *)

Definition getBudgetItems (st : t) : list BudgetItem.t :=
  JsMap.values (budgetItemMap st).

Definition createBudgetItem (now : Z) (insertBudgetItem : InsertBudgetItem.t)
    (st : t) : BudgetItem.t * t :=
  let id := currentBudgetItemId st in
  let st := with_currentBudgetItemId (id + 1) st in
  let budgetItem :=
    {| BudgetItem.id := id;
       BudgetItem.name := InsertBudgetItem.name insertBudgetItem;
       BudgetItem.category := InsertBudgetItem.category insertBudgetItem;
       BudgetItem.description := InsertBudgetItem.description insertBudgetItem;
       BudgetItem.estimatedAmount :=
         InsertBudgetItem.estimatedAmount insertBudgetItem;
       BudgetItem.createdAt := Some now |} in
  (budgetItem,
   with_budgetItemMap (JsMap.set id budgetItem (budgetItemMap st)) st).

(** [getExpenses()] as the summaries call it, without options. *)
Definition getExpenses (st : t) : list Expense.t :=
  JsMap.values (expenseMap st).

Definition createExpense (now : Z) (insertExpense : InsertExpense.t) (st : t)
  : Expense.t * t :=
  let id := currentExpenseId st in
  let st := with_currentExpenseId (id + 1) st in
  let expense :=
    {| Expense.id := id;
       Expense.title := InsertExpense.title insertExpense;
       Expense.category := InsertExpense.category insertExpense;
       Expense.description := InsertExpense.description insertExpense;
       Expense.amount := InsertExpense.amount insertExpense;
       Expense.date := InsertExpense.date insertExpense;
       Expense.receiptImage := mjoin (InsertExpense.receiptImage insertExpense);
       Expense.createdBy := mjoin (InsertExpense.createdBy insertExpense);
       Expense.createdAt := Some now |} in
  (expense, with_expenseMap (JsMap.set id expense (expenseMap st)) st).

(** *** Contribution methods *)

Definition getContribution (id : Z) (st : t) : option Contribution.t :=
  JsMap.get id (contributionMap st).

Definition getContributions (options : ContributionQuery.t) (st : t)
  : list Contribution.t :=
  let contributions := JsMap.values (contributionMap st) in
  let contributions :=
    if Js.truthy (ContributionQuery.studentId options)
    then List.filter
           (fun contribution =>
              Js.strict_eq (Contribution.studentId contribution)
                           (ContributionQuery.studentId options))
           contributions
    else contributions in
  match ContributionQuery.limit options, ContributionQuery.offset options with
  | Some limit, Some offset => Js.slice contributions offset (offset + limit)
  | _, _ => contributions
  end.

Definition createContribution (now : Z)
    (insertContribution : InsertContribution.t) (st : t)
  : Contribution.t * t :=
  let id := currentContributionId st in
  let st := with_currentContributionId (id + 1) st in
  let contribution :=
    {| Contribution.id := id;
       Contribution.studentId :=
         mjoin (InsertContribution.studentId insertContribution);
       Contribution.amount := InsertContribution.amount insertContribution;
       Contribution.date := InsertContribution.date insertContribution;
       Contribution.recordedBy :=
         mjoin (InsertContribution.recordedBy insertContribution);
       Contribution.createdAt := Some now |} in
  let st :=
    with_contributionMap (JsMap.set id contribution (contributionMap st)) st in
  match getStudent (mjoin (InsertContribution.studentId insertContribution)) st with
  | Some student =>
      let existingContributions :=
        getContributions
          (ContributionQuery.mk (Some (Student.id student)) None None) st in
      let currentAmount := Js.or_zero (Student.contributionAmount student) in
      let updateData :=
        contribution_update
          (currentAmount + InsertContribution.amount insertContribution)
          ((Z.of_nat (length existingContributions) =? 1)
           && negb (paid_is paid (Student.paidStatus student))) in
      (contribution, snd (updateStudent (Student.id student) updateData st))
  | None => (contribution, st)
  end.

Definition updateContribution (id : Z)
    (contributionData : PartialContribution.t) (st : t)
  : option Contribution.t * t :=
  match JsMap.get id (contributionMap st) with
  | None => (None, st)
  | Some contribution =>
      let st :=
        match PartialContribution.amount contributionData with
        | Some newAmount =>
            if negb (newAmount =? Contribution.amount contribution) then
              match getStudent (Contribution.studentId contribution) st with
              | Some student =>
                  let amountDiff := newAmount - Contribution.amount contribution in
                  let currentAmount :=
                    Js.or_zero (Student.contributionAmount student) in
                  snd (updateStudent (Student.id student)
                         (contribution_update (currentAmount + amountDiff) false)
                         st)
              | None => st
              end
            else st
        | None => st
        end in
      let updatedContribution := spread_contribution contribution contributionData in
      (Some updatedContribution,
       with_contributionMap
         (JsMap.set id updatedContribution (contributionMap st)) st)
  end.

Definition deleteContribution (id : Z) (st : t) : bool * t :=
  match JsMap.get id (contributionMap st) with
  | None => (false, st)
  | Some contribution =>
      let st :=
        match getStudent (Contribution.studentId contribution) st with
        | Some student =>
            let currentAmount := Js.or_zero (Student.contributionAmount student) in
            snd (updateStudent (Student.id student)
                   (contribution_update
                      (Z.max 0 (currentAmount - Contribution.amount contribution))
                      false)
                   st)
        | None => st
        end in
      (JsMap.has id (contributionMap st),
       with_contributionMap (JsMap.delete id (contributionMap st)) st)
  end.


(** *** Dashboard and summary methods *)

Definition getDashboardSummary (st : t) : DashboardSummary.t :=
  let allStudents := getStudents st in
  let allExpenses := getExpenses st in
  let sectionStats := map (section_stat allStudents) sections in
  let totalContributions :=
    Js.reduce (fun sum student =>
                 sum + Js.or_zero (Student.contributionAmount student))
              0 allStudents in
  let totalExpenses :=
    Js.reduce (fun sum expense => sum + Expense.amount expense) 0 allExpenses in
  {| DashboardSummary.totalStudents := Z.of_nat (length allStudents);
     DashboardSummary.attendingCount :=
       count (fun s => attending_is attending (Student.attendingStatus s))
             allStudents;
     DashboardSummary.notAttendingCount := None;
     DashboardSummary.notConfirmedCount := None;
     DashboardSummary.paidCount :=
       count (fun s => paid_is paid (Student.paidStatus s)) allStudents;
     DashboardSummary.pendingCount := None;
     DashboardSummary.notPaidCount := None;
     DashboardSummary.totalContributions := totalContributions;
     DashboardSummary.totalExpenses := totalExpenses;
     DashboardSummary.budgetUtilization :=
       Js.round_percent totalExpenses
         (if totalContributions =? 0 then 1 else totalContributions);
     DashboardSummary.sectionStats := sectionStats |}.

Definition getBudgetSummary (st : t) : BudgetSummary.t :=
  let allBudgetItems := getBudgetItems st in
  let allExpenses := getExpenses st in
  let allStudents := getStudents st in
  let totalContributions :=
    Js.reduce (fun sum student =>
                 sum + Js.or_zero (Student.contributionAmount student))
              0 allStudents in
  let totalBudget :=
    Js.reduce (fun sum item => sum + BudgetItem.estimatedAmount item)
              0 allBudgetItems in
  let totalExpenses :=
    Js.reduce (fun sum expense => sum + Expense.amount expense) 0 allExpenses in
  let categoryBreakdown :=
    map (fun category =>
           let estimatedAmount :=
             Js.reduce (fun sum item => sum + BudgetItem.estimatedAmount item) 0
               (List.filter
                  (fun item => String.eqb (BudgetItem.category item) category)
                  allBudgetItems) in
           let actualAmount :=
             Js.reduce (fun sum expense => sum + Expense.amount expense) 0
               (List.filter
                  (fun expense => String.eqb (Expense.category expense) category)
                  allExpenses) in
           CategoryEntry.mk category estimatedAmount actualAmount)
        categories in
  {| BudgetSummary.totalBudget := totalBudget;
     BudgetSummary.totalExpenses := totalExpenses;
     BudgetSummary.totalContributions := totalContributions;
     BudgetSummary.balance := totalContributions - totalExpenses;
     BudgetSummary.categoryBreakdown := categoryBreakdown |}.

(** The body of the [for ... of] loop of [bulkImportStudents]:
    [createdStudents] is the array built so far. *)
Definition import_one (now : Z) (studentData : InsertStudent.t)
    (acc : list Student.t * t) : list Student.t * t :=
  let (createdStudents, st) := acc in
  match getStudentByMobile (InsertStudent.mobile studentData) st with
  | Some existingStudent =>
      match updateStudent (Student.id existingStudent)
              (PartialStudent.of_insert studentData) st with
      | (Some updatedStudent, st') => (createdStudents ++ [updatedStudent], st')
      | (None, st') => (createdStudents, st')
      end
  | None =>
      let (student, st') := createStudent now studentData st in
      (createdStudents ++ [student], st')
  end.

(** [bulkImportStudents]; the records of one batch get one time stamp. *)
Definition bulkImportStudents (now : Z) (newStudents : list InsertStudent.t)
    (st : t) : list Student.t * t :=
  fold_left (fun acc studentData => import_one now studentData acc)
            newStudents ([], st).

(** *** The student, budget and expense methods with their options *)



Definition getBudgetItem (id : Z) (st : t) : option BudgetItem.t :=
  JsMap.get id (budgetItemMap st).

Definition updateBudgetItem (id : Z) (budgetItemData : PartialBudgetItem.t)
    (st : t) : option BudgetItem.t * t :=
  match JsMap.get id (budgetItemMap st) with
  | None => (None, st)
  | Some budgetItem =>
      let updatedBudgetItem := spread_budgetItem budgetItem budgetItemData in
      (Some updatedBudgetItem,
       with_budgetItemMap
         (JsMap.set id updatedBudgetItem (budgetItemMap st)) st)
  end.

Definition deleteBudgetItem (id : Z) (st : t) : bool * t :=
  (JsMap.has id (budgetItemMap st),
   with_budgetItemMap (JsMap.delete id (budgetItemMap st)) st).

Definition getExpense (id : Z) (st : t) : option Expense.t :=
  JsMap.get id (expenseMap st).

(** [getExpenses(options)]. *)
Definition getExpenses_with (options : ExpenseQuery.t) (st : t)
  : list Expense.t :=
  let expenses := JsMap.values (expenseMap st) in
  let expenses :=
    match ExpenseQuery.category options with
    | Some category =>
        if Js.truthy_string (Some category)
        then List.filter
               (fun expense => String.eqb (Expense.category expense) category)
               expenses
        else expenses
    | None => expenses
    end in
  match ExpenseQuery.limit options, ExpenseQuery.offset options with
  | Some limit, Some offset => Js.slice expenses offset (offset + limit)
  | _, _ => expenses
  end.

Definition updateExpense (id : Z) (expenseData : PartialExpense.t) (st : t)
  : option Expense.t * t :=
  match JsMap.get id (expenseMap st) with
  | None => (None, st)
  | Some expense =>
      let updatedExpense := spread_expense expense expenseData in
      (Some updatedExpense,
       with_expenseMap (JsMap.set id updatedExpense (expenseMap st)) st)
  end.

Definition deleteExpense (id : Z) (st : t) : bool * t :=
  (JsMap.has id (expenseMap st),
   with_expenseMap (JsMap.delete id (expenseMap st)) st).

End MemStorage.

(** ** The durable backend (class [DatabaseStorage])

    A table is the list of its rows: an [INSERT] appends, an [UPDATE]
    rewrites the row where it stands.  The constraints that
    shared/schema.ts declares between the modelled tables are checked by
    the store: the serial primary keys, [contributions.student_id]
    referencing [students.id], the unique [students.mobile], the
    enumerated type of the [category] columns and the range of the
    [integer] column [students.contribution_amount].  The users
    table is not modelled, so the references to it ([recorded_by],
    [created_by], [users.student_id]) are plain data here.  A statement the
    store rejects is a fault of the operation; the writes made before it
    stay (no transaction).

    The order in which an [ORDER BY] returns rows that tie on its key is
    not fixed by the query: the store picks it, query by query, from its
    plan and from where the rows lie, which an [UPDATE] changes.  The
    state of the database therefore holds, beside the tables, the choice
    of the store ([Executor.t]): a rank for every row, by which the rows
    that tie are returned.  No method writes it, and every theorem holds
    for every such choice. *)

Module Sql.

(** Whether a number fits a column of type [integer]. *)
Definition int4 (v : Z) : bool :=
  (-2147483648 <=? v) && (v <=? 2147483647).

(** [ORDER BY]: [before y x] says that the key of row [y] sorts strictly
    before the key of row [x].  Of two rows that tie on the key the one of
    lower [rank] comes first; rows that tie on the rank too come as the
    table has them. *)
Definition precedes {A : Type} (before : A -> A -> bool) (rank : A -> Z)
    (y x : A) : bool :=
  before y x || (negb (before x y) && (rank y <? rank x)).

Fixpoint insert_by {A : Type} (before : A -> A -> bool) (x : A) (l : list A)
  : list A :=
  match l with
  | [] => [x]
  | y :: l' => if before y x then y :: insert_by before x l' else x :: l
  end.

Definition order_by {A : Type} (before : A -> A -> bool) (rank : A -> Z)
    (l : list A) : list A :=
  foldr (insert_by (precedes before rank)) [] l.

(** [COALESCE(SUM(col), 0)]. *)
Definition sum {A : Type} (col : A -> Z) (rows : list A) : Z :=
  foldr (fun row acc => col row + acc) 0 rows.

End Sql.

(** The ranks by which the store returns the rows that tie in the three
    queries with an [ORDER BY]; those of the expenses and of the
    contributions may depend on the filter, the [LIMIT] and the [OFFSET] of
    the query. *)
Module Executor.
Record t := mk {
  students_rank : Student.t -> Z;
  expenses_rank : ExpenseQuery.t -> Expense.t -> Z;
  contributions_rank : ContributionQuery.t -> Contribution.t -> Z
}.

(** The store that returns rows that tie as the table has them. *)
Definition in_table_order : t :=
  mk (fun _ => 0) (fun _ _ => 0) (fun _ _ => 0).
End Executor.

Module DatabaseStorage.

Record t := mk {
  students : list Student.t;
  budgetItems : list BudgetItem.t;
  expenses : list Expense.t;
  contributions : list Contribution.t;
  students_id_seq : Z;
  budget_items_id_seq : Z;
  expenses_id_seq : Z;
  contributions_id_seq : Z;
  executor : Executor.t
}.

(** The empty database; a serial column starts at 1. *)
Definition init : t := mk [] [] [] [] 1 1 1 1 Executor.in_table_order.

Definition with_students (rows : list Student.t) (db : t) : t :=
  mk rows (budgetItems db) (expenses db) (contributions db)
     (students_id_seq db) (budget_items_id_seq db) (expenses_id_seq db)
     (contributions_id_seq db) (executor db).

Definition with_budgetItems (rows : list BudgetItem.t) (db : t) : t :=
  mk (students db) rows (expenses db) (contributions db)
     (students_id_seq db) (budget_items_id_seq db) (expenses_id_seq db)
     (contributions_id_seq db) (executor db).

Definition with_expenses (rows : list Expense.t) (db : t) : t :=
  mk (students db) (budgetItems db) rows (contributions db)
     (students_id_seq db) (budget_items_id_seq db) (expenses_id_seq db)
     (contributions_id_seq db) (executor db).

Definition with_contributions (rows : list Contribution.t) (db : t) : t :=
  mk (students db) (budgetItems db) (expenses db) rows
     (students_id_seq db) (budget_items_id_seq db) (expenses_id_seq db)
     (contributions_id_seq db) (executor db).

Definition with_students_id_seq (n : Z) (db : t) : t :=
  mk (students db) (budgetItems db) (expenses db) (contributions db)
     n (budget_items_id_seq db) (expenses_id_seq db) (contributions_id_seq db)
     (executor db).

Definition with_budget_items_id_seq (n : Z) (db : t) : t :=
  mk (students db) (budgetItems db) (expenses db) (contributions db)
     (students_id_seq db) n (expenses_id_seq db) (contributions_id_seq db)
     (executor db).

Definition with_expenses_id_seq (n : Z) (db : t) : t :=
  mk (students db) (budgetItems db) (expenses db) (contributions db)
     (students_id_seq db) (budget_items_id_seq db) n (contributions_id_seq db)
     (executor db).

Definition with_contributions_id_seq (n : Z) (db : t) : t :=
  mk (students db) (budgetItems db) (expenses db) (contributions db)
     (students_id_seq db) (budget_items_id_seq db) (expenses_id_seq db) n
     (executor db).

(** The same tables in the hands of another store. *)
Definition with_executor (e : Executor.t) (db : t) : t :=
  mk (students db) (budgetItems db) (expenses db) (contributions db)
     (students_id_seq db) (budget_items_id_seq db) (expenses_id_seq db)
     (contributions_id_seq db) e.

(** *** The monad of the methods: state, and a fault that keeps it *)

Inductive fault :=
| foreign_key_violation
| unique_violation
| negative_offset
| no_values_to_set
| invalid_enum_value
| numeric_value_out_of_range.

Inductive outcome (A : Type) :=
| Ok (a : A)
| Fault (f : fault).
Arguments Ok {A} a.
Arguments Fault {A} f.

Definition M (A : Type) : Type := t -> outcome A * t.

Definition ret {A : Type} (a : A) : M A := fun db => (Ok a, db).

Definition raise {A : Type} (f : fault) : M A := fun db => (Fault f, db).

Definition bind {A B : Type} (m : M A) (k : A -> M B) : M B :=
  fun db =>
    match m db with
    | (Ok a, db') => k a db'
    | (Fault f, db') => (Fault f, db')
    end.

Notation "'let*' x ':=' m 'in' k" := (bind m (fun x => k))
  (at level 10, x pattern, m at level 100, k at level 200).

Definition read {A : Type} (f : t -> A) : M A := fun db => (Ok (f db), db).

Definition write (f : t -> t) : M unit := fun db => (Ok tt, f db).

(** *** Student methods

    The student methods of this backend return the row with a [fullName]
    property added, which nothing in the modelled methods reads; the model
    returns the row. *)

(** [select().from(students).where(eq(students.id, id)).limit(1)]; a
    comparison with [NULL] selects no row. *)
Definition getStudent (id : option Z) : M (option Student.t) :=
  read (fun db =>
          head (List.filter
                  (fun row => Js.strict_eq (Some (Student.id row)) id)
                  (students db))).

Definition getStudentByMobile (mobile : string) : M (option Student.t) :=
  read (fun db =>
          head (List.filter
                  (fun row => String.eqb (Student.mobile row) mobile)
                  (students db))).

(** [getStudents()] as the dashboard calls it: all rows,
    [ORDER BY first_name]. *)
Definition getStudents : M (list Student.t) :=
  read (fun db =>
          Sql.order_by
            (fun y x => String.ltb (Student.firstName y) (Student.firstName x))
            (Executor.students_rank (executor db))
            (students db)).

(** The row that [INSERT INTO students] stores: the column defaults fill
    the absent properties. *)
Definition student_row (id now : Z) (insertStudent : InsertStudent.t) : Student.t :=
  {| Student.id := id;
     Student.firstName := InsertStudent.firstName insertStudent;
     Student.lastName := InsertStudent.lastName insertStudent;
     Student.section := InsertStudent.section insertStudent;
     Student.gender := InsertStudent.gender insertStudent;
     Student.mobile := InsertStudent.mobile insertStudent;
     Student.email := mjoin (InsertStudent.email insertStudent);
     Student.dob := mjoin (InsertStudent.dob insertStudent);
     Student.city := mjoin (InsertStudent.city insertStudent);
     Student.work := mjoin (InsertStudent.work insertStudent);
     Student.attendingStatus :=
       Some (default not_confirmed (InsertStudent.attendingStatus insertStudent));
     Student.paidStatus :=
       Some (default not_paid (InsertStudent.paidStatus insertStudent));
     Student.contributionAmount :=
       default (Some 0) (InsertStudent.contributionAmount insertStudent);
     Student.createdAt := Some now |}.

(** Whether the store refuses the value that a statement carries for
    [contribution_amount]: a number outside the range of [integer]. *)
Definition amount_refused (contributionAmount : option (option Z)) : bool :=
  match contributionAmount with
  | Some (Some v) => negb (Sql.int4 v)
  | _ => false
  end.

(** A value outside the range of its column is refused when the
    parameters of the statement are read, before the serial is drawn; the
    unique [mobile] is checked when the row is stored, after it. *)
Definition createStudent (now : Z) (insertStudent : InsertStudent.t)
  : M Student.t :=
  if amount_refused (InsertStudent.contributionAmount insertStudent)
  then raise numeric_value_out_of_range
  else
  let* id := read students_id_seq in
  let* _ := write (with_students_id_seq (id + 1)) in
  let* rows := read students in
  if existsb (fun row => String.eqb (Student.mobile row)
                           (InsertStudent.mobile insertStudent)) rows
  then raise unique_violation
  else
    let row := student_row id now insertStudent in
    let* _ := write (with_students (rows ++ [row])) in
    ret row.

(** [update(students).set(studentData).where(eq(students.id, id))
    .returning()], then [result[0]].  The query builder refuses an object
    without property; the store refuses a [contributionAmount] outside the
    range of the column, whether or not a row has the [id]. *)
Definition updateStudent (id : Z) (studentData : PartialStudent.t)
  : M (option Student.t) :=
  if PartialStudent.is_empty studentData then raise no_values_to_set
  else if amount_refused (PartialStudent.contributionAmount studentData)
  then raise numeric_value_out_of_range
  else
    let* rows := read students in
    let updated :=
      map (fun row => if Student.id row =? id
                      then spread_student row studentData else row) rows in
    let clash :=
      match PartialStudent.mobile studentData with
      | Some mobile =>
          existsb (fun row => Student.id row =? id) rows
          && existsb (fun row => negb (Student.id row =? id)
                                 && String.eqb (Student.mobile row) mobile) rows
      | None => false
      end in
    if clash then raise unique_violation
    else
      let* _ := write (with_students updated) in
      ret (head (List.filter (fun row => Student.id row =? id) updated)).

(** [delete(students).where(eq(students.id, id))]; [!!result] is [true]
    whether or not a row went. *)
Definition deleteStudent (id : Z) : M bool :=
  let* rows := read students in
  let* ledger := read contributions in
  if existsb (fun row => Student.id row =? id) rows
     && existsb (fun c => Js.strict_eq (Contribution.studentId c) (Some id)) ledger
  then raise foreign_key_violation
  else
    let* _ :=
      write (with_students
               (List.filter (fun row => negb (Student.id row =? id)) rows)) in
    ret true.

(** *** Budget and expense methods *)

Definition getBudgetItems : M (list BudgetItem.t) := read budgetItems.

(** Whether the store takes the string as a value of
    [expense_category]. *)
Definition is_expense_category (category : string) : bool :=
  existsb (String.eqb category) expenseCategoryEnum.

(** A value outside the enumerated type is refused when the parameters
    of the statement are read, before a serial is drawn. *)
Definition createBudgetItem (now : Z) (insertBudgetItem : InsertBudgetItem.t)
  : M BudgetItem.t :=
  if negb (is_expense_category (InsertBudgetItem.category insertBudgetItem))
  then raise invalid_enum_value
  else
  let* id := read budget_items_id_seq in
  let* _ := write (with_budget_items_id_seq (id + 1)) in
  let row :=
    {| BudgetItem.id := id;
       BudgetItem.name := InsertBudgetItem.name insertBudgetItem;
       BudgetItem.category := InsertBudgetItem.category insertBudgetItem;
       BudgetItem.description := InsertBudgetItem.description insertBudgetItem;
       BudgetItem.estimatedAmount :=
         InsertBudgetItem.estimatedAmount insertBudgetItem;
       BudgetItem.createdAt := Some now |} in
  let* rows := read budgetItems in
  let* _ := write (with_budgetItems (rows ++ [row])) in
  ret row.

(** [getExpenses()] without options: all rows, [ORDER BY date DESC]. *)
Definition getExpenses : M (list Expense.t) :=
  read (fun db =>
          Sql.order_by (fun y x => Expense.date x <? Expense.date y)
                       (Executor.expenses_rank (executor db) ExpenseQuery.none)
                       (expenses db)).

Definition createExpense (now : Z) (insertExpense : InsertExpense.t)
  : M Expense.t :=
  if negb (is_expense_category (InsertExpense.category insertExpense))
  then raise invalid_enum_value
  else
  let* id := read expenses_id_seq in
  let* _ := write (with_expenses_id_seq (id + 1)) in
  let row :=
    {| Expense.id := id;
       Expense.title := InsertExpense.title insertExpense;
       Expense.category := InsertExpense.category insertExpense;
       Expense.description := InsertExpense.description insertExpense;
       Expense.amount := InsertExpense.amount insertExpense;
       Expense.date := InsertExpense.date insertExpense;
       Expense.receiptImage := mjoin (InsertExpense.receiptImage insertExpense);
       Expense.createdBy := mjoin (InsertExpense.createdBy insertExpense);
       Expense.createdAt := Some now |} in
  let* rows := read expenses in
  let* _ := write (with_expenses (rows ++ [row])) in
  ret row.

(** *** Contribution methods *)

Definition getContribution (id : Z) : M (option Contribution.t) :=
  read (fun db =>
          head (List.filter (fun row => Contribution.id row =? id)
                            (contributions db))).

(** [LIMIT limit] as the query builder writes it: for a negative
    [limit] it writes no clause, and every row is returned. *)
Definition limit_clause {A : Type} (limit : Z) (rows : list A) : list A :=
  if limit <? 0 then rows else take (Z.to_nat limit) rows.

(** The query of [getContributions]: [WHERE], [ORDER BY date DESC], then
    [OFFSET] and [LIMIT].  The store refuses a negative [OFFSET]. *)
Definition getContributions (options : ContributionQuery.t)
  : M (list Contribution.t) :=
  let* rows := read contributions in
  let* rank :=
    read (fun db => Executor.contributions_rank (executor db) options) in
  let rows :=
    if Js.truthy (ContributionQuery.studentId options)
    then List.filter
           (fun row => Js.strict_eq (Contribution.studentId row)
                                    (ContributionQuery.studentId options))
           rows
    else rows in
  let rows :=
    Sql.order_by (fun y x => Contribution.date x <? Contribution.date y)
                 rank rows in
  if Js.truthy (ContributionQuery.limit options) then
    let limit := Js.or_zero (ContributionQuery.limit options) in
    match ContributionQuery.offset options with
    | Some offset =>
        if offset <? 0 then raise negative_offset
        else ret (limit_clause limit (drop (Z.to_nat offset) rows))
    | None => ret (limit_clause limit rows)
    end
  else ret rows.

(** [insert(contributions).values(...).returning()]: the serial is drawn
    before the row is checked. *)
Definition insert_contribution (now : Z) (insertContribution : InsertContribution.t)
  : M Contribution.t :=
  let* id := read contributions_id_seq in
  let* _ := write (with_contributions_id_seq (id + 1)) in
  let row :=
    {| Contribution.id := id;
       Contribution.studentId :=
         mjoin (InsertContribution.studentId insertContribution);
       Contribution.amount := InsertContribution.amount insertContribution;
       Contribution.date := InsertContribution.date insertContribution;
       Contribution.recordedBy :=
         mjoin (InsertContribution.recordedBy insertContribution);
       Contribution.createdAt := Some now |} in
  let* referenced := getStudent (Contribution.studentId row) in
  match Contribution.studentId row, referenced with
  | Some _, None => raise foreign_key_violation
  | _, _ =>
      let* rows := read contributions in
      let* _ := write (with_contributions (rows ++ [row])) in
      ret row
  end.

Definition createContribution (now : Z) (insertContribution : InsertContribution.t)
  : M Contribution.t :=
  let* result := insert_contribution now insertContribution in
  let* student :=
    getStudent (mjoin (InsertContribution.studentId insertContribution)) in
  match student with
  | Some student =>
      let* existingContributions :=
        getContributions
          (ContributionQuery.mk (Some (Student.id student)) None None) in
      let currentAmount := Js.or_zero (Student.contributionAmount student) in
      let updateData :=
        contribution_update
          (currentAmount + InsertContribution.amount insertContribution)
          ((Z.of_nat (length existingContributions) =? 1)
           && negb (paid_is paid (Student.paidStatus student))) in
      let* _ := updateStudent (Student.id student) updateData in
      ret result
  | None => ret result
  end.

(** [update(contributions).set(contributionData)
    .where(eq(contributions.id, id)).returning()], then [result[0]]. *)
Definition update_contribution (id : Z) (contributionData : PartialContribution.t)
  : M (option Contribution.t) :=
  if PartialContribution.is_empty contributionData then raise no_values_to_set
  else
    let* rows := read contributions in
    let updated :=
      map (fun row => if Contribution.id row =? id
                      then spread_contribution row contributionData else row)
          rows in
    let* referenced :=
      getStudent (mjoin (PartialContribution.studentId contributionData)) in
    match mjoin (PartialContribution.studentId contributionData), referenced with
    | Some _, None =>
        if existsb (fun row => Contribution.id row =? id) rows
        then raise foreign_key_violation
        else ret None
    | _, _ =>
        let* _ := write (with_contributions updated) in
        ret (head (List.filter (fun row => Contribution.id row =? id) updated))
    end.

Definition updateContribution (id : Z) (contributionData : PartialContribution.t)
  : M (option Contribution.t) :=
  let* contribution := getContribution id in
  match contribution with
  | None => ret None
  | Some contribution =>
      let* _ :=
        match PartialContribution.amount contributionData with
        | Some newAmount =>
            if negb (newAmount =? Contribution.amount contribution) then
              let* student := getStudent (Contribution.studentId contribution) in
              match student with
              | Some student =>
                  let amountDiff := newAmount - Contribution.amount contribution in
                  let currentAmount :=
                    Js.or_zero (Student.contributionAmount student) in
                  let* _ :=
                    updateStudent (Student.id student)
                      (contribution_update (currentAmount + amountDiff) false) in
                  ret tt
              | None => ret tt
              end
            else ret tt
        | None => ret tt
        end in
      update_contribution id contributionData
  end.

Definition deleteContribution (id : Z) : M bool :=
  let* contribution := getContribution id in
  match contribution with
  | None => ret false
  | Some contribution =>
      let* student := getStudent (Contribution.studentId contribution) in
      let* _ :=
        match student with
        | Some student =>
            if Js.truthy (Student.contributionAmount student) then
              let* _ :=
                updateStudent (Student.id student)
                  (contribution_update
                     (Z.max 0 (Js.or_zero (Student.contributionAmount student)
                               - Contribution.amount contribution))
                     false) in
              ret tt
            else ret tt
        | None => ret tt
        end in
      let* rows := read contributions in
      let* _ :=
        write (with_contributions
                 (List.filter (fun row => negb (Contribution.id row =? id)) rows)) in
      ret true
  end.

(** *** Dashboard and summary methods *)

Definition getDashboardSummary : M DashboardSummary.t :=
  let* allStudents := getStudents in
  let totalStudents := Z.of_nat (length allStudents) in
  let attendingCount :=
    count (fun s => attending_is attending (Student.attendingStatus s))
          allStudents in
  let notAttendingCount :=
    count (fun s => attending_is not_attending (Student.attendingStatus s))
          allStudents in
  let notConfirmedCount :=
    count (fun s => attending_is not_confirmed (Student.attendingStatus s))
          allStudents in
  let paidCount :=
    count (fun s => paid_is paid (Student.paidStatus s)) allStudents in
  let pendingCount :=
    count (fun s => paid_is pending (Student.paidStatus s)) allStudents in
  let notPaidCount :=
    count (fun s => paid_is not_paid (Student.paidStatus s)) allStudents in
  let* totalContributions :=
    read (fun db => Sql.sum Contribution.amount (contributions db)) in
  let* totalExpenses := read (fun db => Sql.sum Expense.amount (expenses db)) in
  let* totalBudget :=
    read (fun db => Sql.sum BudgetItem.estimatedAmount (budgetItems db)) in
  let budgetUtilization :=
    if 0 <? totalBudget then Js.round_percent totalExpenses totalBudget else 0 in
  let sectionStats := map (section_stat allStudents) sections in
  ret {| DashboardSummary.totalStudents := totalStudents;
         DashboardSummary.attendingCount := attendingCount;
         DashboardSummary.notAttendingCount := Some notAttendingCount;
         DashboardSummary.notConfirmedCount := Some notConfirmedCount;
         DashboardSummary.paidCount := paidCount;
         DashboardSummary.pendingCount := Some pendingCount;
         DashboardSummary.notPaidCount := Some notPaidCount;
         DashboardSummary.totalContributions := totalContributions;
         DashboardSummary.totalExpenses := totalExpenses;
         DashboardSummary.budgetUtilization := budgetUtilization;
         DashboardSummary.sectionStats := sectionStats |}.

(** The reducer that groups the expenses by category in an object used
    as a map: [if (!acc[c]) acc[c] = 0; acc[c] += amount].  The keys of
    the model are the own properties of the object; the nine categories
    that the summary reads name no inherited property. *)
Definition add_expense (acc : gmap string Z) (expense : Expense.t)
  : gmap string Z :=
  let c := Expense.category expense in
  let acc :=
    if Js.truthy (acc !! c) then acc else <[c := 0]> acc in
  <[c := Js.or_zero (acc !! c) + Expense.amount expense]> acc.

Definition getBudgetSummary : M BudgetSummary.t :=
  let* allBudgetItems := getBudgetItems in
  let* allExpenses := getExpenses in
  let totalBudget :=
    Js.reduce (fun sum item => sum + BudgetItem.estimatedAmount item)
              0 allBudgetItems in
  let* totalExpenses := read (fun db => Sql.sum Expense.amount (expenses db)) in
  let* totalContributions :=
    read (fun db => Sql.sum Contribution.amount (contributions db)) in
  let balance := totalContributions - totalExpenses in
  let expensesByCategory := Js.reduce add_expense ∅ allExpenses in
  let categoryBreakdown :=
    map (fun category =>
           let categoryBudgetItems :=
             List.filter
               (fun item => String.eqb (BudgetItem.category item) category)
               allBudgetItems in
           let estimatedAmount :=
             Js.reduce (fun sum item => sum + BudgetItem.estimatedAmount item)
                       0 categoryBudgetItems in
           let actualAmount := Js.or_zero (expensesByCategory !! category) in
           CategoryEntry.mk category estimatedAmount actualAmount)
        categories in
  ret {| BudgetSummary.totalBudget := totalBudget;
         BudgetSummary.totalExpenses := totalExpenses;
         BudgetSummary.totalContributions := totalContributions;
         BudgetSummary.balance := balance;
         BudgetSummary.categoryBreakdown := categoryBreakdown |}.

(** The [for ... of] loop of [bulkImportStudents] from the record
    [newStudents] starts with; [createdStudents] is the array built so
    far.  A fault ends the loop and loses the array, not the writes. *)
Fixpoint import_loop (now : Z) (newStudents : list InsertStudent.t)
    (createdStudents : list Student.t) : M (list Student.t) :=
  match newStudents with
  | [] => ret createdStudents
  | studentData :: rest =>
      let* existingStudent :=
        getStudentByMobile (InsertStudent.mobile studentData) in
      match existingStudent with
      | Some existingStudent =>
          let* updatedStudent :=
            updateStudent (Student.id existingStudent)
                          (PartialStudent.of_insert studentData) in
          match updatedStudent with
          | Some updatedStudent =>
              import_loop now rest (createdStudents ++ [updatedStudent])
          | None => import_loop now rest createdStudents
          end
      | None =>
          let* student := createStudent now studentData in
          import_loop now rest (createdStudents ++ [student])
      end
  end.

Definition bulkImportStudents (now : Z) (newStudents : list InsertStudent.t)
  : M (list Student.t) :=
  import_loop now newStudents [].

(** *** The budget and expense methods with their options *)

(** Whether the statement carries a category that is no value of
    [expense_category]. *)
Definition category_refused (category : option string) : bool :=
  match category with
  | Some c => negb (is_expense_category c)
  | None => false
  end.

Definition getBudgetItem (id : Z) : M (option BudgetItem.t) :=
  read (fun db =>
          head (List.filter (fun row => BudgetItem.id row =? id)
                            (budgetItems db))).

(** [update(budgetItems).set(budgetItemData)
    .where(eq(budgetItems.id, id)).returning()], then [result[0]]. *)
Definition updateBudgetItem (id : Z) (budgetItemData : PartialBudgetItem.t)
  : M (option BudgetItem.t) :=
  if PartialBudgetItem.is_empty budgetItemData then raise no_values_to_set
  else if category_refused (PartialBudgetItem.category budgetItemData)
  then raise invalid_enum_value
  else
    let* rows := read budgetItems in
    let updated :=
      map (fun row => if BudgetItem.id row =? id
                      then spread_budgetItem row budgetItemData else row) rows in
    let* _ := write (with_budgetItems updated) in
    ret (head (List.filter (fun row => BudgetItem.id row =? id) updated)).

(** [delete(budgetItems).where(eq(budgetItems.id, id))]; [!!result] is
    [true] whether or not a row went. *)
Definition deleteBudgetItem (id : Z) : M bool :=
  let* rows := read budgetItems in
  let* _ :=
    write (with_budgetItems
             (List.filter (fun row => negb (BudgetItem.id row =? id)) rows)) in
  ret true.

Definition getExpense (id : Z) : M (option Expense.t) :=
  read (fun db =>
          head (List.filter (fun row => Expense.id row =? id) (expenses db))).

(** The query of [getExpenses(options)]: [WHERE], [ORDER BY date DESC],
    then [OFFSET] and [LIMIT].  A category that is no value of the
    enumerated type is refused by the comparison. *)
Definition getExpenses_with (options : ExpenseQuery.t) : M (list Expense.t) :=
  let* rows := read expenses in
  let* rank := read (fun db => Executor.expenses_rank (executor db) options) in
  let* rows :=
    match ExpenseQuery.category options with
    | Some category =>
        if Js.truthy_string (Some category)
        then if is_expense_category category
             then ret (List.filter
                         (fun row => String.eqb (Expense.category row) category)
                         rows)
             else raise invalid_enum_value
        else ret rows
    | None => ret rows
    end in
  let rows :=
    Sql.order_by (fun y x => Expense.date x <? Expense.date y) rank rows in
  if Js.truthy (ExpenseQuery.limit options) then
    let limit := Js.or_zero (ExpenseQuery.limit options) in
    match ExpenseQuery.offset options with
    | Some offset =>
        if offset <? 0 then raise negative_offset
        else ret (limit_clause limit (drop (Z.to_nat offset) rows))
    | None => ret (limit_clause limit rows)
    end
  else ret rows.

Definition updateExpense (id : Z) (expenseData : PartialExpense.t)
  : M (option Expense.t) :=
  if PartialExpense.is_empty expenseData then raise no_values_to_set
  else if category_refused (PartialExpense.category expenseData)
  then raise invalid_enum_value
  else
    let* rows := read expenses in
    let updated :=
      map (fun row => if Expense.id row =? id
                      then spread_expense row expenseData else row) rows in
    let* _ := write (with_expenses updated) in
    ret (head (List.filter (fun row => Expense.id row =? id) updated)).

Definition deleteExpense (id : Z) : M bool :=
  let* rows := read expenses in
  let* _ :=
    write (with_expenses
             (List.filter (fun row => negb (Expense.id row =? id)) rows)) in
  ret true.

End DatabaseStorage.

(** ** The routes (server/routes.ts)

    The exported [storage] is a [DatabaseStorage], so a handler is a
    function on the state of the database.  [req.user] is absent exactly
    when [req.isAuthenticated()] is false.  An identifier of a path is the
    integer that [parseInt] reads from it. *)

Module Role.
Inductive t := superadmin | section_admin | student.
End Role.

Module User.
Record t := mk {
  id : Z;
  username : string;
  password : string;
  role : Role.t;
  section : option SectionName.t;
  studentId : option Z
}.
End User.

Module Routes.

(** What a middleware does: it calls [next()], or answers with a status
    and a message. *)
Inductive verdict :=
| next
| reply (status : Z) (message : string).

Definition is_superadmin (u : User.t) : bool :=
  match User.role u with
  | Role.superadmin => true
  | _ => false
  end.

Definition is_section_admin (u : User.t) : bool :=
  match User.role u with
  | Role.section_admin => true
  | _ => false
  end.

Definition requireAuth (user : option User.t) : verdict :=
  match user with
  | None => reply 401 "Authentication required"
  | Some _ => next
  end.

Definition requireSuperAdmin (user : option User.t) : verdict :=
  match user with
  | Some u =>
      if negb (is_superadmin u)
      then reply 403 "Superadmin privileges required"
      else next
  | None => reply 403 "Superadmin privileges required"
  end.

Definition requireAdmin (user : option User.t) : verdict :=
  match user with
  | Some u =>
      if negb (is_superadmin u) && negb (is_section_admin u)
      then reply 403 "Admin privileges required"
      else next
  | None => reply 403 "Admin privileges required"
  end.

(** [section === req.user.section] for a section that is a string. *)
Definition own_section (u : User.t) (section : string) : bool :=
  match User.section u with
  | Some s => String.eqb section (section_label s)
  | None => false
  end.

(** [checkSectionAccess], which no route installs.  It reads
    [req.user.role], so it is for a request that has a user. *)
Definition checkSectionAccess (u : User.t)
    (params_section query_section : option string) : verdict :=
  if is_superadmin u then next
  else if is_section_admin u then
    let section :=
      if Js.truthy_string params_section then params_section
      else query_section in
    match section with
    | Some s =>
        if negb (Js.truthy_string (Some s)) || own_section u s then next
        else reply 403 "You can only access your assigned section"
    | None => next
    end
  else next.

(** What a handler answers: a status with a message, a status alone, or
    a status with a student. *)
Inductive response :=
| message (status : Z) (text : string)
| send (status : Z)
| json_student (status : Z) (body : Student.t).

Definition status_of (r : response) : Z :=
  match r with
  | message status _ => status
  | send status => status
  | json_student status _ => status
  end.

Definition handler : Type :=
  DatabaseStorage.t -> response * DatabaseStorage.t.

(** A handler body that calls a delete method of the storage: [404] when
    the method returns [false], [204] when it returns [true], and [500]
    from the [catch] when it throws. *)
Definition answer_delete (result : DatabaseStorage.outcome bool)
    (not_found failed : string) : response :=
  match result with
  | DatabaseStorage.Ok success =>
      if negb success then message 404 not_found else send 204
  | DatabaseStorage.Fault _ => message 500 failed
  end.

Definition behind (v : verdict) (h : handler) : handler :=
  fun db =>
    match v with
    | next => h db
    | reply status text => (message status text, db)
    end.

(** [DELETE /api/students/:id] and the three like it. *)
Definition delete_student (user : option User.t) (id : Z) : handler :=
  behind (requireSuperAdmin user)
    (fun db =>
       let (result, db') := DatabaseStorage.deleteStudent id db in
       (answer_delete result "Student not found" "Failed to delete student",
        db')).

Definition delete_budget_item (user : option User.t) (id : Z) : handler :=
  behind (requireSuperAdmin user)
    (fun db =>
       let (result, db') := DatabaseStorage.deleteBudgetItem id db in
       (answer_delete result "Budget item not found"
                      "Failed to delete budget item",
        db')).

Definition delete_expense (user : option User.t) (id : Z) : handler :=
  behind (requireSuperAdmin user)
    (fun db =>
       let (result, db') := DatabaseStorage.deleteExpense id db in
       (answer_delete result "Expense not found" "Failed to delete expense",
        db')).

Definition delete_contribution (user : option User.t) (id : Z) : handler :=
  behind (requireSuperAdmin user)
    (fun db =>
       let (result, db') := DatabaseStorage.deleteContribution id db in
       (answer_delete result "Contribution not found"
                      "Failed to delete contribution",
        db')).


End Routes.

(** ** The predicates of the specification *)

(** The sum of [Contribution.amount] over the ledger rows that reference
    the attendee. *)
Definition ledger_sum (attendee : Z) (ledger : list Contribution.t) : Z :=
  foldr Z.add 0
    (map Contribution.amount
       (List.filter
          (fun c => Js.strict_eq (Contribution.studentId c) (Some attendee))
          ledger)).

(** The two ways to read "the field equals the sum": literally, and as
    the code reads the field, [contributionAmount || 0]. *)
Definition reads_exactly (x : option Z) (v : Z) : Prop := x = Some v.

Definition reads_or_zero (x : option Z) (v : Z) : Prop := Js.or_zero x = v.

(** Every attendee's [contributionAmount] is, under the reading [R], the
    sum of the attendee's ledger rows. *)
Definition consistent_by (R : option Z -> Z -> Prop)
    (attendees : list Student.t) (ledger : list Contribution.t) : Prop :=
  Forall (fun s => R (Student.contributionAmount s)
                     (ledger_sum (Student.id s) ledger))
         attendees.

Definition consistent := consistent_by reads_exactly.

Definition consistent_or_zero := consistent_by reads_or_zero.

(** No ledger row has a negative amount (the data model has them
    positive). *)
Definition amounts_nonneg (ledger : list Contribution.t) : Prop :=
  Forall (fun c => 0 <= Contribution.amount c) ledger.

(** The ledger rows of an attendee. *)
Definition rows_of (attendee : Z) (ledger : list Contribution.t)
  : list Contribution.t :=
  List.filter (fun c => Js.strict_eq (Contribution.studentId c) (Some attendee))
              ledger.

(** What the constructor and the methods of [MemStorage] maintain: a key
    occurs once, a student is stored under its [id], and the counters are
    beyond the keys handed out, which start at 1. *)
Definition mem_wf (st : MemStorage.t) : Prop :=
  List.NoDup (JsMap.keys (MemStorage.studentMap st))
  /\ Forall (fun kv => Student.id (snd kv) = fst kv
                       /\ 1 <= fst kv < MemStorage.currentStudentId st)
            (MemStorage.studentMap st)
  /\ List.NoDup (JsMap.keys (MemStorage.contributionMap st))
  /\ Forall (fun kv => Contribution.id (snd kv) = fst kv
                       /\ fst kv < MemStorage.currentContributionId st)
            (MemStorage.contributionMap st)
  /\ 1 <= MemStorage.currentStudentId st.

(** What the primary keys, their sequences and the unique [mobile] give in
    the database. *)
Definition db_wf (db : DatabaseStorage.t) : Prop :=
  List.NoDup (map Student.id (DatabaseStorage.students db))
  /\ Forall (fun s => 1 <= Student.id s < DatabaseStorage.students_id_seq db)
            (DatabaseStorage.students db)
  /\ List.NoDup (map Contribution.id (DatabaseStorage.contributions db))
  /\ Forall (fun c => Contribution.id c < DatabaseStorage.contributions_id_seq db)
            (DatabaseStorage.contributions db)
  /\ 1 <= DatabaseStorage.students_id_seq db
  /\ List.NoDup (map Student.mobile (DatabaseStorage.students db)).

Definition mem_consistent (st : MemStorage.t) : Prop :=
  consistent (JsMap.values (MemStorage.studentMap st))
             (JsMap.values (MemStorage.contributionMap st)).

Definition db_consistent (db : DatabaseStorage.t) : Prop :=
  consistent (DatabaseStorage.students db) (DatabaseStorage.contributions db).

(** What a ledger row adds to the sum of an attendee. *)
Definition share (attendee : Z) (c : Contribution.t) : Z :=
  if Js.strict_eq (Contribution.studentId c) (Some attendee)
  then Contribution.amount c else 0.

(** The rows that [getContributions({ studentId: k })] of the durable
    backend returns from a ledger, as the table has them. *)
Definition db_rows_of (k : Z) (ledger : list Contribution.t)
  : list Contribution.t :=
  if Js.truthy (Some k)
  then List.filter
         (fun row => Js.strict_eq (Contribution.studentId row) (Some k)) ledger
  else ledger.

(** The rows that [getContributions({ studentId: k })] of the in-memory
    backend returns from a ledger. *)
Definition mem_rows_of (k : Z) (ledger : list Contribution.t)
  : list Contribution.t :=
  if Js.truthy (Some k)
  then List.filter
         (fun row => Js.strict_eq (Contribution.studentId row) (Some k)) ledger
  else ledger.

(** The [paidStatus] of the attendee [k] in either backend. *)
Definition mem_paidStatus (k : Z) (st : MemStorage.t) : option PaidStatus :=
  match JsMap.get k (MemStorage.studentMap st) with
  | Some s => Student.paidStatus s
  | None => None
  end.


(** The rows of a ledger that pass the [studentId] filter of a query: all
    of them when the [studentId] is absent or [0]. *)
Definition filtered_by (studentId : option Z) (ledger : list Contribution.t)
  : list Contribution.t :=
  if Js.truthy studentId
  then List.filter
         (fun c => Js.strict_eq (Contribution.studentId c) studentId) ledger
  else ledger.

(** The order of [ORDER BY date DESC] on contributions. *)
Definition later (y x : Contribution.t) : bool :=
  Contribution.date x <? Contribution.date y.

(** The stored [contributionAmount] of the attendee [k] in either
    backend. *)
Definition mem_contributionAmount (k : Z) (st : MemStorage.t) : option Z :=
  match JsMap.get k (MemStorage.studentMap st) with
  | Some s => Student.contributionAmount s
  | None => None
  end.

Definition db_contributionAmount (k : Z) (db : DatabaseStorage.t) : option Z :=
  match head (List.filter (fun row => Student.id row =? k)
                          (DatabaseStorage.students db)) with
  | Some s => Student.contributionAmount s
  | None => None
  end.

(** The totals the summaries are built from. *)
Definition sum_estimated (items : list BudgetItem.t) : Z :=
  Sql.sum BudgetItem.estimatedAmount items.

Definition sum_expenses (expenses : list Expense.t) : Z :=
  Sql.sum Expense.amount expenses.

Definition sum_running_totals (attendees : list Student.t) : Z :=
  Sql.sum (fun s => Js.or_zero (Student.contributionAmount s)) attendees.

(** The breakdown as the specification words it: for each fixed category,
    the sum of the budget items of that category and the sum of the
    expenses of that category. *)
Definition spec_breakdown (items : list BudgetItem.t) (expenses : list Expense.t)
  : list CategoryEntry.t :=
  map (fun category =>
         CategoryEntry.mk category
           (sum_estimated
              (List.filter
                 (fun item => String.eqb (BudgetItem.category item) category)
                 items))
           (sum_expenses
              (List.filter
                 (fun expense => String.eqb (Expense.category expense) category)
                 expenses)))
      categories.

(** Whether a category is one of the fixed list. *)
Definition fixed_category (category : string) : bool :=
  existsb (String.eqb category) categories.

(** The record [s] carries the values of the imported record [r]: every
    property that [r] has is the property of [s]. *)
Definition carries (r : InsertStudent.t) (s : Student.t) : Prop :=
  Student.firstName s = InsertStudent.firstName r
  /\ Student.lastName s = InsertStudent.lastName r
  /\ Student.section s = InsertStudent.section r
  /\ Student.gender s = InsertStudent.gender r
  /\ Student.mobile s = InsertStudent.mobile r
  /\ (forall v, InsertStudent.email r = Some v -> Student.email s = v)
  /\ (forall v, InsertStudent.dob r = Some v -> Student.dob s = v)
  /\ (forall v, InsertStudent.city r = Some v -> Student.city s = v)
  /\ (forall v, InsertStudent.work r = Some v -> Student.work s = v)
  /\ (forall v, InsertStudent.attendingStatus r = Some v ->
                 Student.attendingStatus s = Some v)
  /\ (forall v, InsertStudent.paidStatus r = Some v ->
                 Student.paidStatus s = Some v)
  /\ (forall v, InsertStudent.contributionAmount r = Some v ->
                 Student.contributionAmount s = v).



(** The first attendee of a list that has the mobile number, if any. *)
Definition existing_attendee (mobile : string) (attendees : list Student.t)
  : option Student.t :=
  head (List.filter (fun s => String.eqb (Student.mobile s) mobile) attendees).

(** The attendee that the in-memory backend makes of an imported record
    under the [id]: the values of the record, an absent value staying
    absent. *)
Definition new_attendee (id now : Z) (r : InsertStudent.t) : Student.t :=
  {| Student.id := id;
     Student.firstName := InsertStudent.firstName r;
     Student.lastName := InsertStudent.lastName r;
     Student.section := InsertStudent.section r;
     Student.gender := InsertStudent.gender r;
     Student.mobile := InsertStudent.mobile r;
     Student.email := mjoin (InsertStudent.email r);
     Student.dob := mjoin (InsertStudent.dob r);
     Student.city := mjoin (InsertStudent.city r);
     Student.work := mjoin (InsertStudent.work r);
     Student.attendingStatus := InsertStudent.attendingStatus r;
     Student.paidStatus := InsertStudent.paidStatus r;
     Student.contributionAmount := mjoin (InsertStudent.contributionAmount r);
     Student.createdAt := Some now |}.

(** The import of one record as the specification words it, on the
    stored attendees: look up an existing attendee by mobile; if found,
    overwrite that attendee with the record; if not found, insert a new
    attendee under the next [id].  The result is the resulting record and
    the new state. *)
Definition mem_upsert (now : Z) (r : InsertStudent.t) (st : MemStorage.t)
  : Student.t * MemStorage.t :=
  match existing_attendee (InsertStudent.mobile r)
          (JsMap.values (MemStorage.studentMap st)) with
  | Some existing =>
      let updated := spread_student existing (PartialStudent.of_insert r) in
      (updated,
       MemStorage.with_studentMap
         (JsMap.set (Student.id existing) updated (MemStorage.studentMap st)) st)
  | None =>
      let id := MemStorage.currentStudentId st in
      let created := new_attendee id now r in
      (created,
       MemStorage.with_studentMap
         (MemStorage.studentMap st ++ [(id, created)])
         (MemStorage.with_currentStudentId (id + 1) st))
  end.


(** The import of a batch as the specification words it: the records one
    after the other, the resulting records in input order. *)
Fixpoint spec_import {S : Type} (upsert : InsertStudent.t -> S -> Student.t * S)
    (records : list InsertStudent.t) (st : S) : list Student.t * S :=
  match records with
  | [] => ([], st)
  | r :: rest =>
      let (s, st1) := upsert r st in
      let (out, st2) := spec_import upsert rest st1 in
      (s :: out, st2)
  end.


(** The row that [createContribution] stores. *)
Definition contribution_row (id now : Z) (ic : InsertContribution.t)
  : Contribution.t :=
  {| Contribution.id := id;
     Contribution.studentId := mjoin (InsertContribution.studentId ic);
     Contribution.amount := InsertContribution.amount ic;
     Contribution.date := InsertContribution.date ic;
     Contribution.recordedBy := mjoin (InsertContribution.recordedBy ic);
     Contribution.createdAt := Some now |}.

(** The update [d] leaves the attendee of the stored contribution [c]
    alone: it has no [studentId], or the one that [c] has. *)
Definition keeps_attendee (d : PartialContribution.t) (c : Contribution.t)
  : Prop :=
  match PartialContribution.studentId d with
  | Some studentId => studentId = Contribution.studentId c
  | None => True
  end.

(** ** Further predicates *)

(** The computation [m] keeps the property [P] of the database, whether
    it completes or raises a fault. *)
Definition keeps {A : Type} (P : DatabaseStorage.t -> Prop)
    (m : DatabaseStorage.M A) : Prop :=
  forall db, P db -> P (snd (m db)).

(** The student [s] with [x] for its running total. *)
Definition with_amount (x : option Z) (s : Student.t) : Student.t :=
  {| Student.id := Student.id s;
     Student.firstName := Student.firstName s;
     Student.lastName := Student.lastName s;
     Student.section := Student.section s;
     Student.gender := Student.gender s;
     Student.mobile := Student.mobile s;
     Student.email := Student.email s;
     Student.dob := Student.dob s;
     Student.city := Student.city s;
     Student.work := Student.work s;
     Student.attendingStatus := Student.attendingStatus s;
     Student.paidStatus := Student.paidStatus s;
     Student.contributionAmount := x;
     Student.createdAt := Student.createdAt s |}.

(** The students of a list without their running totals: what stays of
    them when only the totals change. *)
Definition without_amounts (students : list Student.t) : list Student.t :=
  map (with_amount None) students.

(** The estimated amounts and the expenses that no entry of the category
    breakdown counts: those of a category outside the fixed list. *)
Definition uncovered_estimated (items : list BudgetItem.t) : Z :=
  sum_estimated
    (List.filter (fun item => negb (fixed_category (BudgetItem.category item)))
                 items).

Definition uncovered_expenses (expenses : list Expense.t) : Z :=
  sum_expenses
    (List.filter (fun expense => negb (fixed_category (Expense.category expense)))
                 expenses).

(** Every ledger row references a stored student. *)
Definition mem_no_orphans (st : MemStorage.t) : Prop :=
  Forall (fun c => match Contribution.studentId c with
                   | Some k => JsMap.has k (MemStorage.studentMap st) = true
                   | None => False
                   end)
         (JsMap.values (MemStorage.contributionMap st)).

(** The columns [attending_status] and [paid_status] are [NOT NULL]. *)
Definition statuses_not_null (rows : list Student.t) : Prop :=
  Forall (fun s => Student.attendingStatus s <> None
                   /\ Student.paidStatus s <> None) rows.


(** What the primary keys, the sequences and the enumerated type of the
    category give of the budget items and the expenses in the database. *)
Definition db_books_wf (db : DatabaseStorage.t) : Prop :=
  List.NoDup (map Expense.id (DatabaseStorage.expenses db))
  /\ Forall (fun e => Expense.id e < DatabaseStorage.expenses_id_seq db
                      /\ DatabaseStorage.is_expense_category (Expense.category e)
                         = true)
            (DatabaseStorage.expenses db)
  /\ List.NoDup (map BudgetItem.id (DatabaseStorage.budgetItems db))
  /\ Forall (fun b => BudgetItem.id b < DatabaseStorage.budget_items_id_seq db
                      /\ DatabaseStorage.is_expense_category
                           (BudgetItem.category b) = true)
            (DatabaseStorage.budgetItems db).








(** ** States of a small reunion, built by the methods themselves *)

Module Example.

Definition asha : InsertStudent.t :=
  InsertStudent.mk "Asha" "Rao" SectionName.A Gender.female "9000000001"
    None None None None (Some not_confirmed) (Some not_paid) (Some (Some 0)).

Definition bilal : InsertStudent.t :=
  InsertStudent.mk "Bilal" "Khan" SectionName.B Gender.male "9000000002"
    None None None None (Some attending) (Some not_paid) (Some (Some 0)).

(** A contribution of [amount] by student [student] on day 20000,
    recorded by user 1. *)
Definition gift (student amount : Z) : InsertContribution.t :=
  InsertContribution.mk (Some (Some student)) amount 20000 (Some (Some 1)).

(** The same on another day. *)
Definition gift_on (student amount date : Z) : InsertContribution.t :=
  InsertContribution.mk (Some (Some student)) amount date (Some (Some 1)).

Definition set_amount (amount : Z) : PartialContribution.t :=
  PartialContribution.mk None (Some amount) None None.

Definition set_student (student : Z) : PartialContribution.t :=
  PartialContribution.mk (Some (Some student)) None None None.

(** The object the contribution form sends on an edit: the student of
    the page, the amount and the date. *)
Definition edit (student amount : Z) : PartialContribution.t :=
  PartialContribution.mk (Some (Some student)) (Some amount) (Some 20003) None.

Definition hall_rent : InsertExpense.t :=
  InsertExpense.mk "Hall rent" "venue" "Deposit for the hall" 50 20001
    None (Some (Some 1)).

Definition fireworks : InsertExpense.t :=
  InsertExpense.mk "Fireworks" "fireworks" "Outside the fixed list" 70 20002
    None (Some (Some 1)).

Definition catering : InsertExpense.t :=
  InsertExpense.mk "Catering" "food" "Advance for the caterer" 70 20002
    None (Some (Some 1)).

Definition hall_plan : InsertBudgetItem.t :=
  InsertBudgetItem.mk "Hall" "venue" "Rent of the hall" 200.

(** The first student again, moved to section C and to Pune, and a third
    student. *)
Definition asha_moved : InsertStudent.t :=
  InsertStudent.mk "Asha" "Rao" SectionName.C Gender.female "9000000001"
    None None (Some (Some "Pune")) None (Some attending) None None.

Definition chitra : InsertStudent.t :=
  InsertStudent.mk "Chitra" "Nair" SectionName.D Gender.female "9000000003"
    None None None None None None None.


(** The update that sets the running total of a student by hand. *)
Definition set_total (amount : Z) : PartialStudent.t :=
  PartialStudent.mk None None None None None None None None None None None
    (Some (Some amount)).

(** In memory: two students, then one and two contributions of the
    first. *)
Definition mem0 : MemStorage.t :=
  snd (MemStorage.createStudent 1 bilal
         (snd (MemStorage.createStudent 0 asha MemStorage.init))).

Definition mem1 : MemStorage.t :=
  snd (MemStorage.createContribution 2 (gift 1 500) mem0).

Definition mem2 : MemStorage.t :=
  snd (MemStorage.createContribution 3 (gift 1 300) mem1).

(** A ledger that the unvalidated route can build: a contribution of 5
    and one of -5 for the first student. *)
Definition mem_refund : MemStorage.t :=
  snd (MemStorage.createContribution 3 (gift 1 (-5))
         (snd (MemStorage.createContribution 2 (gift 1 5) mem0))).

(** Contributions of both students on three days, the second student's
    between the two of the first. *)
Definition mem_mixed : MemStorage.t :=
  snd (MemStorage.createContribution 4 (gift_on 1 300 20002)
         (snd (MemStorage.createContribution 3 (gift_on 2 250 20001)
                 (snd (MemStorage.createContribution 2 (gift_on 1 500 20000)
                         mem0))))).

(** A running total that has drifted: the first student has paid 500 and
    the total was set to 200 by hand. *)
Definition mem_drift : MemStorage.t :=
  snd (MemStorage.updateStudent 1 (set_total 200) mem1).

(** Then an expense, and then a budget item and an expense outside the
    fixed categories. *)
Definition mem3 : MemStorage.t :=
  snd (MemStorage.createExpense 4 hall_rent mem2).

Definition mem4 : MemStorage.t :=
  snd (MemStorage.createExpense 6 fireworks
         (snd (MemStorage.createBudgetItem 5 hall_plan mem3))).

(** The same in the database, where the second expense has a category
    of the enumerated type. *)
Definition db0 : DatabaseStorage.t :=
  snd (DatabaseStorage.createStudent 1 bilal
         (snd (DatabaseStorage.createStudent 0 asha DatabaseStorage.init))).

Definition db1 : DatabaseStorage.t :=
  snd (DatabaseStorage.createContribution 2 (gift 1 500) db0).

Definition db2 : DatabaseStorage.t :=
  snd (DatabaseStorage.createContribution 3 (gift 1 300) db1).

Definition db3 : DatabaseStorage.t :=
  snd (DatabaseStorage.createExpense 4 hall_rent db2).

Definition db4 : DatabaseStorage.t :=
  snd (DatabaseStorage.createExpense 6 catering
         (snd (DatabaseStorage.createBudgetItem 5 hall_plan db3))).

Definition db_mixed : DatabaseStorage.t :=
  snd (DatabaseStorage.createContribution 4 (gift_on 1 300 20002)
         (snd (DatabaseStorage.createContribution 3 (gift_on 2 250 20001)
                 (snd (DatabaseStorage.createContribution 2 (gift_on 1 500 20000)
                         db0))))).

Definition db_drift : DatabaseStorage.t :=
  snd (DatabaseStorage.updateStudent 1 (set_total 200) db1).

Definition db_refund : DatabaseStorage.t :=
  snd (DatabaseStorage.createContribution 3 (gift 1 (-5))
         (snd (DatabaseStorage.createContribution 2 (gift 1 5) db0))).



(** Five contributions of the first student on one day, and a store that
    returns rows that tie from the highest [id] to the lowest. *)
Definition db_same_day : DatabaseStorage.t :=
  snd (DatabaseStorage.createContribution 6 (gift 1 50)
         (snd (DatabaseStorage.createContribution 5 (gift 1 40)
                 (snd (DatabaseStorage.createContribution 4 (gift 1 30)
                         (snd (DatabaseStorage.createContribution 3 (gift 1 20)
                                 (snd (DatabaseStorage.createContribution 2
                                         (gift 1 10) db0))))))))).

Definition latest_first : Executor.t :=
  Executor.mk (fun _ => 0) (fun _ _ => 0) (fun _ c => - Contribution.id c).

(** The users of the reunion: the superadmin, the admin of section A
    and the first student. *)
Definition admin : User.t :=
  User.mk 1 "admin" "admin123" Role.superadmin None None.

Definition admin_a : User.t :=
  User.mk 2 "anita" "secret" Role.section_admin (Some SectionName.A) None.

Definition pupil : User.t :=
  User.mk 3 "9000000001" "9000000001" Role.student (Some SectionName.A) (Some 1).

End Example.

(** * Facts *)

(** ** Sums and reductions *)

Lemma reduce_add_acc {A : Type} (f : A -> Z) (l : list A) (z : Z) :
  Js.reduce (fun sum x => sum + f x) z l = z + Sql.sum f l.
Proof.
  unfold Js.reduce. revert z.
  induction l as [|x l IH]; intros z; simpl.
  - lia.
  - rewrite IH. lia.
Qed.

Lemma reduce_add_sum {A : Type} (f : A -> Z) (l : list A) :
  Js.reduce (fun sum x => sum + f x) 0 l = Sql.sum f l.
Proof. rewrite reduce_add_acc. lia. Qed.

Lemma sum_cons {A : Type} (f : A -> Z) x (l : list A) :
  Sql.sum f (x :: l) = f x + Sql.sum f l.
Proof. reflexivity. Qed.


Lemma sum_Permutation {A : Type} (f : A -> Z) (l1 l2 : list A) :
  Permutation l1 l2 -> Sql.sum f l1 = Sql.sum f l2.
Proof.
  induction 1; simpl; lia.
Qed.

Lemma sum_nonneg {A : Type} (f : A -> Z) (l : list A) :
  Forall (fun x => 0 <= f x) l -> 0 <= Sql.sum f l.
Proof.
  induction 1; simpl; lia.
Qed.

Lemma ledger_sum_nil a : ledger_sum a [] = 0.
Proof. reflexivity. Qed.

Lemma ledger_sum_cons a c l :
  ledger_sum a (c :: l) = share a c + ledger_sum a l.
Proof.
  unfold ledger_sum, share. simpl.
  destruct (Js.strict_eq _ _); simpl; lia.
Qed.

Lemma ledger_sum_app a l1 l2 :
  ledger_sum a (l1 ++ l2) = ledger_sum a l1 + ledger_sum a l2.
Proof.
  induction l1 as [|c l1 IH]; simpl.
  - rewrite ledger_sum_nil. lia.
  - rewrite !ledger_sum_cons, IH. lia.
Qed.

Lemma ledger_sum_snoc a l c :
  ledger_sum a (l ++ [c]) = ledger_sum a l + share a c.
Proof.
  rewrite ledger_sum_app, ledger_sum_cons, ledger_sum_nil. lia.
Qed.

Lemma ledger_sum_nonneg a l : amounts_nonneg l -> 0 <= ledger_sum a l.
Proof.
  induction 1 as [|c l Hc _ IH].
  - rewrite ledger_sum_nil. lia.
  - rewrite ledger_sum_cons. unfold share.
    destruct (Js.strict_eq _ _); lia.
Qed.

Lemma ledger_sum_rows_of a l :
  ledger_sum a l = Sql.sum Contribution.amount (rows_of a l).
Proof.
  unfold ledger_sum, rows_of.
  induction (List.filter _ l) as [|c r IH]; simpl; congruence.
Qed.

Lemma strict_eq_Some_iff (x : option Z) (k : Z) :
  Js.strict_eq x (Some k) = true <-> x = Some k.
Proof.
  destruct x as [y|]; simpl; [|split; discriminate].
  rewrite Z.eqb_eq. split; congruence.
Qed.

Lemma share_owner k c :
  Contribution.studentId c = Some k -> share k c = Contribution.amount c.
Proof.
  intros H. unfold share. rewrite H. simpl. now rewrite Z.eqb_refl.
Qed.

Lemma share_other a c :
  Contribution.studentId c <> Some a -> share a c = 0.
Proof.
  intros H. unfold share.
  destruct (Js.strict_eq _ _) eqn:E; [|reflexivity].
  apply strict_eq_Some_iff in E. contradiction.
Qed.

(** ** [Map] operations *)

Section JsMapFacts.
Context {V : Type}.
Implicit Types (m : list (Z * V)) (k : Z) (v : V).

Lemma get_None_keys k m : JsMap.get k m = None <-> ~ In k (JsMap.keys m).
Proof.
  induction m as [|[k' v'] m IH]; simpl.
  - tauto.
  - destruct (Z.eqb_spec k' k) as [->|Hne].
    + split; [discriminate|]. intros H. exfalso. apply H. now left.
    + rewrite IH. split.
      * intros H [Heq|Hin]; [congruence|tauto].
      * tauto.
Qed.

Lemma get_Some_In k v m : JsMap.get k m = Some v -> In (k, v) m.
Proof.
  induction m as [|[k' v'] m IH]; simpl; [discriminate|].
  destruct (Z.eqb_spec k' k) as [->|Hne].
  - intros [= ->]. now left.
  - intros H. right. auto.
Qed.

Lemma In_get k v m : List.NoDup (JsMap.keys m) -> In (k, v) m -> JsMap.get k m = Some v.
Proof.
  induction m as [|[k' v'] m IH]; simpl; [tauto|].
  intros Hnd [Heq|Hin].
  - inversion Heq; subst. now rewrite Z.eqb_refl.
  - inversion Hnd as [|? ? Hnotin Hnd']; subst.
    destruct (Z.eqb_spec k' k) as [->|Hne]; [|auto].
    exfalso. apply Hnotin. apply (in_map fst) in Hin. exact Hin.
Qed.

(** A key that is absent is appended by [set]. *)
Lemma set_fresh k v m : JsMap.get k m = None -> JsMap.set k v m = m ++ [(k, v)].
Proof.
  induction m as [|[k' v'] m IH]; simpl; [reflexivity|].
  destruct (k' =? k); [discriminate|].
  intros H. now rewrite IH.
Qed.

(** A key that is present marks the place where [set] and [delete] act. *)
Lemma get_Some_split k v m :
  JsMap.get k m = Some v ->
  exists m1 m2,
    m = m1 ++ (k, v) :: m2
    /\ (forall v', JsMap.set k v' m = m1 ++ (k, v') :: m2)
    /\ JsMap.delete k m = m1 ++ m2.
Proof.
  induction m as [|[k' v'] m IH]; simpl; [discriminate|].
  destruct (Z.eqb_spec k' k) as [->|Hne].
  - intros [= ->]. exists [], m. simpl. auto.
  - intros H. destruct (IH H) as (m1 & m2 & -> & Hset & Hdel).
    exists ((k', v') :: m1), m2. simpl.
    split; [reflexivity|]. split.
    + intros v''. now rewrite Hset.
    + now rewrite Hdel.
Qed.

Lemma get_set_same k v m : JsMap.get k (JsMap.set k v m) = Some v.
Proof.
  induction m as [|[k' v'] m IH]; simpl.
  - now rewrite Z.eqb_refl.
  - destruct (Z.eqb_spec k' k) as [->|Hne]; simpl.
    + now rewrite Z.eqb_refl.
    + destruct (Z.eqb_spec k' k); [contradiction|]. exact IH.
Qed.

Lemma get_set_other k k' v m :
  k' <> k -> JsMap.get k' (JsMap.set k v m) = JsMap.get k' m.
Proof.
  intros Hne. induction m as [|[k0 v0] m IH]; simpl.
  - destruct (Z.eqb_spec k k'); [congruence|reflexivity].
  - destruct (Z.eqb_spec k0 k) as [->|Hne0]; simpl.
    + destruct (Z.eqb_spec k k'); [congruence|reflexivity].
    + destruct (k0 =? k'); [reflexivity|exact IH].
Qed.

Lemma keys_set_present k v m :
  In k (JsMap.keys m) -> JsMap.keys (JsMap.set k v m) = JsMap.keys m.
Proof.
  induction m as [|[k' v'] m IH]; simpl; [tauto|].
  destruct (Z.eqb_spec k' k) as [->|Hne]; simpl; [reflexivity|].
  intros [Heq|Hin]; [contradiction|]. f_equal. now apply IH.
Qed.

Lemma keys_app m1 m2 : JsMap.keys (m1 ++ m2) = JsMap.keys m1 ++ JsMap.keys m2.
Proof. unfold JsMap.keys. apply map_app. Qed.

Lemma values_app m1 m2 :
  JsMap.values (m1 ++ m2) = JsMap.values m1 ++ JsMap.values m2.
Proof. unfold JsMap.values. apply map_app. Qed.

End JsMapFacts.

(** In a map that stores each student under its [id], without repeated
    key, [set] at a present key is a pointwise replacement. *)
Lemma values_set_student k u (m : list (Z * Student.t)) :
  List.NoDup (JsMap.keys m) ->
  Forall (fun kv => Student.id (snd kv) = fst kv) m ->
  In k (JsMap.keys m) ->
  JsMap.values (JsMap.set k u m)
  = map (fun s => if Student.id s =? k then u else s) (JsMap.values m).
Proof.
  induction m as [|[k' s'] m IH]; simpl; [tauto|].
  intros Hnd Hid Hin.
  inversion Hnd as [|? ? Hnotin Hnd']; subst.
  inversion Hid as [|? ? Hk Hid']; subst. simpl in Hk.
  rewrite Hk. clear Hk.
  destruct (Z.eqb_spec k' k) as [Heq|Hne]; simpl.
  - f_equal. subst k'.
    clear IH Hid Hnd Hin.
    induction m as [|[k2 s2] m IHm]; simpl; [reflexivity|].
    inversion Hid' as [|? ? Hk2 Hid2]; subst. simpl in Hk2.
    inversion Hnd' as [|? ? ? Hnd2]; subst.
    simpl in Hnotin.
    destruct (Z.eqb_spec (Student.id s2) k) as [Heq|_].
    + exfalso. apply Hnotin. left. congruence.
    + f_equal. apply IHm; auto.
  - f_equal. destruct Hin as [Heq|Hin]; [contradiction|].
    now apply IH.
Qed.

Lemma values_split {V : Type} k (v : V) (m : list (Z * V)) :
  JsMap.get k m = Some v ->
  exists l1 l2,
    JsMap.values m = l1 ++ v :: l2
    /\ (forall v', JsMap.values (JsMap.set k v' m) = l1 ++ v' :: l2)
    /\ JsMap.values (JsMap.delete k m) = l1 ++ l2.
Proof.
  intros H. destruct (get_Some_split _ _ _ H) as (m1 & m2 & -> & Hset & Hdel).
  exists (JsMap.values m1), (JsMap.values m2). split; [|split].
  - now rewrite values_app.
  - intros v'. rewrite Hset. now rewrite values_app.
  - rewrite Hdel. now rewrite values_app.
Qed.

Lemma student_stored (m : list (Z * Student.t)) s :
  List.NoDup (JsMap.keys m) ->
  Forall (fun kv => Student.id (snd kv) = fst kv) m ->
  In s (JsMap.values m) ->
  JsMap.get (Student.id s) m = Some s.
Proof.
  intros Hnd Hid Hin.
  apply in_map_iff in Hin as ([k s'] & Heq & Hin). simpl in Heq. subst s'.
  apply In_get; [exact Hnd|].
  rewrite List.Forall_forall in Hid. specialize (Hid _ Hin). simpl in Hid.
  now rewrite Hid.
Qed.

Lemma student_key (m : list (Z * Student.t)) k s :
  Forall (fun kv => Student.id (snd kv) = fst kv) m ->
  JsMap.get k m = Some s -> Student.id s = k.
Proof.
  intros Hid Hget. apply get_Some_In in Hget.
  rewrite List.Forall_forall in Hid. exact (Hid _ Hget).
Qed.

(** ** The update that the contribution methods send to a student *)

Lemma spread_update_id s x b :
  Student.id (spread_student s (contribution_update x b)) = Student.id s.
Proof. reflexivity. Qed.

Lemma spread_update_amount s x b :
  Student.contributionAmount (spread_student s (contribution_update x b)) = Some x.
Proof. reflexivity. Qed.

Lemma spread_update_paid s x b :
  Student.paidStatus (spread_student s (contribution_update x b))
  = if b then Some paid else Student.paidStatus s.
Proof. destruct b; reflexivity. Qed.

Lemma contribution_update_nonempty x b :
  PartialStudent.is_empty (contribution_update x b) = false.
Proof. destruct b; reflexivity. Qed.

Lemma keeps_attendee_spread d c :
  keeps_attendee d c ->
  Contribution.studentId (spread_contribution c d) = Contribution.studentId c.
Proof.
  unfold keeps_attendee, spread_contribution. simpl.
  destruct (PartialContribution.studentId d); [now intros ->|reflexivity].
Qed.

(** ** Consistency under a change of one attendee and of the ledger *)

Section Reading.
Variable R : option Z -> Z -> Prop.
Hypothesis R_or_zero : forall x v, R x v -> Js.or_zero x = v.
Hypothesis R_Some : forall v, R (Some v) v.

Lemma consistent_frame attendees ledger ledger' :
  consistent_by R attendees ledger ->
  (forall s, In s attendees ->
             ledger_sum (Student.id s) ledger' = ledger_sum (Student.id s) ledger) ->
  consistent_by R attendees ledger'.
Proof.
  unfold consistent_by. rewrite !List.Forall_forall.
  intros H Hsum s Hs. rewrite (Hsum s Hs). auto.
Qed.

Lemma consistent_shift attendees ledger ledger' k delta g :
  consistent_by R attendees ledger ->
  (forall s, In s attendees -> Student.id s <> k ->
             ledger_sum (Student.id s) ledger' = ledger_sum (Student.id s) ledger) ->
  ledger_sum k ledger' = ledger_sum k ledger + delta ->
  (forall s, In s attendees -> Student.id s = k ->
             Student.id (g s) = k
             /\ Student.contributionAmount (g s)
                = Some (Js.or_zero (Student.contributionAmount s) + delta)) ->
  consistent_by R
    (map (fun s => if Student.id s =? k then g s else s) attendees) ledger'.
Proof.
  unfold consistent_by. rewrite !List.Forall_forall.
  intros H Hother Hk Hg s' Hs'.
  apply in_map_iff in Hs' as (s & <- & Hs).
  destruct (Z.eqb_spec (Student.id s) k) as [Heq|Hne].
  - destruct (Hg s Hs Heq) as [Hid Ham].
    rewrite Hid, Ham, Hk. rewrite <- Heq.
    rewrite (R_or_zero _ _ (H s Hs)). apply R_Some.
  - rewrite (Hother s Hs Hne). auto.
Qed.

End Reading.

Lemma reads_exactly_or_zero x v : reads_exactly x v -> Js.or_zero x = v.
Proof. unfold reads_exactly. now intros ->. Qed.

Lemma reads_exactly_Some v : reads_exactly (Some v) v.
Proof. reflexivity. Qed.

Lemma reads_or_zero_or_zero x v : reads_or_zero x v -> Js.or_zero x = v.
Proof. auto. Qed.

Lemma reads_or_zero_Some v : reads_or_zero (Some v) v.
Proof. reflexivity. Qed.

(** ** The ledger methods of [MemStorage] *)

Lemma mem_fresh_contribution st :
  mem_wf st ->
  JsMap.get (MemStorage.currentContributionId st) (MemStorage.contributionMap st)
  = None.
Proof.
  intros (_ & _ & _ & Hlt & _). apply get_None_keys. intros Hin.
  apply in_map_iff in Hin as (kv & Heq & Hin).
  rewrite List.Forall_forall in Hlt. specialize (Hlt _ Hin). lia.
Qed.

Lemma mem_student_ids st :
  mem_wf st ->
  Forall (fun kv => Student.id (snd kv) = fst kv) (MemStorage.studentMap st).
Proof.
  intros (_ & H & _). eapply List.Forall_impl; [|exact H]. simpl. tauto.
Qed.

Lemma mem_updateStudent_values st k student d :
  List.NoDup (JsMap.keys (MemStorage.studentMap st)) ->
  Forall (fun kv => Student.id (snd kv) = fst kv) (MemStorage.studentMap st) ->
  JsMap.get k (MemStorage.studentMap st) = Some student ->
  MemStorage.contributionMap (snd (MemStorage.updateStudent k d st))
  = MemStorage.contributionMap st
  /\ JsMap.values (MemStorage.studentMap (snd (MemStorage.updateStudent k d st)))
     = map (fun s => if Student.id s =? k then spread_student student d else s)
           (JsMap.values (MemStorage.studentMap st)).
Proof.
  intros Hnd Hid Hget. unfold MemStorage.updateStudent. rewrite Hget. simpl.
  split; [reflexivity|].
  apply values_set_student; auto.
  apply get_Some_In in Hget. apply (in_map fst) in Hget. exact Hget.
Qed.

(** A ledger row whose attendee is no stored student adds to no stored
    student's sum. *)
Lemma share_absent_owner (m : list (Z * Student.t)) c s :
  Forall (fun kv => Student.id (snd kv) = fst kv) m ->
  match Contribution.studentId c with
  | Some k => JsMap.get k m = None
  | None => True
  end ->
  In s (JsMap.values m) ->
  share (Student.id s) c = 0.
Proof.
  intros Hid Hc Hs. apply share_other. intros Heq. rewrite Heq in Hc.
  apply get_None_keys in Hc. apply Hc.
  apply in_map_iff in Hs as (kv & <- & Hin).
  rewrite List.Forall_forall in Hid. rewrite (Hid _ Hin).
  now apply in_map.
Qed.

Section MemLedger.
Variable R : option Z -> Z -> Prop.
Hypothesis R_or_zero : forall x v, R x v -> Js.or_zero x = v.
Hypothesis R_Some : forall v, R (Some v) v.

Let consistent_in (st : MemStorage.t) : Prop :=
  consistent_by R (JsMap.values (MemStorage.studentMap st))
                  (JsMap.values (MemStorage.contributionMap st)).

Lemma mem_create_keeps now ic st :
  mem_wf st -> consistent_in st ->
  consistent_in (snd (MemStorage.createContribution now ic st)).
Proof.
  intros Hwf Hc. unfold consistent_in in *.
  pose proof (mem_student_ids st Hwf) as Hid.
  assert (Hnd : List.NoDup (JsMap.keys (MemStorage.studentMap st))) by apply Hwf.
  unfold MemStorage.createContribution.
  set (id := MemStorage.currentContributionId st).
  set (c := Contribution.mk id _ _ _ _ _).
  set (st1 := MemStorage.with_contributionMap _ _).
  assert (Hledger : JsMap.values (MemStorage.contributionMap st1)
                    = JsMap.values (MemStorage.contributionMap st) ++ [c]).
  { unfold st1. simpl. rewrite set_fresh by now apply mem_fresh_contribution.
    now rewrite values_app. }
  change (MemStorage.getStudent (mjoin (InsertContribution.studentId ic)) st1)
    with (MemStorage.getStudent (Contribution.studentId c) st).
  destruct (MemStorage.getStudent (Contribution.studentId c) st)
    as [student|] eqn:Hget; cbn [snd].
  - unfold MemStorage.getStudent in Hget.
    destruct (Contribution.studentId c) as [k|] eqn:Hk; [|discriminate].
    pose proof (student_key _ _ _ Hid Hget) as Hsk. rewrite Hsk.
    destruct (mem_updateStudent_values st1 k student
                (contribution_update
                   (Js.or_zero (Student.contributionAmount student)
                    + InsertContribution.amount ic)
                   ((Z.of_nat
                       (length
                          (MemStorage.getContributions
                             (ContributionQuery.mk (Some k) None None) st1))
                     =? 1)
                    && negb (paid_is paid (Student.paidStatus student))))
                Hnd Hid Hget) as [Hcm Hsm].
    rewrite Hcm, Hsm, Hledger.
    apply consistent_shift
      with (ledger := JsMap.values (MemStorage.contributionMap st))
           (delta := InsertContribution.amount ic)
           (g := fun _ => spread_student student _); auto.
    + intros s Hs Hne. rewrite ledger_sum_snoc, share_other; [lia|].
      congruence.
    + rewrite ledger_sum_snoc, share_owner; auto.
    + intros s Hs Heq. split; [exact Hsk|].
      rewrite spread_update_amount.
      pose proof (student_stored _ _ Hnd Hid Hs) as Hst.
      rewrite Heq, Hget in Hst. now inversion Hst.
  - rewrite Hledger. apply (consistent_frame R _ _ _ Hc).
    intros s Hs. rewrite ledger_sum_snoc.
    rewrite (share_absent_owner (MemStorage.studentMap st)); auto; [lia|].
    unfold MemStorage.getStudent in Hget.
    destruct (Contribution.studentId c); auto.
Qed.

Lemma mem_update_keeps id d st :
  (forall c, MemStorage.getContribution id st = Some c -> keeps_attendee d c) ->
  mem_wf st -> consistent_in st ->
  consistent_in (snd (MemStorage.updateContribution id d st)).
Proof.
  intros Hkeep Hwf Hc. unfold consistent_in in *.
  pose proof (mem_student_ids st Hwf) as Hid.
  assert (Hnd : List.NoDup (JsMap.keys (MemStorage.studentMap st))) by apply Hwf.
  unfold MemStorage.updateContribution.
  destruct (JsMap.get id (MemStorage.contributionMap st)) as [c|] eqn:Hget;
    [|exact Hc].
  destruct (values_split _ _ _ Hget) as (l1 & l2 & Hl & Hset & _).
  set (c' := spread_contribution c d).
  assert (Hsid : Contribution.studentId c' = Contribution.studentId c).
  { apply keeps_attendee_spread. now apply Hkeep. }
  assert (Hsum : forall a,
             ledger_sum a (l1 ++ c' :: l2)
             = ledger_sum a (l1 ++ c :: l2) + (share a c' - share a c)).
  { intros a. rewrite !ledger_sum_app, !ledger_sum_cons. lia. }
  assert (Hframe :
            Contribution.amount c' = Contribution.amount c ->
            consistent_by R (JsMap.values (MemStorage.studentMap st))
                            (l1 ++ c' :: l2)).
  { intros Ham. apply (consistent_frame R _ _ _ Hc).
    intros s Hs. rewrite Hl, Hsum. unfold share. rewrite Hsid, Ham. lia. }
  cbn [snd].
  destruct (PartialContribution.amount d) as [newAmount|] eqn:Hnew.
  - destruct (Z.eqb_spec newAmount (Contribution.amount c)) as [Heq|Hne];
      cbn [negb].
    + cbn [MemStorage.contributionMap MemStorage.studentMap
             MemStorage.with_contributionMap].
      rewrite Hset. apply Hframe.
      unfold c', spread_contribution. simpl. now rewrite Hnew.
    + assert (Ham' : Contribution.amount c' = newAmount).
      { unfold c', spread_contribution. simpl. now rewrite Hnew. }
      destruct (MemStorage.getStudent (Contribution.studentId c) st)
        as [student|] eqn:Hst.
      * unfold MemStorage.getStudent in Hst.
        destruct (Contribution.studentId c) as [k|] eqn:Hk; [|discriminate].
        pose proof (student_key _ _ _ Hid Hst) as Hsk. rewrite Hsk.
        destruct (mem_updateStudent_values st k student
                    (contribution_update
                       (Js.or_zero (Student.contributionAmount student)
                        + (newAmount - Contribution.amount c)) false)
                    Hnd Hid Hst) as [Hcm Hsm].
        cbn [MemStorage.contributionMap MemStorage.studentMap
               MemStorage.with_contributionMap].
        rewrite Hcm, Hsm, Hset.
        apply consistent_shift
          with (ledger := JsMap.values (MemStorage.contributionMap st))
               (delta := newAmount - Contribution.amount c)
               (g := fun _ => spread_student student _); auto.
        -- intros s Hs Hne'. rewrite Hl, Hsum.
           rewrite !share_other; [lia| |]; congruence.
        -- rewrite Hl, Hsum. rewrite !share_owner; [lia| |]; congruence.
        -- intros s Hs Heq. split; [exact Hsk|].
           rewrite spread_update_amount.
           pose proof (student_stored _ _ Hnd Hid Hs) as Hst'.
           rewrite Heq, Hst in Hst'. now inversion Hst'.
      * cbn [MemStorage.contributionMap MemStorage.studentMap
               MemStorage.with_contributionMap].
        rewrite Hset. apply (consistent_frame R _ _ _ Hc).
        intros s Hs. rewrite Hl, Hsum.
        rewrite !(share_absent_owner (MemStorage.studentMap st)); auto; [lia| |].
        -- unfold MemStorage.getStudent in Hst.
           destruct (Contribution.studentId c); auto.
        -- rewrite Hsid. unfold MemStorage.getStudent in Hst.
           destruct (Contribution.studentId c); auto.
  - cbn [MemStorage.contributionMap MemStorage.studentMap
           MemStorage.with_contributionMap].
    rewrite Hset. apply Hframe.
    unfold c', spread_contribution. simpl. now rewrite Hnew.
Qed.

Lemma mem_delete_keeps id st :
  amounts_nonneg (JsMap.values (MemStorage.contributionMap st)) ->
  mem_wf st -> consistent_in st ->
  consistent_in (snd (MemStorage.deleteContribution id st)).
Proof.
  intros Hpos Hwf Hc. unfold consistent_in in *.
  pose proof (mem_student_ids st Hwf) as Hid.
  assert (Hnd : List.NoDup (JsMap.keys (MemStorage.studentMap st))) by apply Hwf.
  unfold MemStorage.deleteContribution.
  destruct (JsMap.get id (MemStorage.contributionMap st)) as [c|] eqn:Hget;
    [|exact Hc].
  destruct (values_split _ _ _ Hget) as (l1 & l2 & Hl & _ & Hdel).
  assert (Hsum : forall a,
             ledger_sum a (l1 ++ l2) = ledger_sum a (l1 ++ c :: l2) - share a c).
  { intros a. rewrite !ledger_sum_app, !ledger_sum_cons. lia. }
  assert (Hrest : forall a, 0 <= ledger_sum a (l1 ++ l2)).
  { intros a. apply ledger_sum_nonneg. unfold amounts_nonneg in *.
    rewrite Hl in Hpos. apply Forall_app in Hpos as [H1 H2].
    apply Forall_app. split; [exact H1|]. now inversion H2. }
  cbn [snd].
  destruct (MemStorage.getStudent (Contribution.studentId c) st)
    as [student|] eqn:Hst.
  - unfold MemStorage.getStudent in Hst.
    destruct (Contribution.studentId c) as [k|] eqn:Hk; [|discriminate].
    pose proof (student_key _ _ _ Hid Hst) as Hsk. rewrite Hsk.
    destruct (mem_updateStudent_values st k student
                (contribution_update
                   (Z.max 0 (Js.or_zero (Student.contributionAmount student)
                             - Contribution.amount c)) false)
                Hnd Hid Hst) as [Hcm Hsm].
    cbn [MemStorage.contributionMap MemStorage.studentMap
           MemStorage.with_contributionMap].
    rewrite Hcm, Hsm, Hdel.
    apply consistent_shift
      with (ledger := JsMap.values (MemStorage.contributionMap st))
           (delta := - Contribution.amount c)
           (g := fun _ => spread_student student _); auto.
    + intros s Hs Hne'. rewrite Hl, Hsum.
      rewrite share_other; [lia|]. congruence.
    + rewrite Hl, Hsum. rewrite share_owner; [lia|]. congruence.
    + intros s Hs Heq. split; [exact Hsk|].
      rewrite spread_update_amount.
      pose proof (student_stored _ _ Hnd Hid Hs) as Hst'.
      rewrite Heq, Hst in Hst'. inversion Hst'; subst s.
      f_equal.
      assert (Hin : In student (JsMap.values (MemStorage.studentMap st))) by exact Hs.
      unfold consistent_by in Hc. rewrite List.Forall_forall in Hc.
      pose proof (R_or_zero _ _ (Hc _ Hin)) as Hcur.
      rewrite Hsk, Hl in Hcur.
      specialize (Hrest k). rewrite Hsum in Hrest.
      rewrite share_owner in Hrest by congruence. lia.
  - cbn [MemStorage.contributionMap MemStorage.studentMap
           MemStorage.with_contributionMap].
    rewrite Hdel. apply (consistent_frame R _ _ _ Hc).
    intros s Hs. rewrite Hl, Hsum.
    rewrite (share_absent_owner (MemStorage.studentMap st)); auto; [lia|].
    unfold MemStorage.getStudent in Hst.
    destruct (Contribution.studentId c); auto.
Qed.

End MemLedger.

(** ** Rows of a table with a primary key *)

Section Filtered.
Context {A : Type}.

Lemma filter_none (l : list A) : List.filter (fun _ => false) l = [].
Proof. induction l; simpl; auto. Qed.

Lemma head_filter_In (p : A -> bool) (l : list A) x :
  head (List.filter p l) = Some x -> In x l /\ p x = true.
Proof.
  induction l as [|y l IH]; simpl; [discriminate|].
  destruct (p y) eqn:E; simpl.
  - intros [= ->]. auto.
  - intros H. destruct (IH H). auto.
Qed.

Lemma head_filter_None (p : A -> bool) (l : list A) x :
  head (List.filter p l) = None -> In x l -> p x = false.
Proof.
  induction l as [|y l IH]; simpl; [tauto|].
  destruct (p y) eqn:E; simpl; [discriminate|].
  intros H [->|Hin]; auto.
Qed.

End Filtered.

Section Keyed.
Context {A : Type} (key : A -> Z).

Lemma NoDup_key_inj (l : list A) x y :
  List.NoDup (map key l) -> In x l -> In y l -> key x = key y -> x = y.
Proof.
  induction l as [|z l IH]; simpl; [tauto|].
  intros Hnd Hx Hy Heq. inversion Hnd as [|? ? Hnotin Hnd']; subst.
  destruct Hx as [->|Hx], Hy as [->|Hy]; auto.
  - exfalso. apply Hnotin. rewrite Heq. now apply in_map.
  - exfalso. apply Hnotin. rewrite <- Heq. now apply in_map.
Qed.

(** The row of a key marks the place where [UPDATE ... WHERE id = k] and
    [DELETE ... WHERE id = k] act. *)
Lemma rows_split (l : list A) k x :
  List.NoDup (map key l) ->
  head (List.filter (fun row => key row =? k) l) = Some x ->
  exists l1 l2,
    l = l1 ++ x :: l2
    /\ (forall f, map (fun row => if key row =? k then f row else row) l
                  = l1 ++ f x :: l2)
    /\ List.filter (fun row => negb (key row =? k)) l = l1 ++ l2.
Proof.
  induction l as [|y l IH]; simpl; [discriminate|].
  intros Hnd Hhead. inversion Hnd as [|? ? Hnotin Hnd']; subst.
  destruct (Z.eqb_spec (key y) k) as [Heq|Hne]; simpl in *.
  - inversion Hhead; subst y. exists [], l. simpl.
    assert (Hrest : forall z, In z l -> (key z =? k) = false).
    { intros z Hz. apply Z.eqb_neq. intros Hk. apply Hnotin.
      rewrite Heq, <- Hk. now apply in_map. }
    split; [reflexivity|]. split.
    + intros f. f_equal. clear -Hrest.
      induction l as [|z l IHl]; simpl; [reflexivity|].
      rewrite (Hrest z) by now left. f_equal. apply IHl.
      intros z' Hz'. apply Hrest. now right.
    + clear -Hrest.
      induction l as [|z l IHl]; simpl; [reflexivity|].
      rewrite (Hrest z) by now left. simpl. f_equal. apply IHl.
      intros z' Hz'. apply Hrest. now right.
  - destruct (IH Hnd' Hhead) as (l1 & l2 & -> & Hmap & Hfil).
    exists (y :: l1), l2. simpl. split; [reflexivity|]. split.
    + intros f. now rewrite Hmap.
    + now rewrite Hfil.
Qed.

End Keyed.

(** ** [ORDER BY] *)

Lemma length_insert_by {A : Type} (before : A -> A -> bool) x (l : list A) :
  length (Sql.insert_by before x l) = S (length l).
Proof.
  induction l as [|y l IH]; simpl; [reflexivity|].
  destruct (before y x); simpl; [now rewrite IH|reflexivity].
Qed.

Lemma length_order_by {A : Type} (before : A -> A -> bool) (rank : A -> Z)
    (l : list A) :
  length (Sql.order_by before rank l) = length l.
Proof.
  unfold Sql.order_by. induction l as [|x l IH]; simpl; [reflexivity|].
  now rewrite length_insert_by, IH.
Qed.

Lemma insert_by_Permutation {A : Type} (before : A -> A -> bool) x (l : list A) :
  Permutation (Sql.insert_by before x l) (x :: l).
Proof.
  induction l as [|y l IH]; simpl; [reflexivity|].
  destruct (before y x); [|reflexivity].
  rewrite IH. apply perm_swap.
Qed.

(** [ORDER BY] returns the rows it is given, whatever the ranks. *)
Lemma order_by_Permutation {A : Type} (before : A -> A -> bool) (rank : A -> Z)
    (l : list A) :
  Permutation (Sql.order_by before rank l) l.
Proof.
  unfold Sql.order_by. induction l as [|x l IH]; simpl; [reflexivity|].
  rewrite insert_by_Permutation. now constructor.
Qed.

Lemma Permutation_list_filter {A : Type} (p : A -> bool) (l1 l2 : list A) :
  Permutation l1 l2 -> Permutation (List.filter p l1) (List.filter p l2).
Proof.
  induction 1 as [|x l1 l2 _ IH|x y l|l1 l2 l3 _ IH1 _ IH2]; simpl.
  - constructor.
  - destruct (p x); [now constructor|exact IH].
  - destruct (p x), (p y); try reflexivity. apply perm_swap.
  - now rewrite IH1.
Qed.

Lemma sum_filter_order_by {A : Type} (f : A -> Z) (p : A -> bool)
    (before : A -> A -> bool) (rank : A -> Z) (l : list A) :
  Sql.sum f (List.filter p (Sql.order_by before rank l))
  = Sql.sum f (List.filter p l).
Proof.
  apply sum_Permutation, Permutation_list_filter, order_by_Permutation.
Qed.

(** [ORDER BY date DESC] returns the rows from the latest date to the
    earliest, whatever the ranks. *)
Lemma order_by_date_sorted {A : Type} (date : A -> Z) (rank : A -> Z)
    (l : list A) :
  StronglySorted (fun a b => date b <= date a)
                 (Sql.order_by (fun y x => date x <? date y) rank l).
Proof.
  unfold Sql.order_by. induction l as [|x l IH]; simpl; [constructor|].
  revert IH.
  generalize
    (foldr (Sql.insert_by
              (Sql.precedes (fun y x => date x <? date y) rank)) [] l).
  clear l. intros l Hl. induction Hl as [|y l Hl IH Hy]; simpl.
  - constructor; constructor.
  - unfold Sql.precedes at 1.
    destruct (Z.ltb_spec (date x) (date y)) as [Hlt|Hge]; cbn [orb].
    + constructor; [exact IH|].
      apply (Permutation_Forall
               (Permutation_sym (insert_by_Permutation _ x l))).
      constructor; [lia|exact Hy].
    + destruct (Z.ltb_spec (date y) (date x)) as [Hlt'|Hge']; cbn [negb andb].
      * constructor; [constructor; assumption|].
        constructor; [lia|].
        eapply List.Forall_impl; [|exact Hy]. simpl. intros z Hz. lia.
      * destruct (rank y <? rank x).
        -- constructor; [exact IH|].
           apply (Permutation_Forall
                    (Permutation_sym (insert_by_Permutation _ x l))).
           constructor; [lia|exact Hy].
        -- constructor; [constructor; assumption|].
           constructor; [lia|].
           eapply List.Forall_impl; [|exact Hy]. simpl. intros z Hz. lia.
Qed.

(** ** Runs of the methods of [DatabaseStorage] *)

Lemma db_getStudent_null db :
  DatabaseStorage.getStudent None db = (DatabaseStorage.Ok None, db).
Proof.
  unfold DatabaseStorage.getStudent, DatabaseStorage.read. simpl.
  now rewrite filter_none.
Qed.

Lemma db_getStudent_key k db :
  DatabaseStorage.getStudent (Some k) db
  = (DatabaseStorage.Ok
       (head (List.filter (fun row => Student.id row =? k)
                          (DatabaseStorage.students db))), db).
Proof. reflexivity. Qed.

Lemma db_updateStudent_refused k x b db :
  Sql.int4 x = false ->
  DatabaseStorage.updateStudent k (contribution_update x b) db
  = (DatabaseStorage.Fault DatabaseStorage.numeric_value_out_of_range, db).
Proof.
  intros Hx. unfold DatabaseStorage.updateStudent.
  rewrite contribution_update_nonempty.
  cbn [PartialStudent.contributionAmount contribution_update
         DatabaseStorage.amount_refused].
  now rewrite Hx.
Qed.

Lemma db_updateStudent_amount k x b db :
  Sql.int4 x = true ->
  DatabaseStorage.updateStudent k (contribution_update x b) db
  = (DatabaseStorage.Ok
       (head (List.filter (fun row => Student.id row =? k)
                (map (fun row => if Student.id row =? k
                                 then spread_student row (contribution_update x b)
                                 else row)
                     (DatabaseStorage.students db)))),
     DatabaseStorage.with_students
       (map (fun row => if Student.id row =? k
                        then spread_student row (contribution_update x b)
                        else row)
            (DatabaseStorage.students db)) db).
Proof.
  intros Hx. unfold DatabaseStorage.updateStudent.
  rewrite contribution_update_nonempty.
  cbn [PartialStudent.contributionAmount contribution_update
         DatabaseStorage.amount_refused].
  rewrite Hx. reflexivity.
Qed.

Lemma db_getContributions_all sid db :
  exists rows,
    DatabaseStorage.getContributions (ContributionQuery.mk sid None None) db
    = (DatabaseStorage.Ok rows, db).
Proof.
  unfold DatabaseStorage.getContributions, DatabaseStorage.bind,
    DatabaseStorage.read, DatabaseStorage.ret. simpl. eauto.
Qed.

Lemma db_create_run now ic db :
  let id := DatabaseStorage.contributions_id_seq db in
  let row := contribution_row id now ic in
  let db1 := DatabaseStorage.with_contributions_id_seq (id + 1) db in
  let db2 :=
    DatabaseStorage.with_contributions
      (DatabaseStorage.contributions db ++ [row]) db1 in
  DatabaseStorage.createContribution now ic db
  = match Contribution.studentId row with
    | None => (DatabaseStorage.Ok row, db2)
    | Some k =>
        match head (List.filter (fun s => Student.id s =? k)
                                (DatabaseStorage.students db)) with
        | None => (DatabaseStorage.Fault DatabaseStorage.foreign_key_violation, db1)
        | Some student =>
            if Sql.int4 (Js.or_zero (Student.contributionAmount student)
                         + InsertContribution.amount ic)
            then
            (DatabaseStorage.Ok row,
             DatabaseStorage.with_students
               (map (fun r =>
                       if Student.id r =? Student.id student
                       then spread_student r
                              (contribution_update
                                 (Js.or_zero (Student.contributionAmount student)
                                  + InsertContribution.amount ic)
                                 ((Z.of_nat
                                     (length
                                        (db_rows_of (Student.id student)
                                           (DatabaseStorage.contributions db
                                            ++ [row])))
                                   =? 1)
                                  && negb (paid_is paid
                                             (Student.paidStatus student))))
                       else r)
                    (DatabaseStorage.students db))
               db2)
            else
            (DatabaseStorage.Fault DatabaseStorage.numeric_value_out_of_range,
             db2)
        end
    end.
Proof.
  intros id row db1 db2.
  unfold DatabaseStorage.createContribution, DatabaseStorage.insert_contribution.
  unfold DatabaseStorage.bind at 1 2 3.
  cbn [DatabaseStorage.read DatabaseStorage.write].
  fold id. fold (contribution_row id now ic). fold row. fold db1.
  change (mjoin (InsertContribution.studentId ic))
    with (Contribution.studentId row).
  destruct (Contribution.studentId row) as [k|] eqn:Hk.
  - unfold DatabaseStorage.bind at 1. rewrite db_getStudent_key.
    change (DatabaseStorage.students db1) with (DatabaseStorage.students db).
    destruct (head _) as [student|] eqn:Hst; [|reflexivity].
    unfold DatabaseStorage.bind, DatabaseStorage.read, DatabaseStorage.write,
      DatabaseStorage.ret.
    cbn [DatabaseStorage.contributions DatabaseStorage.with_contributions
           DatabaseStorage.with_contributions_id_seq].
    change (DatabaseStorage.with_contributions
              (DatabaseStorage.contributions db1 ++ [row]) db1) with db2.
    rewrite db_getStudent_key.
    change (DatabaseStorage.students db2) with (DatabaseStorage.students db).
    rewrite Hst.
    unfold DatabaseStorage.getContributions, DatabaseStorage.bind,
      DatabaseStorage.read, DatabaseStorage.ret.
    cbn [ContributionQuery.studentId ContributionQuery.limit
           ContributionQuery.offset Js.truthy fst snd].
    rewrite length_order_by.
    fold (db_rows_of (Student.id student) (DatabaseStorage.contributions db2)).
    destruct (Sql.int4 _) eqn:Hfit.
    + rewrite db_updateStudent_amount by exact Hfit. reflexivity.
    + rewrite db_updateStudent_refused by exact Hfit. reflexivity.
  - unfold DatabaseStorage.bind at 1. rewrite db_getStudent_null.
    unfold DatabaseStorage.bind, DatabaseStorage.read, DatabaseStorage.write,
      DatabaseStorage.ret.
    cbn [DatabaseStorage.contributions DatabaseStorage.with_contributions
           DatabaseStorage.with_contributions_id_seq].
    change (DatabaseStorage.with_contributions
              (DatabaseStorage.contributions db1 ++ [row]) db1) with db2.
    rewrite db_getStudent_null. reflexivity.
Qed.

Lemma db_getStudent_run sid db :
  DatabaseStorage.getStudent sid db
  = (DatabaseStorage.Ok
       (head (List.filter
                (fun row => Js.strict_eq (Some (Student.id row)) sid)
                (DatabaseStorage.students db))), db).
Proof. reflexivity. Qed.

Lemma db_getContribution_run id db :
  DatabaseStorage.getContribution id db
  = (DatabaseStorage.Ok
       (head (List.filter (fun row => Contribution.id row =? id)
                          (DatabaseStorage.contributions db))), db).
Proof. reflexivity. Qed.

Lemma db_found_student sid (rows : list Student.t) student :
  head (List.filter (fun row => Js.strict_eq (Some (Student.id row)) sid) rows)
  = Some student ->
  sid = Some (Student.id student) /\ In student rows.
Proof.
  intros H. apply head_filter_In in H as [Hin Heq].
  destruct sid as [k|]; simpl in Heq; [|discriminate].
  apply Z.eqb_eq in Heq. subst k. auto.
Qed.

Lemma db_missing_student sid (rows : list Student.t) s :
  head (List.filter (fun row => Js.strict_eq (Some (Student.id row)) sid) rows)
  = None ->
  In s rows -> sid <> Some (Student.id s).
Proof.
  intros H Hin Heq.
  pose proof (head_filter_None _ _ s H Hin) as Hf. simpl in Hf.
  rewrite Heq in Hf. simpl in Hf. now rewrite Z.eqb_refl in Hf.
Qed.

Lemma db_delete_run id db c :
  head (List.filter (fun row => Contribution.id row =? id)
                    (DatabaseStorage.contributions db)) = Some c ->
  let without :=
    DatabaseStorage.with_contributions
      (List.filter (fun row => negb (Contribution.id row =? id))
                   (DatabaseStorage.contributions db)) in
  DatabaseStorage.deleteContribution id db
  = match head (List.filter
                  (fun row => Js.strict_eq (Some (Student.id row))
                                           (Contribution.studentId c))
                  (DatabaseStorage.students db)) with
    | Some student =>
        if Js.truthy (Student.contributionAmount student) then
          let floored :=
            Z.max 0 (Js.or_zero (Student.contributionAmount student)
                     - Contribution.amount c) in
          if Sql.int4 floored then
            (DatabaseStorage.Ok true,
             without
               (DatabaseStorage.with_students
                  (map (fun r =>
                          if Student.id r =? Student.id student
                          then spread_student r (contribution_update floored false)
                          else r)
                       (DatabaseStorage.students db))
                  db))
          else
            (DatabaseStorage.Fault DatabaseStorage.numeric_value_out_of_range,
             db)
        else (DatabaseStorage.Ok true, without db)
    | None => (DatabaseStorage.Ok true, without db)
    end.
Proof.
  intros Hc without. unfold DatabaseStorage.deleteContribution.
  unfold DatabaseStorage.bind at 1. rewrite db_getContribution_run, Hc.
  unfold DatabaseStorage.bind at 1. rewrite db_getStudent_run.
  destruct (head (List.filter
                    (fun row => Js.strict_eq (Some (Student.id row))
                                             (Contribution.studentId c)) _))
    as [student|]; [|reflexivity].
  destruct (Js.truthy (Student.contributionAmount student)); [|reflexivity].
  cbv zeta. unfold DatabaseStorage.bind at 1 2.
  destruct (Sql.int4 _) eqn:Hfit.
  - rewrite db_updateStudent_amount by exact Hfit. reflexivity.
  - rewrite db_updateStudent_refused by exact Hfit. reflexivity.
Qed.

Lemma db_delete_missing id db :
  head (List.filter (fun row => Contribution.id row =? id)
                    (DatabaseStorage.contributions db)) = None ->
  DatabaseStorage.deleteContribution id db = (DatabaseStorage.Ok false, db).
Proof.
  intros Hc. unfold DatabaseStorage.deleteContribution.
  unfold DatabaseStorage.bind at 1. now rewrite db_getContribution_run, Hc.
Qed.

Lemma db_update_missing id d db :
  head (List.filter (fun row => Contribution.id row =? id)
                    (DatabaseStorage.contributions db)) = None ->
  DatabaseStorage.updateContribution id d db = (DatabaseStorage.Ok None, db).
Proof.
  intros Hc. unfold DatabaseStorage.updateContribution.
  unfold DatabaseStorage.bind at 1. now rewrite db_getContribution_run, Hc.
Qed.

Lemma head_filter_exists {A : Type} (p : A -> bool) (l : list A) x :
  head (List.filter p l) = Some x -> existsb p l = true.
Proof.
  intros H. apply head_filter_In in H as [Hin Hp].
  apply existsb_exists. eauto.
Qed.

(** The state after an [updateContribution] that completes. *)
Lemma db_update_ok id d db c r db' :
  head (List.filter (fun row => Contribution.id row =? id)
                    (DatabaseStorage.contributions db)) = Some c ->
  DatabaseStorage.updateContribution id d db = (DatabaseStorage.Ok r, db') ->
  db'
  = DatabaseStorage.with_contributions
      (map (fun row => if Contribution.id row =? id
                       then spread_contribution row d else row)
           (DatabaseStorage.contributions db))
      match PartialContribution.amount d with
      | Some newAmount =>
          if negb (newAmount =? Contribution.amount c) then
            match head (List.filter
                          (fun row => Js.strict_eq (Some (Student.id row))
                                                   (Contribution.studentId c))
                          (DatabaseStorage.students db)) with
            | Some student =>
                DatabaseStorage.with_students
                  (map (fun r =>
                          if Student.id r =? Student.id student
                          then spread_student r
                                 (contribution_update
                                    (Js.or_zero
                                       (Student.contributionAmount student)
                                     + (newAmount - Contribution.amount c))
                                    false)
                          else r)
                       (DatabaseStorage.students db))
                  db
            | None => db
            end
          else db
      | None => db
      end.
Proof.
  intros Hc. unfold DatabaseStorage.updateContribution.
  unfold DatabaseStorage.bind at 1. rewrite db_getContribution_run, Hc.
  assert (Hupd : forall db0,
             DatabaseStorage.contributions db0 = DatabaseStorage.contributions db ->
             DatabaseStorage.update_contribution id d db0
             = (DatabaseStorage.Ok r, db') ->
             db' = DatabaseStorage.with_contributions
                     (map (fun row => if Contribution.id row =? id
                                      then spread_contribution row d else row)
                          (DatabaseStorage.contributions db)) db0).
  { intros db0 Heq. unfold DatabaseStorage.update_contribution.
    destruct (PartialContribution.is_empty d); [discriminate|].
    unfold DatabaseStorage.bind at 1. cbn [DatabaseStorage.read].
    unfold DatabaseStorage.bind at 1. rewrite db_getStudent_run.
    rewrite Heq, (head_filter_exists _ _ _ Hc).
    destruct (mjoin (PartialContribution.studentId d)) as [k|];
      [destruct (head (List.filter
                         (fun row => Js.strict_eq (Some (Student.id row)) _)
                         (DatabaseStorage.students db0)))
         as [referenced|]|];
      unfold DatabaseStorage.bind, DatabaseStorage.write, DatabaseStorage.ret,
        DatabaseStorage.raise;
      intros H; first [discriminate H | inversion H; reflexivity]. }
  destruct (PartialContribution.amount d) as [newAmount|].
  - destruct (negb (newAmount =? Contribution.amount c)).
    + unfold DatabaseStorage.bind at 1 2. rewrite db_getStudent_run.
      destruct (head (List.filter
                        (fun row => Js.strict_eq (Some (Student.id row))
                                                 (Contribution.studentId c)) _))
        as [student|].
      * unfold DatabaseStorage.bind at 1.
        destruct (Sql.int4 (Js.or_zero (Student.contributionAmount student)
                            + (newAmount - Contribution.amount c))) eqn:Hfit.
        -- rewrite db_updateStudent_amount by exact Hfit.
           cbn [DatabaseStorage.ret]. now apply Hupd.
        -- rewrite db_updateStudent_refused by exact Hfit. discriminate.
      * cbn [DatabaseStorage.ret]. now apply Hupd.
    + unfold DatabaseStorage.bind at 1. cbn [DatabaseStorage.ret].
      now apply Hupd.
  - unfold DatabaseStorage.bind at 1. cbn [DatabaseStorage.ret].
    now apply Hupd.
Qed.

Lemma db_update_empty id d db r db' :
  PartialContribution.is_empty d = true ->
  DatabaseStorage.updateContribution id d db = (r, db') ->
  db' = db.
Proof.
  intros He. destruct d as [[?|] [?|] [?|] [?|]]; try discriminate.
  unfold DatabaseStorage.updateContribution.
  unfold DatabaseStorage.bind at 1. rewrite db_getContribution_run.
  destruct (head _); cbn; now intros [= _ <-].
Qed.

(** ** The ledger methods of [DatabaseStorage] *)

Section DbLedger.
Variable R : option Z -> Z -> Prop.
Hypothesis R_or_zero : forall x v, R x v -> Js.or_zero x = v.
Hypothesis R_Some : forall v, R (Some v) v.

Let consistent_in (db : DatabaseStorage.t) : Prop :=
  consistent_by R (DatabaseStorage.students db)
                  (DatabaseStorage.contributions db).

(** Rows that share an [id] read the same amount in a consistent
    table. *)
Lemma consistent_same_id attendees ledger s s' :
  consistent_by R attendees ledger ->
  In s attendees -> In s' attendees -> Student.id s = Student.id s' ->
  Js.or_zero (Student.contributionAmount s)
  = Js.or_zero (Student.contributionAmount s').
Proof.
  unfold consistent_by. rewrite List.Forall_forall. intros H Hs Hs' Heq.
  rewrite (R_or_zero _ _ (H s Hs)), (R_or_zero _ _ (H s' Hs')).
  now rewrite Heq.
Qed.

Lemma db_create_keeps now ic db r db' :
  DatabaseStorage.createContribution now ic db = (DatabaseStorage.Ok r, db') ->
  consistent_in db -> consistent_in db'.
Proof.
  intros Hrun Hc. unfold consistent_in in *.
  rewrite db_create_run in Hrun.
  set (row := contribution_row (DatabaseStorage.contributions_id_seq db) now ic)
    in *.
  destruct (Contribution.studentId row) as [k|] eqn:Hk.
  - destruct (head _) as [student|] eqn:Hst; [|discriminate].
    destruct (Sql.int4 _); [|discriminate].
    apply head_filter_In in Hst as [Hin Hid]. apply Z.eqb_eq in Hid.
    inversion Hrun; subst r db'; clear Hrun. simpl.
    apply consistent_shift
      with (ledger := DatabaseStorage.contributions db)
           (delta := InsertContribution.amount ic)
           (g := fun r => spread_student r _); auto.
    + intros s Hs Hne. rewrite ledger_sum_snoc, share_other; [lia|].
      congruence.
    + rewrite ledger_sum_snoc, share_owner; [reflexivity|]. congruence.
    + intros s Hs Heq. split; [exact Heq|].
      rewrite spread_update_amount. f_equal. f_equal.
      now apply (consistent_same_id _ _ _ _ Hc).
  - inversion Hrun; subst r db'; clear Hrun. simpl.
    apply (consistent_frame R _ _ _ Hc).
    intros s Hs. rewrite ledger_sum_snoc, share_other; [lia|]. congruence.
Qed.

Lemma db_delete_keeps id db :
  amounts_nonneg (DatabaseStorage.contributions db) ->
  List.NoDup (map Contribution.id (DatabaseStorage.contributions db)) ->
  consistent_in db ->
  consistent_in (snd (DatabaseStorage.deleteContribution id db)).
Proof.
  intros Hpos Hnd Hc. unfold consistent_in in *.
  destruct (head (List.filter (fun row => Contribution.id row =? id)
                              (DatabaseStorage.contributions db)))
    as [c|] eqn:Hget.
  2: { now rewrite db_delete_missing. }
  rewrite (db_delete_run _ _ _ Hget). cbv zeta.
  destruct (rows_split Contribution.id _ _ _ Hnd Hget)
    as (l1 & l2 & Hl & _ & Hdel).
  rewrite Hdel.
  assert (Hsum : forall a,
             ledger_sum a (l1 ++ l2) = ledger_sum a (l1 ++ c :: l2) - share a c).
  { intros a. rewrite !ledger_sum_app, !ledger_sum_cons. lia. }
  assert (Hrest : forall a, 0 <= ledger_sum a (l1 ++ l2)).
  { intros a. apply ledger_sum_nonneg. unfold amounts_nonneg in *.
    rewrite Hl in Hpos. apply Forall_app in Hpos as [H1 H2].
    apply Forall_app. split; [exact H1|]. now inversion H2. }
  assert (Hc0 : 0 <= Contribution.amount c).
  { unfold amounts_nonneg in Hpos. rewrite List.Forall_forall in Hpos.
    apply Hpos. rewrite Hl. apply in_or_app. right. now left. }
  destruct (head (List.filter _ (DatabaseStorage.students db)))
    as [student|] eqn:Hst.
  - apply db_found_student in Hst as [Hsid Hin].
    assert (Hcur : Js.or_zero (Student.contributionAmount student)
                   = ledger_sum (Student.id student) (l1 ++ c :: l2)).
    { unfold consistent_by in Hc. rewrite List.Forall_forall in Hc.
      rewrite <- Hl. apply R_or_zero. now apply Hc. }
    pose proof (Hrest (Student.id student)) as Hge.
    rewrite Hsum, share_owner in Hge by exact Hsid.
    destruct (Js.truthy (Student.contributionAmount student)) eqn:Htr;
      [destruct (Sql.int4 _); [|exact Hc]|]; simpl.
    + apply consistent_shift
        with (ledger := DatabaseStorage.contributions db)
             (delta := - Contribution.amount c)
             (g := fun r => spread_student r _); auto.
      * intros s Hs Hne. rewrite Hl, Hsum, share_other; [lia|]. congruence.
      * rewrite Hl, Hsum, share_owner; [lia|]. exact Hsid.
      * intros s Hs Heq. split; [exact Heq|].
        rewrite spread_update_amount. f_equal.
        rewrite (consistent_same_id _ _ s student Hc Hs Hin Heq). lia.
    + apply (consistent_frame R _ _ _ Hc).
      intros s Hs. rewrite Hl, Hsum.
      destruct (Z.eq_dec (Student.id s) (Student.id student)) as [Heq|Hne].
      * rewrite Heq, share_owner by exact Hsid.
        assert (Js.or_zero (Student.contributionAmount student) = 0).
        { destruct (Student.contributionAmount student) as [v|]; simpl in *;
            [|reflexivity].
          destruct (Z.eqb_spec v 0); [assumption|discriminate]. }
        lia.
      * rewrite share_other; [lia|]. congruence.
  - simpl. apply (consistent_frame R _ _ _ Hc).
    intros s Hs. rewrite Hl, Hsum, share_other; [lia|].
    intros Heq. now apply (db_missing_student _ _ s Hst Hs).
Qed.

Lemma db_update_keeps id d db r db' :
  DatabaseStorage.updateContribution id d db = (DatabaseStorage.Ok r, db') ->
  (forall c, fst (DatabaseStorage.getContribution id db)
             = DatabaseStorage.Ok (Some c) ->
             keeps_attendee d c) ->
  List.NoDup (map Contribution.id (DatabaseStorage.contributions db)) ->
  consistent_in db -> consistent_in db'.
Proof.
  intros Hrun Hkeep Hnd Hc. unfold consistent_in in *.
  destruct (head (List.filter (fun row => Contribution.id row =? id)
                              (DatabaseStorage.contributions db)))
    as [c|] eqn:Hget.
  2: { rewrite db_update_missing in Hrun by exact Hget.
       now inversion Hrun; subst. }
  assert (Hkeep' : keeps_attendee d c).
  { apply Hkeep. rewrite db_getContribution_run. cbn [fst]. now rewrite Hget. }
  rewrite (db_update_ok _ _ _ _ _ _ Hget Hrun).
  destruct (rows_split Contribution.id _ _ _ Hnd Hget)
    as (l1 & l2 & Hl & Hmap & _).
  cbn [DatabaseStorage.contributions DatabaseStorage.with_contributions].
  rewrite (Hmap (fun row => spread_contribution row d)).
  set (c' := spread_contribution c d).
  assert (Hsid : Contribution.studentId c' = Contribution.studentId c).
  { now apply keeps_attendee_spread. }
  assert (Hsum : forall a,
             ledger_sum a (l1 ++ c' :: l2)
             = ledger_sum a (l1 ++ c :: l2) + (share a c' - share a c)).
  { intros a. rewrite !ledger_sum_app, !ledger_sum_cons. lia. }
  assert (Hframe :
            Contribution.amount c' = Contribution.amount c ->
            consistent_by R (DatabaseStorage.students db) (l1 ++ c' :: l2)).
  { intros Ham. apply (consistent_frame R _ _ _ Hc).
    intros s Hs. rewrite Hl, Hsum. unfold share. rewrite Hsid, Ham. lia. }
  destruct (PartialContribution.amount d) as [newAmount|] eqn:Hnew.
  - assert (Ham' : Contribution.amount c' = newAmount).
    { unfold c', spread_contribution. simpl. now rewrite Hnew. }
    destruct (Z.eqb_spec newAmount (Contribution.amount c)) as [Heq|Hne];
      cbn [negb].
    + apply Hframe. congruence.
    + destruct (head (List.filter _ (DatabaseStorage.students db)))
        as [student|] eqn:Hst.
      * apply db_found_student in Hst as [Hsid' Hin].
        cbn [DatabaseStorage.students DatabaseStorage.with_students].
        apply consistent_shift
          with (ledger := DatabaseStorage.contributions db)
               (delta := newAmount - Contribution.amount c)
               (g := fun r => spread_student r _); auto.
        -- intros s Hs Hne'. rewrite Hl, Hsum.
           rewrite !share_other; [lia| |]; congruence.
        -- rewrite Hl, Hsum. rewrite !share_owner; [lia| |]; congruence.
        -- intros s Hs Heq. split; [exact Heq|].
           rewrite spread_update_amount. f_equal. f_equal.
           now apply (consistent_same_id _ _ _ _ Hc).
      * apply (consistent_frame R _ _ _ Hc).
        intros s Hs. rewrite Hl, Hsum.
        pose proof (db_missing_student _ _ s Hst Hs) as Hmiss.
        rewrite !share_other; [lia| |]; congruence.
  - apply Hframe. unfold c', spread_contribution. simpl. now rewrite Hnew.
Qed.

End DbLedger.

(** ** Concrete states *)

(** Closed instances of the predicates are settled by evaluation. *)
Ltac concrete :=
  vm_compute;
  repeat first
    [ apply List.NoDup_nil | apply List.NoDup_cons
    | apply Forall_nil | apply Forall_cons | split ];
  try reflexivity;
  try (cbn; intuition (discriminate || congruence)).

Lemma mem1_wf : mem_wf Example.mem1.
Proof. concrete. Qed.

Lemma mem2_wf : mem_wf Example.mem2.
Proof. concrete. Qed.

Lemma mem_drift_wf : mem_wf Example.mem_drift.
Proof. concrete. Qed.

Lemma db1_wf : db_wf Example.db1.
Proof. concrete. Qed.

Lemma db2_wf : db_wf Example.db2.
Proof. concrete. Qed.

Lemma mem2_consistent : mem_consistent Example.mem2.
Proof. concrete. Qed.

Lemma db2_consistent : db_consistent Example.db2.
Proof. concrete. Qed.

Lemma mem2_nonneg :
  amounts_nonneg (JsMap.values (MemStorage.contributionMap Example.mem2)).
Proof. concrete. Qed.

Lemma db2_nonneg : amounts_nonneg (DatabaseStorage.contributions Example.db2).
Proof. concrete. Qed.

(** ** C1: the ledger methods and the running totals *)

(** C1, as amended.  In a state whose ledger has no negative amount and in
    which every attendee's [contributionAmount] equals the sum of the
    amounts of the ledger rows that reference the attendee, the same holds
    again after one [createContribution], after one [updateContribution]
    that leaves the attendee of the contribution alone (it carries no
    [studentId], or the stored one), and after one [deleteContribution]:
    in the in-memory backend and, when the method completes without fault,
    in the durable one. *)
Theorem ledger_methods_keep_totals (st : MemStorage.t) (db : DatabaseStorage.t) :
  mem_wf st ->
  amounts_nonneg (JsMap.values (MemStorage.contributionMap st)) ->
  mem_consistent st ->
  db_wf db ->
  amounts_nonneg (DatabaseStorage.contributions db) ->
  db_consistent db ->
  (forall now ic,
      mem_consistent (snd (MemStorage.createContribution now ic st)))
  /\ (forall id d,
         (forall c, MemStorage.getContribution id st = Some c ->
                    keeps_attendee d c) ->
         mem_consistent (snd (MemStorage.updateContribution id d st)))
  /\ (forall id, mem_consistent (snd (MemStorage.deleteContribution id st)))
  /\ (forall now ic r db',
         DatabaseStorage.createContribution now ic db = (DatabaseStorage.Ok r, db') ->
         db_consistent db')
  /\ (forall id d r db',
         (forall c, fst (DatabaseStorage.getContribution id db)
                    = DatabaseStorage.Ok (Some c) ->
                    keeps_attendee d c) ->
         DatabaseStorage.updateContribution id d db = (DatabaseStorage.Ok r, db') ->
         db_consistent db')
  /\ (forall id r db',
         DatabaseStorage.deleteContribution id db = (DatabaseStorage.Ok r, db') ->
         db_consistent db').
Proof.
  intros Hwf Hpos Hc Hdwf Hdpos Hdc.
  assert (Hnd : List.NoDup (map Contribution.id (DatabaseStorage.contributions db)))
    by apply Hdwf.
  repeat split.
  - intros now ic.
    now apply (mem_create_keeps _ reads_exactly_or_zero reads_exactly_Some).
  - intros id d Hkeep.
    now apply (mem_update_keeps _ reads_exactly_or_zero reads_exactly_Some).
  - intros id.
    now apply (mem_delete_keeps _ reads_exactly_or_zero reads_exactly_Some).
  - intros now ic r db' Hrun.
    exact (db_create_keeps _ reads_exactly_or_zero reads_exactly_Some
             _ _ _ _ _ Hrun Hdc).
  - intros id d r db' Hkeep Hrun.
    exact (db_update_keeps _ reads_exactly_or_zero reads_exactly_Some
             _ _ _ _ _ Hrun Hkeep Hnd Hdc).
  - intros id r db' Hrun.
    pose proof (db_delete_keeps _ reads_exactly_or_zero reads_exactly_Some
                  id db Hdpos Hnd Hdc) as H.
    now rewrite Hrun in H.
Qed.

(** The theorem at the reunion of two students and two contributions,
    with the edit that the contribution form sends. *)
Lemma ledger_methods_keep_totals_witness :
  mem_consistent (snd (MemStorage.createContribution 4 (Example.gift 2 250)
                         Example.mem2))
  /\ mem_consistent (snd (MemStorage.updateContribution 1 (Example.edit 1 700)
                            Example.mem2))
  /\ mem_consistent (snd (MemStorage.deleteContribution 2 Example.mem2))
  /\ (exists r db',
         DatabaseStorage.createContribution 4 (Example.gift 2 250) Example.db2
         = (DatabaseStorage.Ok r, db')
         /\ db_consistent db')
  /\ (exists r db',
         DatabaseStorage.updateContribution 1 (Example.edit 1 700) Example.db2
         = (DatabaseStorage.Ok r, db')
         /\ db_consistent db')
  /\ (exists r db',
         DatabaseStorage.deleteContribution 2 Example.db2
         = (DatabaseStorage.Ok r, db')
         /\ db_consistent db').
Proof.
  destruct (ledger_methods_keep_totals Example.mem2 Example.db2
              mem2_wf mem2_nonneg mem2_consistent
              db2_wf db2_nonneg db2_consistent)
    as (H1 & H2 & H3 & H4 & H5 & H6).
  split; [apply H1|]. split.
  { apply H2. intros c Hc. vm_compute in Hc. injection Hc as <-. reflexivity. }
  split; [apply H3|].
  split; [eexists _, _; split;
          [vm_compute; reflexivity
          |eapply (H4 4 (Example.gift 2 250)); vm_compute; reflexivity]|].
  split.
  { eexists _, _. split; [vm_compute; reflexivity|].
    eapply (H5 1 (Example.edit 1 700)); [|vm_compute; reflexivity].
    intros c Hc. vm_compute in Hc. injection Hc as <-. reflexivity. }
  eexists _, _; split;
    [vm_compute; reflexivity|eapply (H6 2); vm_compute; reflexivity].
Defined.

(** C1 as stated fails.  An [updateContribution] that moves the first
    contribution of the first student to the second student leaves both
    running totals as they were, in either backend.  And where the ledger
    holds a negative amount, the floor of [deleteContribution] keeps the
    running total at 0 while the remaining row sums to -5. *)
Lemma ledger_methods_keep_totals_counterexample :
  (mem_wf Example.mem2 /\ mem_consistent Example.mem2
   /\ ~ mem_consistent
        (snd (MemStorage.updateContribution 1 (Example.set_student 2)
                Example.mem2)))
  /\ (db_wf Example.db2 /\ db_consistent Example.db2
      /\ exists r db',
          DatabaseStorage.updateContribution 1 (Example.set_student 2) Example.db2
          = (DatabaseStorage.Ok r, db')
          /\ ~ db_consistent db')
  /\ (mem_wf Example.mem_refund /\ mem_consistent Example.mem_refund
      /\ ~ mem_consistent
           (snd (MemStorage.deleteContribution 1 Example.mem_refund))).
Proof.
  split; [|split].
  - split; [exact mem2_wf|]. split; [exact mem2_consistent|].
    intros H. unfold mem_consistent, consistent, consistent_by in H.
    cbn in H. inversion H as [|? ? Hbad _]. discriminate Hbad.
  - split; [exact db2_wf|]. split; [exact db2_consistent|].
    eexists _, _. split; [vm_compute; reflexivity|].
    intros H. unfold db_consistent, consistent, consistent_by in H.
    cbn in H. inversion H as [|? ? Hbad _]. discriminate Hbad.
  - split; [concrete|]. split; [concrete|].
    intros H. unfold mem_consistent, consistent, consistent_by in H.
    cbn in H. inversion H as [|? ? Hbad _]. discriminate Hbad.
Qed.

(** The same theorem with the field read as the code reads it,
    [contributionAmount || 0], so that an attendee stored without the field
    counts as one with a total of 0. *)
Theorem ledger_methods_keep_totals_or_zero
    (st : MemStorage.t) (db : DatabaseStorage.t) :
  mem_wf st ->
  amounts_nonneg (JsMap.values (MemStorage.contributionMap st)) ->
  consistent_or_zero (JsMap.values (MemStorage.studentMap st))
                     (JsMap.values (MemStorage.contributionMap st)) ->
  db_wf db ->
  amounts_nonneg (DatabaseStorage.contributions db) ->
  consistent_or_zero (DatabaseStorage.students db)
                     (DatabaseStorage.contributions db) ->
  (forall now ic,
      let st' := snd (MemStorage.createContribution now ic st) in
      consistent_or_zero (JsMap.values (MemStorage.studentMap st'))
                         (JsMap.values (MemStorage.contributionMap st')))
  /\ (forall id d,
         (forall c, MemStorage.getContribution id st = Some c ->
                    keeps_attendee d c) ->
         let st' := snd (MemStorage.updateContribution id d st) in
         consistent_or_zero (JsMap.values (MemStorage.studentMap st'))
                            (JsMap.values (MemStorage.contributionMap st')))
  /\ (forall id,
         let st' := snd (MemStorage.deleteContribution id st) in
         consistent_or_zero (JsMap.values (MemStorage.studentMap st'))
                            (JsMap.values (MemStorage.contributionMap st')))
  /\ (forall now ic r db',
         DatabaseStorage.createContribution now ic db = (DatabaseStorage.Ok r, db') ->
         consistent_or_zero (DatabaseStorage.students db')
                            (DatabaseStorage.contributions db'))
  /\ (forall id d r db',
         (forall c, fst (DatabaseStorage.getContribution id db)
                    = DatabaseStorage.Ok (Some c) ->
                    keeps_attendee d c) ->
         DatabaseStorage.updateContribution id d db = (DatabaseStorage.Ok r, db') ->
         consistent_or_zero (DatabaseStorage.students db')
                            (DatabaseStorage.contributions db'))
  /\ (forall id r db',
         DatabaseStorage.deleteContribution id db = (DatabaseStorage.Ok r, db') ->
         consistent_or_zero (DatabaseStorage.students db')
                            (DatabaseStorage.contributions db')).
Proof.
  intros Hwf Hpos Hc Hdwf Hdpos Hdc.
  assert (Hnd : List.NoDup (map Contribution.id (DatabaseStorage.contributions db)))
    by apply Hdwf.
  repeat split.
  - intros now ic.
    now apply (mem_create_keeps _ reads_or_zero_or_zero reads_or_zero_Some).
  - intros id d Hkeep.
    now apply (mem_update_keeps _ reads_or_zero_or_zero reads_or_zero_Some).
  - intros id.
    now apply (mem_delete_keeps _ reads_or_zero_or_zero reads_or_zero_Some).
  - intros now ic r db' Hrun.
    exact (db_create_keeps _ reads_or_zero_or_zero reads_or_zero_Some
             _ _ _ _ _ Hrun Hdc).
  - intros id d r db' Hkeep Hrun.
    exact (db_update_keeps _ reads_or_zero_or_zero reads_or_zero_Some
             _ _ _ _ _ Hrun Hkeep Hnd Hdc).
  - intros id r db' Hrun.
    pose proof (db_delete_keeps _ reads_or_zero_or_zero reads_or_zero_Some
                  id db Hdpos Hnd Hdc) as H.
    now rewrite Hrun in H.
Qed.

(** The states the constructors build satisfy the predicates. *)
Lemma init_wf : mem_wf MemStorage.init /\ db_wf DatabaseStorage.init.
Proof. split; concrete. Qed.

Lemma init_consistent :
  mem_consistent MemStorage.init /\ db_consistent DatabaseStorage.init.
Proof. split; constructor. Qed.

(** ** [createContribution] of [MemStorage], step by step *)

Lemma Forall_set {V : Type} (P : Z * V -> Prop) k v (m : list (Z * V)) :
  Forall P m -> P (k, v) -> Forall P (JsMap.set k v m).
Proof.
  intros Hm Hkv. induction Hm as [|[k' v'] m Hx Hm IH]; simpl.
  - constructor; [assumption|constructor].
  - destruct (k' =? k); constructor; assumption.
Qed.

Lemma mem_create_run now ic st :
  mem_wf st ->
  let id := MemStorage.currentContributionId st in
  let row := contribution_row id now ic in
  let st2 :=
    MemStorage.with_contributionMap
      (MemStorage.contributionMap st ++ [(id, row)])
      (MemStorage.with_currentContributionId (id + 1) st) in
  MemStorage.createContribution now ic st
  = (row,
     match MemStorage.getStudent (Contribution.studentId row) st with
     | Some student =>
         MemStorage.with_studentMap
           (JsMap.set (Student.id student)
              (spread_student student
                 (contribution_update
                    (Js.or_zero (Student.contributionAmount student)
                     + InsertContribution.amount ic)
                    ((Z.of_nat
                        (length
                           (mem_rows_of (Student.id student)
                              (JsMap.values (MemStorage.contributionMap st)
                               ++ [row])))
                      =? 1)
                     && negb (paid_is paid (Student.paidStatus student)))))
              (MemStorage.studentMap st))
           st2
     | None => st2
     end).
Proof.
  intros Hwf id row st2.
  pose proof (mem_student_ids st Hwf) as Hid.
  unfold MemStorage.createContribution.
  fold id. fold (contribution_row id now ic). fold row.
  change (MemStorage.contributionMap
            (MemStorage.with_currentContributionId (id + 1) st))
    with (MemStorage.contributionMap st).
  rewrite set_fresh by now apply mem_fresh_contribution.
  fold st2.
  change (MemStorage.getStudent (mjoin (InsertContribution.studentId ic)) st2)
    with (MemStorage.getStudent (Contribution.studentId row) st).
  destruct (MemStorage.getStudent (Contribution.studentId row) st)
    as [student|] eqn:Hget; [|reflexivity].
  f_equal.
  assert (Hst : JsMap.get (Student.id student) (MemStorage.studentMap st2)
                = Some student).
  { unfold MemStorage.getStudent in Hget.
    destruct (Contribution.studentId row) as [k|]; [|discriminate].
    now rewrite (student_key _ _ _ Hid Hget). }
  unfold MemStorage.updateStudent. rewrite Hst. cbn [snd].
  unfold MemStorage.getContributions, mem_rows_of.
  cbn [ContributionQuery.studentId ContributionQuery.limit
         ContributionQuery.offset].
  change (MemStorage.contributionMap st2)
    with (MemStorage.contributionMap st ++ [(id, row)]).
  rewrite values_app. reflexivity.
Qed.

Lemma mem_create_wf now ic st :
  mem_wf st -> mem_wf (snd (MemStorage.createContribution now ic st)).
Proof.
  intros Hwf. rewrite (mem_create_run now ic st Hwf). cbn [snd].
  pose proof (mem_student_ids st Hwf) as Hid.
  destruct Hwf as (Hnd & Hst & Hcnd & Hc & Hone).
  set (id := MemStorage.currentContributionId st) in *.
  set (row := contribution_row id now ic).
  assert (Hledger :
            List.NoDup (JsMap.keys (MemStorage.contributionMap st ++ [(id, row)]))
            /\ Forall (fun kv => Contribution.id (snd kv) = fst kv
                                 /\ fst kv < id + 1)
                      (MemStorage.contributionMap st ++ [(id, row)])).
  { split.
    - rewrite keys_app. simpl.
      apply List.NoDup_app; [exact Hcnd| |].
      + apply List.NoDup_cons; [simpl; tauto|apply List.NoDup_nil].
      + intros k Hk [<-|[]].
        apply in_map_iff in Hk as (kv & Heq & Hin).
        rewrite List.Forall_forall in Hc. specialize (Hc _ Hin). lia.
    - apply Forall_app. split.
      + eapply List.Forall_impl; [|exact Hc]. simpl. intros kv [? ?].
        split; [assumption|lia].
      + constructor; [|constructor]. simpl. split; [reflexivity|lia]. }
  destruct Hledger as [Hl1 Hl2].
  destruct (MemStorage.getStudent (Contribution.studentId row) st)
    as [student|] eqn:Hget.
  - unfold MemStorage.getStudent in Hget.
    destruct (Contribution.studentId row) as [k|]; [|discriminate].
    pose proof (student_key _ _ _ Hid Hget) as Hk.
    pose proof (get_Some_In _ _ _ Hget) as Hin.
    repeat split; cbn [MemStorage.studentMap MemStorage.contributionMap
             MemStorage.currentStudentId MemStorage.currentContributionId
             MemStorage.with_studentMap MemStorage.with_contributionMap
             MemStorage.with_currentContributionId].
    + rewrite keys_set_present; [exact Hnd|].
      rewrite Hk. apply (in_map fst) in Hin. exact Hin.
    + apply Forall_set; [exact Hst|]. simpl.
      rewrite List.Forall_forall in Hst. specialize (Hst _ Hin). simpl in Hst.
      rewrite Hk. split; [reflexivity|]. tauto.
    + exact Hl1.
    + exact Hl2.
    + exact Hone.
  - repeat split; cbn [MemStorage.studentMap MemStorage.contributionMap
             MemStorage.currentStudentId MemStorage.currentContributionId
             MemStorage.with_studentMap MemStorage.with_contributionMap
             MemStorage.with_currentContributionId]; assumption.
Qed.

(** ** C2: a contribution for an attendee that does not exist *)

(** C2, as amended.  When the [studentId] of the new contribution
    references no stored attendee, the in-memory [createContribution]
    appends the ledger row, changes no attendee and returns the record;
    the durable one does the same when the [studentId] is [null] or absent,
    and otherwise the store rejects the insert with a foreign-key fault,
    which is no NotFound result: no row is inserted and no record returned. *)
Theorem create_for_missing_attendee (st : MemStorage.t) (db : DatabaseStorage.t)
    (now : Z) (ic : InsertContribution.t) :
  mem_wf st ->
  MemStorage.getStudent (mjoin (InsertContribution.studentId ic)) st = None ->
  fst (DatabaseStorage.getStudent (mjoin (InsertContribution.studentId ic)) db)
  = DatabaseStorage.Ok None ->
  (let id := MemStorage.currentContributionId st in
   let row := contribution_row id now ic in
   MemStorage.createContribution now ic st
   = (row,
      MemStorage.with_contributionMap
        (MemStorage.contributionMap st ++ [(id, row)])
        (MemStorage.with_currentContributionId (id + 1) st)))
  /\ (let id := DatabaseStorage.contributions_id_seq db in
      let row := contribution_row id now ic in
      let db1 := DatabaseStorage.with_contributions_id_seq (id + 1) db in
      DatabaseStorage.createContribution now ic db
      = match mjoin (InsertContribution.studentId ic) with
        | Some _ =>
            (DatabaseStorage.Fault DatabaseStorage.foreign_key_violation, db1)
        | None =>
            (DatabaseStorage.Ok row,
             DatabaseStorage.with_contributions
               (DatabaseStorage.contributions db ++ [row]) db1)
        end).
Proof.
  intros Hwf Hmem Hdb. split.
  - intros id row. rewrite (mem_create_run now ic st Hwf).
    change (Contribution.studentId (contribution_row
                                      (MemStorage.currentContributionId st) now ic))
      with (mjoin (InsertContribution.studentId ic)).
    now rewrite Hmem.
  - intros id row db1. rewrite db_create_run.
    change (Contribution.studentId (contribution_row
                                      (DatabaseStorage.contributions_id_seq db)
                                      now ic))
      with (mjoin (InsertContribution.studentId ic)).
    destruct (mjoin (InsertContribution.studentId ic)) as [k|]; [|reflexivity].
    rewrite db_getStudent_key in Hdb. cbn [fst] in Hdb.
    inversion Hdb as [Hnone]. now rewrite Hnone.
Qed.

(** The theorem at a contribution for a student 9 that the reunion of two
    students does not have. *)
Lemma create_for_missing_attendee_witness :
  MemStorage.createContribution 4 (Example.gift 9 250) Example.mem2
  = (contribution_row 3 4 (Example.gift 9 250),
     MemStorage.with_contributionMap
       (MemStorage.contributionMap Example.mem2
        ++ [(3, contribution_row 3 4 (Example.gift 9 250))])
       (MemStorage.with_currentContributionId 4 Example.mem2))
  /\ DatabaseStorage.createContribution 4 (Example.gift 9 250) Example.db2
     = (DatabaseStorage.Fault DatabaseStorage.foreign_key_violation,
        DatabaseStorage.with_contributions_id_seq 4 Example.db2).
Proof.
  exact (create_for_missing_attendee Example.mem2 Example.db2 4
           (Example.gift 9 250) mem2_wf eq_refl eq_refl).
Defined.

(** C2 as stated fails in memory: the call for the missing student 9
    returns a record, which is then a row of the ledger. *)
Lemma create_for_missing_attendee_counterexample :
  MemStorage.getStudent (Some 9) Example.mem2 = None
  /\ MemStorage.getContribution 3 Example.mem2 = None
  /\ MemStorage.getContribution 3
       (snd (MemStorage.createContribution 4 (Example.gift 9 250) Example.mem2))
     = Some (fst (MemStorage.createContribution 4 (Example.gift 9 250)
                    Example.mem2))
  /\ Contribution.studentId
       (fst (MemStorage.createContribution 4 (Example.gift 9 250) Example.mem2))
     = Some 9.
Proof. repeat split. Qed.

(** ** C3: the first payment *)

Lemma rows_of_app k l1 l2 : rows_of k (l1 ++ l2) = rows_of k l1 ++ rows_of k l2.
Proof. unfold rows_of. apply List.filter_app. Qed.

Lemma rows_of_own k c :
  Contribution.studentId c = Some k -> rows_of k [c] = [c].
Proof.
  intros H. unfold rows_of. simpl. rewrite H. simpl. now rewrite Z.eqb_refl.
Qed.

Lemma mem_rows_of_nonzero k l : k <> 0 -> mem_rows_of k l = rows_of k l.
Proof.
  intros Hk. unfold mem_rows_of. simpl.
  destruct (Z.eqb_spec k 0); [contradiction|reflexivity].
Qed.


(** An [UPDATE] that keeps the keys maps the row of a key to its image. *)
Lemma head_filter_map_key {A : Type} (key : A -> Z) (f : A -> A) k (l : list A) :
  (forall r, key (f r) = key r) ->
  head (List.filter (fun row => key row =? k) (map f l))
  = f <$> head (List.filter (fun row => key row =? k) l).
Proof.
  intros Hf. induction l as [|x l IH]; simpl; [reflexivity|].
  rewrite Hf. destruct (key x =? k); simpl; auto.
Qed.








(** ** C4: filtering, then paging *)

Lemma slice_nonneg {A : Type} (xs : list A) (offset limit : Z) :
  0 <= offset -> 0 <= limit ->
  Js.slice xs offset (offset + limit)
  = take (Z.to_nat limit) (drop (Z.to_nat offset) xs).
Proof.
  intros Ho Hl. unfold Js.slice, Js.slice_index.
  destruct (Z.ltb_spec offset 0) as [?|_]; [lia|].
  destruct (Z.ltb_spec (offset + limit) 0) as [?|_]; [lia|].
  destruct (Z.le_gt_cases (Z.of_nat (length xs)) offset) as [Hge|Hlt].
  - rewrite (Z.min_r offset), (Z.min_r (offset + limit)) by lia.
    rewrite Z.sub_diag. simpl.
    rewrite (drop_ge xs (Z.to_nat offset)) by lia.
    now rewrite take_nil.
  - rewrite (Z.min_l offset) by lia.
    destruct (Z.le_gt_cases (offset + limit) (Z.of_nat (length xs)))
      as [Hin|Hout].
    + rewrite Z.min_l by lia. f_equal. lia.
    + rewrite Z.min_r by lia.
      rewrite !take_ge; [reflexivity| |]; rewrite length_drop; lia.
Qed.

Lemma length_take_le {A : Type} (n : nat) (xs : list A) :
  (length (take n xs) <= n)%nat.
Proof. rewrite length_take. lia. Qed.

(** C4, as amended.  Both backends filter by [studentId] first (a
    [studentId] that is absent or [0] filters nothing) and page afterwards.
    In memory the page is cut only when [limit] and [offset] are both
    given: for non-negative values it is the [limit] records from
    [offset] on, and a [limit] or an [offset] alone is ignored.  The
    database orders the records that pass the filter by date, the latest
    first and those of one date as the store ranks them, and then cuts: a
    positive [limit] cuts at most [limit] records, from [offset] on when
    that is given too; a [limit] that is absent or [0] returns every
    record and ignores the [offset]; a negative [limit] cuts nothing. *)
Theorem getContributions_filters_then_pages
    (st : MemStorage.t) (db : DatabaseStorage.t) (q : ContributionQuery.t) :
  let in_memory :=
    filtered_by (ContributionQuery.studentId q)
                (JsMap.values (MemStorage.contributionMap st)) in
  let matching :=
    filtered_by (ContributionQuery.studentId q)
                (DatabaseStorage.contributions db) in
  let durable :=
    Sql.order_by later
      (Executor.contributions_rank (DatabaseStorage.executor db) q) matching in
  (forall limit offset,
      ContributionQuery.limit q = Some limit ->
      ContributionQuery.offset q = Some offset ->
      0 <= limit -> 0 <= offset ->
      MemStorage.getContributions q st
      = take (Z.to_nat limit) (drop (Z.to_nat offset) in_memory)
      /\ Z.of_nat (length (MemStorage.getContributions q st)) <= limit)
  /\ (ContributionQuery.limit q = None \/ ContributionQuery.offset q = None ->
      MemStorage.getContributions q st = in_memory)
  /\ Permutation durable matching
  /\ StronglySorted (fun a b => Contribution.date b <= Contribution.date a)
                    durable
  /\ (forall limit offset,
         ContributionQuery.limit q = Some limit ->
         ContributionQuery.offset q = Some offset ->
         0 < limit -> 0 <= offset ->
         DatabaseStorage.getContributions q db
         = (DatabaseStorage.Ok
              (take (Z.to_nat limit) (drop (Z.to_nat offset) durable)), db)
         /\ Z.of_nat (length (take (Z.to_nat limit)
                                   (drop (Z.to_nat offset) durable))) <= limit)
  /\ (forall limit,
         ContributionQuery.limit q = Some limit ->
         ContributionQuery.offset q = None ->
         0 < limit ->
         DatabaseStorage.getContributions q db
         = (DatabaseStorage.Ok (take (Z.to_nat limit) durable), db)
         /\ Z.of_nat (length (take (Z.to_nat limit) durable)) <= limit)
  /\ (ContributionQuery.limit q = None \/ ContributionQuery.limit q = Some 0 ->
      DatabaseStorage.getContributions q db = (DatabaseStorage.Ok durable, db))
  /\ (forall limit,
         ContributionQuery.limit q = Some limit ->
         limit < 0 ->
         match ContributionQuery.offset q with
         | Some offset =>
             0 <= offset ->
             DatabaseStorage.getContributions q db
             = (DatabaseStorage.Ok (drop (Z.to_nat offset) durable), db)
         | None =>
             DatabaseStorage.getContributions q db
             = (DatabaseStorage.Ok durable, db)
         end).
Proof.
  intros in_memory matching durable.
  assert (Hlen : forall A (n : Z) (xs : list A),
             0 <= n -> Z.of_nat (length (take (Z.to_nat n) xs)) <= n).
  { intros A n xs Hn. pose proof (length_take_le (Z.to_nat n) xs). lia. }
  split; [|split; [|split; [|split; [|split; [|split; [|split]]]]]].
  - intros limit offset Hl Ho Hl0 Ho0.
    assert (Heq : MemStorage.getContributions q st
                  = take (Z.to_nat limit) (drop (Z.to_nat offset) in_memory)).
    { unfold MemStorage.getContributions. rewrite Hl, Ho.
      now apply slice_nonneg. }
    split; [exact Heq|]. rewrite Heq. now apply Hlen.
  - intros Hnone. unfold MemStorage.getContributions.
    destruct Hnone as [-> | ->]; [reflexivity|].
    now destruct (ContributionQuery.limit q).
  - apply order_by_Permutation.
  - apply (order_by_date_sorted Contribution.date).
  - intros limit offset Hl Ho Hl0 Ho0. split; [|apply Hlen; lia].
    unfold DatabaseStorage.getContributions, DatabaseStorage.bind,
      DatabaseStorage.read, DatabaseStorage.limit_clause.
    rewrite Hl, Ho. cbn [Js.truthy Js.or_zero].
    destruct (Z.eqb_spec limit 0) as [?|_]; [lia|]. cbn [negb].
    destruct (Z.ltb_spec limit 0) as [?|_]; [lia|].
    destruct (Z.ltb_spec offset 0) as [?|_]; [lia|]. reflexivity.
  - intros limit Hl Ho Hl0. split; [|apply Hlen; lia].
    unfold DatabaseStorage.getContributions, DatabaseStorage.bind,
      DatabaseStorage.read, DatabaseStorage.limit_clause.
    rewrite Hl, Ho. cbn [Js.truthy Js.or_zero].
    destruct (Z.eqb_spec limit 0) as [?|_]; [lia|]. cbn [negb].
    destruct (Z.ltb_spec limit 0) as [?|_]; [lia|]. reflexivity.
  - intros Hnone.
    unfold DatabaseStorage.getContributions, DatabaseStorage.bind,
      DatabaseStorage.read.
    destruct Hnone as [-> | ->]; reflexivity.
  - intros limit Hl Hl0.
    unfold DatabaseStorage.getContributions, DatabaseStorage.bind,
      DatabaseStorage.read, DatabaseStorage.limit_clause.
    rewrite Hl. cbn [Js.truthy Js.or_zero].
    destruct (Z.eqb_spec limit 0) as [?|_]; [lia|]. cbn [negb].
    destruct (Z.ltb_spec limit 0) as [_|?]; [|lia].
    destruct (ContributionQuery.offset q) as [offset|]; [|reflexivity].
    intros Ho0. destruct (Z.ltb_spec offset 0) as [?|_]; [lia|]. reflexivity.
Qed.

(** The theorem at the ledger that holds a contribution of the second
    student between the two of the first, and at the second page of one
    record of the first student's contributions.  Cutting the page before
    filtering would give the record of the second student and, filtered,
    nothing.  The dates differ, so the store has no choice. *)
Lemma getContributions_filters_then_pages_witness :
  take 1 (drop 1 (JsMap.values (MemStorage.contributionMap Example.mem_mixed)))
  = [contribution_row 2 3 (Example.gift_on 2 250 20001)]
  /\ MemStorage.getContributions
       (ContributionQuery.mk (Some 1) (Some 1) (Some 1)) Example.mem_mixed
     = [contribution_row 3 4 (Example.gift_on 1 300 20002)]
  /\ (forall e,
         DatabaseStorage.getContributions
           (ContributionQuery.mk (Some 1) (Some 1) (Some 1))
           (DatabaseStorage.with_executor e Example.db_mixed)
         = (DatabaseStorage.Ok [contribution_row 1 2 (Example.gift_on 1 500 20000)],
            DatabaseStorage.with_executor e Example.db_mixed))
  /\ (forall e,
         DatabaseStorage.getContributions
           (ContributionQuery.mk (Some 1) (Some 1) None)
           (DatabaseStorage.with_executor e Example.db_mixed)
         = (DatabaseStorage.Ok [contribution_row 3 4 (Example.gift_on 1 300 20002)],
            DatabaseStorage.with_executor e Example.db_mixed))
  /\ MemStorage.getContributions
       (ContributionQuery.mk (Some 1) None (Some 1)) Example.mem_mixed
     = [contribution_row 1 2 (Example.gift_on 1 500 20000);
        contribution_row 3 4 (Example.gift_on 1 300 20002)]
  /\ (forall e,
         DatabaseStorage.getContributions
           (ContributionQuery.mk (Some 1) None (Some 1))
           (DatabaseStorage.with_executor e Example.db_mixed)
         = (DatabaseStorage.Ok
              [contribution_row 3 4 (Example.gift_on 1 300 20002);
               contribution_row 1 2 (Example.gift_on 1 500 20000)],
            DatabaseStorage.with_executor e Example.db_mixed)).
Proof.
  pose proof (fun e =>
                getContributions_filters_then_pages Example.mem_mixed
                  (DatabaseStorage.with_executor e Example.db_mixed)
                  (ContributionQuery.mk (Some 1) (Some 1) (Some 1)))
    as H11.
  pose proof (fun e =>
                getContributions_filters_then_pages Example.mem_mixed
                  (DatabaseStorage.with_executor e Example.db_mixed)
                  (ContributionQuery.mk (Some 1) (Some 1) None))
    as H1.
  pose proof (fun e =>
                getContributions_filters_then_pages Example.mem_mixed
                  (DatabaseStorage.with_executor e Example.db_mixed)
                  (ContributionQuery.mk (Some 1) None (Some 1)))
    as H01.
  split; [reflexivity|]. split; [|split; [|split; [|split]]].
  - destruct (H11 Executor.in_table_order) as (Hm & _).
    rewrite (proj1 (Hm 1 1 eq_refl eq_refl ltac:(lia) ltac:(lia))).
    reflexivity.
  - intros e. destruct (H11 e) as (_ & _ & _ & _ & Hd & _).
    rewrite (proj1 (Hd 1 1 eq_refl eq_refl ltac:(lia) ltac:(lia))).
    reflexivity.
  - intros e. destruct (H1 e) as (_ & _ & _ & _ & _ & Hd & _).
    rewrite (proj1 (Hd 1 eq_refl eq_refl ltac:(lia))). reflexivity.
  - destruct (H01 Executor.in_table_order) as (_ & Hm & _).
    rewrite (Hm (or_introl eq_refl)). reflexivity.
  - intros e. destruct (H01 e) as (_ & _ & _ & _ & _ & _ & Hd & _).
    rewrite (Hd (or_introl eq_refl)). reflexivity.
Defined.

(** C4 as stated fails: in memory a [limit] of 1 without [offset] returns
    both contributions, and in the database a [limit] of 0 does. *)
Lemma getContributions_filters_then_pages_counterexample :
  length (MemStorage.getContributions
            (ContributionQuery.mk None (Some 1) None) Example.mem2) = 2%nat
  /\ (exists rows,
         DatabaseStorage.getContributions
           (ContributionQuery.mk None (Some 0) None) Example.db2
         = (DatabaseStorage.Ok rows, Example.db2)
         /\ length rows = 2%nat).
Proof.
  split; [reflexivity|]. eexists. split; reflexivity.
Qed.

(** Where records tie on the date the page depends on the store: of five
    contributions of one day, the second page of one record is the second
    contribution under one store and the fourth under another, and both
    see the same five records. *)
Lemma getContributions_ties_example :
  let q := ContributionQuery.mk (Some 1) (Some 1) (Some 1) in
  let db := DatabaseStorage.with_executor Example.latest_first
              Example.db_same_day in
  map Contribution.id
      (match fst (DatabaseStorage.getContributions q Example.db_same_day) with
       | DatabaseStorage.Ok rows => rows
       | DatabaseStorage.Fault _ => []
       end) = [2]
  /\ map Contribution.id
       (match fst (DatabaseStorage.getContributions q db) with
        | DatabaseStorage.Ok rows => rows
        | DatabaseStorage.Fault _ => []
        end) = [4]
  /\ DatabaseStorage.contributions db
     = DatabaseStorage.contributions Example.db_same_day.
Proof. repeat split. Qed.

(** ** C5: a contribution that does not exist *)

(** C5.  With an [id] that no contribution has, [updateContribution]
    returns nothing and [deleteContribution] returns [false], and the
    state after the call is the state before it: no contribution and no
    attendee is touched. *)
Theorem missing_contribution_changes_nothing
    (st : MemStorage.t) (db : DatabaseStorage.t)
    (id : Z) (d : PartialContribution.t) :
  MemStorage.getContribution id st = None ->
  fst (DatabaseStorage.getContribution id db) = DatabaseStorage.Ok None ->
  MemStorage.updateContribution id d st = (None, st)
  /\ MemStorage.deleteContribution id st = (false, st)
  /\ DatabaseStorage.updateContribution id d db = (DatabaseStorage.Ok None, db)
  /\ DatabaseStorage.deleteContribution id db = (DatabaseStorage.Ok false, db).
Proof.
  intros Hmem Hdb. unfold MemStorage.getContribution in Hmem.
  assert (Hnone : head (List.filter (fun row => Contribution.id row =? id)
                                    (DatabaseStorage.contributions db))
                  = None).
  { injection Hdb. intros H. exact H. }
  split; [|split; [|split]].
  - unfold MemStorage.updateContribution. now rewrite Hmem.
  - unfold MemStorage.deleteContribution. now rewrite Hmem.
  - now apply db_update_missing.
  - now apply db_delete_missing.
Qed.

(** The theorem at contribution 9 of the reunion, which has two. *)
Lemma missing_contribution_changes_nothing_witness :
  MemStorage.updateContribution 9 (Example.set_amount 700) Example.mem2
  = (None, Example.mem2)
  /\ MemStorage.deleteContribution 9 Example.mem2 = (false, Example.mem2)
  /\ DatabaseStorage.updateContribution 9 (Example.set_amount 700) Example.db2
     = (DatabaseStorage.Ok None, Example.db2)
  /\ DatabaseStorage.deleteContribution 9 Example.db2
     = (DatabaseStorage.Ok false, Example.db2).
Proof.
  exact (missing_contribution_changes_nothing Example.mem2 Example.db2 9
           (Example.set_amount 700) eq_refl eq_refl).
Defined.

(** ** C6: the floor of [deleteContribution] *)

Lemma truthy_or_zero x : Js.truthy x = false -> Js.or_zero x = 0.
Proof.
  destruct x as [v|]; simpl; [|reflexivity].
  destruct (Z.eqb_spec v 0); [auto|discriminate].
Qed.

(** C6, as amended.  In memory, deleting a stored contribution sets the
    [contributionAmount] of its attendee to [max(0, current - amount)],
    where [current] is the stored amount or 0; this is never negative.
    The database does the same only where its guard lets it: when
    [current] is neither [0] nor [NULL] and the new amount fits the
    [integer] column.  When [current] is [0] or [NULL] the method writes
    nothing and the field stays as it is, which is [max(0, current -
    amount)] unless the deleted amount is negative; when the new amount
    does not fit, the update is refused and nothing changes. *)
Theorem delete_floors_total (st : MemStorage.t) (db : DatabaseStorage.t)
    (id : Z) (mc dc : Contribution.t) (ms ds : Student.t) :
  mem_wf st ->
  MemStorage.getContribution id st = Some mc ->
  MemStorage.getStudent (Contribution.studentId mc) st = Some ms ->
  fst (DatabaseStorage.getContribution id db) = DatabaseStorage.Ok (Some dc) ->
  fst (DatabaseStorage.getStudent (Contribution.studentId dc) db)
  = DatabaseStorage.Ok (Some ds) ->
  (mem_contributionAmount (Student.id ms)
     (snd (MemStorage.deleteContribution id st))
   = Some (Z.max 0 (Js.or_zero (Student.contributionAmount ms)
                    - Contribution.amount mc))
   /\ 0 <= Z.max 0 (Js.or_zero (Student.contributionAmount ms)
                    - Contribution.amount mc))
  /\ (let current := Student.contributionAmount ds in
      let floored :=
        Z.max 0 (Js.or_zero current - Contribution.amount dc) in
      0 <= floored
      /\ (Js.truthy current = true -> Sql.int4 floored = true ->
          exists db',
            DatabaseStorage.deleteContribution id db
            = (DatabaseStorage.Ok true, db')
            /\ db_contributionAmount (Student.id ds) db' = Some floored)
      /\ (Js.truthy current = true -> Sql.int4 floored = false ->
          DatabaseStorage.deleteContribution id db
          = (DatabaseStorage.Fault DatabaseStorage.numeric_value_out_of_range,
             db))
      /\ (Js.truthy current = false ->
          exists db',
            DatabaseStorage.deleteContribution id db
            = (DatabaseStorage.Ok true, db')
            /\ db_contributionAmount (Student.id ds) db' = current
            /\ Js.or_zero current = 0
            /\ (0 <= Contribution.amount dc -> floored = 0)
            /\ (Contribution.amount dc < 0 ->
                floored = - Contribution.amount dc))).
Proof.
  intros Hwf Hmc Hms Hdc Hds. split.
  - split; [|lia].
    unfold MemStorage.getContribution in Hmc.
    unfold MemStorage.deleteContribution. rewrite Hmc, Hms. cbn [snd].
    unfold MemStorage.getStudent in Hms.
    destruct (Contribution.studentId mc) as [k|]; [|discriminate].
    rewrite (student_key _ _ _ (mem_student_ids st Hwf) Hms) in *.
    unfold MemStorage.updateStudent. rewrite Hms. cbn [snd].
    unfold mem_contributionAmount.
    cbn [MemStorage.studentMap MemStorage.with_studentMap
           MemStorage.with_contributionMap].
    now rewrite get_set_same.
  - intros current floored.
    assert (Hdc' : head (List.filter (fun row => Contribution.id row =? id)
                                     (DatabaseStorage.contributions db))
                    = Some dc).
    { injection Hdc. intros H. exact H. }
    assert (Hds' : head (List.filter
                           (fun row => Js.strict_eq (Some (Student.id row))
                                                    (Contribution.studentId dc))
                           (DatabaseStorage.students db))
                   = Some ds).
    { injection Hds. intros H. exact H. }
    pose proof (db_delete_run _ _ _ Hdc') as Hrun. cbv zeta in Hrun.
    rewrite Hds' in Hrun. fold current floored in Hrun.
    destruct (db_found_student _ _ _ Hds') as [Hsid _].
    rewrite Hsid in Hds'. cbn [Js.strict_eq] in Hds'.
    split; [unfold floored; lia|]. split; [|split].
    + intros Htr Hfit. rewrite Htr, Hfit in Hrun.
      eexists. split; [exact Hrun|].
      unfold db_contributionAmount.
      cbn [DatabaseStorage.students DatabaseStorage.with_students
             DatabaseStorage.with_contributions].
      rewrite (head_filter_map_key Student.id)
        by (intros r; now destruct (_ =? _)).
      rewrite Hds'. cbn [fmap option_fmap option_map].
      now rewrite Z.eqb_refl, spread_update_amount.
    + intros Htr Hfit. now rewrite Htr, Hfit in Hrun.
    + intros Htr. rewrite Htr in Hrun.
      eexists. split; [exact Hrun|].
      unfold db_contributionAmount.
      cbn [DatabaseStorage.students DatabaseStorage.with_contributions].
      rewrite Hds'. split; [reflexivity|].
      pose proof (truthy_or_zero _ Htr) as Hzero. fold current in Hzero.
      split; [exact Hzero|]. unfold floored. rewrite Hzero. split; lia.
Qed.

(** The theorem where the floor is reached: the first student has paid
    500, the running total has drifted to 200, and deleting the
    contribution leaves a total of 0 in both backends.  And where the
    guard of the database skips the write: the total of the first student
    is 0 over contributions of 5 and -5, and deleting the contribution of
    5 leaves it at 0. *)
Lemma delete_floors_total_witness :
  mem_contributionAmount 1 (snd (MemStorage.deleteContribution 1 Example.mem_drift))
  = Some 0
  /\ (exists db',
         DatabaseStorage.deleteContribution 1 Example.db_drift
         = (DatabaseStorage.Ok true, db')
         /\ db_contributionAmount 1 db' = Some 0)
  /\ (exists db',
         DatabaseStorage.deleteContribution 1 Example.db_refund
         = (DatabaseStorage.Ok true, db')
         /\ db_contributionAmount 1 db' = Some 0).
Proof.
  destruct (delete_floors_total Example.mem_drift Example.db_drift 1 _ _ _ _
              mem_drift_wf
              eq_refl eq_refl eq_refl eq_refl)
    as [[Hm _] (_ & Hd & _)].
  destruct (delete_floors_total Example.mem_drift Example.db_refund 1 _ _ _ _
              mem_drift_wf
              eq_refl eq_refl eq_refl eq_refl)
    as [_ (_ & _ & _ & Hskip)].
  split; [exact Hm|]. split.
  - exact (Hd eq_refl eq_refl).
  - destruct (Hskip eq_refl) as (db' & Hrun & Hamount & _).
    exists db'. split; [exact Hrun|exact Hamount].
Defined.

(** C6 as stated fails in the database.  The running total of the first
    student is 0 over contributions of 5 and -5, which the unvalidated
    route can store.  Deleting the contribution of -5 leaves the total at
    0, because the guard skips the write, where [max(0, current - amount)]
    is 5; in memory the total becomes 5. *)
Lemma delete_floors_total_counterexample :
  db_contributionAmount 1 Example.db_refund = Some 0
  /\ fst (DatabaseStorage.getContribution 2 Example.db_refund)
     = DatabaseStorage.Ok (Some (contribution_row 2 3 (Example.gift 1 (-5))))
  /\ Z.max 0 (0 - (-5)) = 5
  /\ (exists db',
         DatabaseStorage.deleteContribution 2 Example.db_refund
         = (DatabaseStorage.Ok true, db')
         /\ db_contributionAmount 1 db' = Some 0)
  /\ mem_contributionAmount 1 Example.mem_refund = Some 0
  /\ mem_contributionAmount 1
       (snd (MemStorage.deleteContribution 2 Example.mem_refund))
     = Some 5.
Proof.
  split; [reflexivity|]. split; [reflexivity|]. split; [reflexivity|].
  split; [|split; reflexivity].
  eexists. split; [vm_compute; reflexivity|reflexivity].
Qed.

(** ** C7: the budget utilization of the dashboards *)

(** [Math.round((a / b) * 100)] on some amounts; the last one shows the
    binary64 product below the tie that the exact quotient is at. *)
Lemma round_percent_examples :
  Js.round_percent 50 200 = 25
  /\ Js.round_percent 1 3 = 33
  /\ Js.round_percent 2 3 = 67
  /\ Js.round_percent 1 200 = 1
  /\ Js.round_percent 0 7 = 0
  /\ Js.round_percent 201 200 = 100.
Proof. vm_compute. repeat split. Qed.

Lemma db_dashboard_run db :
  exists s,
    DatabaseStorage.getDashboardSummary db = (DatabaseStorage.Ok s, db)
    /\ DashboardSummary.totalContributions s
       = Sql.sum Contribution.amount (DatabaseStorage.contributions db)
    /\ DashboardSummary.totalExpenses s
       = sum_expenses (DatabaseStorage.expenses db)
    /\ DashboardSummary.budgetUtilization s
       = if 0 <? sum_estimated (DatabaseStorage.budgetItems db)
         then Js.round_percent (sum_expenses (DatabaseStorage.expenses db))
                               (sum_estimated (DatabaseStorage.budgetItems db))
         else 0.
Proof.
  eexists. split.
  - unfold DatabaseStorage.getDashboardSummary, DatabaseStorage.bind,
      DatabaseStorage.getStudents, DatabaseStorage.read, DatabaseStorage.ret.
    cbv beta iota zeta. reflexivity.
  - repeat split.
Qed.

(** C7, as amended.  The durable dashboard has [budgetUtilization] equal
    to [round(totalExpenses / totalBudget * 100)] when [totalBudget > 0]
    and to [0] when [totalBudget = 0].  The in-memory dashboard divides by
    the sum of the attendees' running totals instead, or by 1 when that
    sum is 0, and does not look at the budget. *)
Theorem budgetUtilization_of_dashboards
    (st : MemStorage.t) (db : DatabaseStorage.t) :
  (exists s,
      DatabaseStorage.getDashboardSummary db = (DatabaseStorage.Ok s, db)
      /\ let totalExpenses := sum_expenses (DatabaseStorage.expenses db) in
         let totalBudget := sum_estimated (DatabaseStorage.budgetItems db) in
         (0 < totalBudget ->
          DashboardSummary.budgetUtilization s
          = Js.round_percent totalExpenses totalBudget)
         /\ (totalBudget = 0 -> DashboardSummary.budgetUtilization s = 0))
  /\ (let totalExpenses := sum_expenses (MemStorage.getExpenses st) in
      let totalContributions :=
        sum_running_totals (MemStorage.getStudents st) in
      DashboardSummary.budgetUtilization (MemStorage.getDashboardSummary st)
      = Js.round_percent totalExpenses
          (if totalContributions =? 0 then 1 else totalContributions)).
Proof.
  split.
  - destruct (db_dashboard_run db) as (s & Hrun & _ & _ & Hb).
    exists s. split; [exact Hrun|]. intros totalExpenses totalBudget.
    fold totalExpenses totalBudget in Hb. rewrite Hb. split.
    + intros Hpos. destruct (Z.ltb_spec 0 totalBudget); [reflexivity|lia].
    + intros ->. reflexivity.
  - intros totalExpenses totalContributions.
    unfold MemStorage.getDashboardSummary.
    cbn [DashboardSummary.budgetUtilization].
    rewrite !reduce_add_sum. reflexivity.
Qed.

(** The theorem at the reunion with expenses of 120, a budget of 200 and
    running totals of 800, and in the database also before the budget. *)
Lemma budgetUtilization_of_dashboards_witness :
  (exists s,
      DatabaseStorage.getDashboardSummary Example.db4
      = (DatabaseStorage.Ok s, Example.db4)
      /\ DashboardSummary.budgetUtilization s = Js.round_percent 120 200)
  /\ (exists s,
         DatabaseStorage.getDashboardSummary Example.db3
         = (DatabaseStorage.Ok s, Example.db3)
         /\ DashboardSummary.budgetUtilization s = 0)
  /\ DashboardSummary.budgetUtilization
       (MemStorage.getDashboardSummary Example.mem4)
     = Js.round_percent 120 800.
Proof.
  destruct (budgetUtilization_of_dashboards Example.mem4 Example.db4)
    as [(s4 & Hrun4 & Hpos4 & _) Hmem].
  destruct (budgetUtilization_of_dashboards Example.mem4 Example.db3)
    as [(s3 & Hrun3 & _ & Hzero3) _].
  split; [|split].
  - exists s4. split; [exact Hrun4|]. apply Hpos4. reflexivity.
  - exists s3. split; [exact Hrun3|]. apply Hzero3. reflexivity.
  - exact Hmem.
Defined.

(** C7 as stated fails in memory: with no budget item at all the
    utilization is 6 and not 0, and with a budget of 200 against expenses
    of 120 it is 15 and not 60. *)
Lemma budgetUtilization_of_dashboards_counterexample :
  sum_estimated (MemStorage.getBudgetItems Example.mem3) = 0
  /\ DashboardSummary.budgetUtilization
       (MemStorage.getDashboardSummary Example.mem3) = 6
  /\ sum_estimated (MemStorage.getBudgetItems Example.mem4) = 200
  /\ sum_expenses (MemStorage.getExpenses Example.mem4) = 120
  /\ Js.round_percent 120 200 = 60
  /\ DashboardSummary.budgetUtilization
       (MemStorage.getDashboardSummary Example.mem4) = 15.
Proof. vm_compute. repeat split. Qed.

(** ** C8: the category breakdown of the budget summaries *)

(** The object that groups the expenses reads, at a category, as the sum
    of the expenses of the category. *)
Lemma add_expense_lookup (l : list Expense.t) (acc : gmap string Z) (c : string) :
  Js.or_zero (Js.reduce DatabaseStorage.add_expense acc l !! c)
  = Js.or_zero (acc !! c)
    + sum_expenses
        (List.filter (fun expense => String.eqb (Expense.category expense) c) l).
Proof.
  unfold Js.reduce, sum_expenses. revert acc.
  induction l as [|x l IH]; intros acc; cbn [fold_left List.filter].
  - cbn. lia.
  - rewrite IH. unfold DatabaseStorage.add_expense.
    destruct (String.eqb_spec (Expense.category x) c) as [->|Hne].
    + rewrite lookup_insert_eq, sum_cons. cbn [Js.or_zero].
      destruct (Js.truthy (acc !! c)) eqn:Htr.
      * lia.
      * rewrite lookup_insert_eq. cbn [Js.or_zero].
        rewrite (truthy_or_zero _ Htr). lia.
    + rewrite lookup_insert_ne by exact Hne.
      destruct (Js.truthy (acc !! Expense.category x)).
      * lia.
      * rewrite lookup_insert_ne by exact Hne. lia.
Qed.

Lemma db_budget_run db :
  exists s,
    DatabaseStorage.getBudgetSummary db = (DatabaseStorage.Ok s, db)
    /\ BudgetSummary.categoryBreakdown s
       = map (fun category =>
                CategoryEntry.mk category
                  (Js.reduce
                     (fun sum item => sum + BudgetItem.estimatedAmount item) 0
                     (List.filter
                        (fun item => String.eqb (BudgetItem.category item) category)
                        (DatabaseStorage.budgetItems db)))
                  (Js.or_zero
                     (Js.reduce DatabaseStorage.add_expense ∅
                        (Sql.order_by
                           (fun y x => Expense.date x <? Expense.date y)
                           (Executor.expenses_rank (DatabaseStorage.executor db)
                              ExpenseQuery.none)
                           (DatabaseStorage.expenses db))
                      !! category)))
             categories.
Proof.
  eexists. split.
  - unfold DatabaseStorage.getBudgetSummary, DatabaseStorage.bind,
      DatabaseStorage.getBudgetItems, DatabaseStorage.getExpenses,
      DatabaseStorage.read, DatabaseStorage.ret.
    cbv beta iota zeta. reflexivity.
  - reflexivity.
Qed.

Lemma sum_filter_fixed {A : Type} (f : A -> Z) (cat : A -> string)
    (c : string) (l : list A) :
  fixed_category c = true ->
  Sql.sum f (List.filter (fun x => String.eqb (cat x) c)
                         (List.filter (fun x => fixed_category (cat x)) l))
  = Sql.sum f (List.filter (fun x => String.eqb (cat x) c) l).
Proof.
  intros Hc. induction l as [|x l IH]; [reflexivity|].
  cbn [List.filter].
  destruct (String.eqb_spec (cat x) c) as [Heq|Hne].
  - assert (Hf : fixed_category (cat x) = true) by now rewrite Heq.
    rewrite Hf. cbn [List.filter].
    destruct (String.eqb_spec (cat x) c); [|contradiction].
    rewrite !sum_cons. now rewrite IH.
  - destruct (fixed_category (cat x)); [|exact IH].
    cbn [List.filter]. destruct (String.eqb_spec (cat x) c); [contradiction|].
    exact IH.
Qed.

(** C8.  In both backends the [categoryBreakdown] of [getBudgetSummary]
    has, for each of the nine fixed categories in their order, the sum of
    [estimatedAmount] over the stored budget items of the category and
    the sum of [amount] over the stored expenses of the category: those of
    the two maps in memory, those of the two tables in the database.  The
    rows of any other category can be dropped without changing an
    entry. *)
Theorem categoryBreakdown_sums_fixed_categories
    (st : MemStorage.t) (db : DatabaseStorage.t) :
  categories
  = ["venue"; "food"; "entertainment"; "decoration"; "transportation";
     "gifts"; "technology"; "marketing"; "miscellaneous"]%string
  /\ BudgetSummary.categoryBreakdown (MemStorage.getBudgetSummary st)
     = spec_breakdown (JsMap.values (MemStorage.budgetItemMap st))
                      (JsMap.values (MemStorage.expenseMap st))
  /\ (exists s,
         DatabaseStorage.getBudgetSummary db = (DatabaseStorage.Ok s, db)
         /\ BudgetSummary.categoryBreakdown s
            = spec_breakdown (DatabaseStorage.budgetItems db)
                             (DatabaseStorage.expenses db))
  /\ (forall items expenses,
         spec_breakdown items expenses
         = spec_breakdown
             (List.filter (fun item => fixed_category (BudgetItem.category item))
                          items)
             (List.filter
                (fun expense => fixed_category (Expense.category expense))
                expenses)).
Proof.
  split; [reflexivity|]. split; [|split].
  - unfold MemStorage.getBudgetSummary, MemStorage.getBudgetItems,
      MemStorage.getExpenses, spec_breakdown.
    cbn [BudgetSummary.categoryBreakdown].
    apply map_ext. intros c. now rewrite !reduce_add_sum.
  - destruct (db_budget_run db) as (s & Hrun & Hb).
    exists s. split; [exact Hrun|]. rewrite Hb. unfold spec_breakdown.
    apply map_ext. intros c. rewrite reduce_add_sum, add_expense_lookup.
    rewrite lookup_empty. cbn [Js.or_zero].
    unfold sum_expenses, sum_estimated. now rewrite sum_filter_order_by.
  - intros items expenses. unfold spec_breakdown.
    apply map_ext_in. intros c Hc.
    assert (Hfixed : fixed_category c = true).
    { unfold fixed_category. apply existsb_exists. exists c.
      split; [exact Hc|apply String.eqb_refl]. }
    unfold sum_estimated, sum_expenses.
    now rewrite !sum_filter_fixed.
Qed.

(** The theorem at the small reunion.  In memory it holds a budget item
    of 200 and an expense of 50 for the venue and an expense of 70 of the
    category "fireworks", which is in no entry; in the database, whose
    second expense is of 70 for food, whatever the store. *)
Lemma categoryBreakdown_sums_fixed_categories_witness :
  map BudgetItem.estimatedAmount
      (JsMap.values (MemStorage.budgetItemMap Example.mem4)) = [200]
  /\ map Expense.amount (JsMap.values (MemStorage.expenseMap Example.mem4))
     = [50; 70]
  /\ BudgetSummary.categoryBreakdown (MemStorage.getBudgetSummary Example.mem4)
     = [CategoryEntry.mk "venue" 200 50; CategoryEntry.mk "food" 0 0;
        CategoryEntry.mk "entertainment" 0 0; CategoryEntry.mk "decoration" 0 0;
        CategoryEntry.mk "transportation" 0 0; CategoryEntry.mk "gifts" 0 0;
        CategoryEntry.mk "technology" 0 0; CategoryEntry.mk "marketing" 0 0;
        CategoryEntry.mk "miscellaneous" 0 0]
  /\ (forall e,
         exists s,
           DatabaseStorage.getBudgetSummary
             (DatabaseStorage.with_executor e Example.db4)
           = (DatabaseStorage.Ok s, DatabaseStorage.with_executor e Example.db4)
           /\ BudgetSummary.categoryBreakdown s
              = [CategoryEntry.mk "venue" 200 50; CategoryEntry.mk "food" 0 70;
                 CategoryEntry.mk "entertainment" 0 0;
                 CategoryEntry.mk "decoration" 0 0;
                 CategoryEntry.mk "transportation" 0 0;
                 CategoryEntry.mk "gifts" 0 0; CategoryEntry.mk "technology" 0 0;
                 CategoryEntry.mk "marketing" 0 0;
                 CategoryEntry.mk "miscellaneous" 0 0]).
Proof.
  split; [reflexivity|]. split; [reflexivity|]. split.
  - destruct (categoryBreakdown_sums_fixed_categories Example.mem4 Example.db4)
      as (_ & Hmem & _).
    rewrite Hmem. reflexivity.
  - intros e.
    destruct (categoryBreakdown_sums_fixed_categories Example.mem4
                (DatabaseStorage.with_executor e Example.db4))
      as (_ & _ & (s & Hrun & Hs) & _).
    exists s. split; [exact Hrun|]. rewrite Hs. reflexivity.
Defined.

(** The totals of the budget summaries of the small reunion: in memory
    the expense of the category "fireworks" is in [totalExpenses]; the
    database refuses that expense and keeps its state. *)
Lemma budget_summary_example :
  BudgetSummary.totalExpenses (MemStorage.getBudgetSummary Example.mem4) = 120
  /\ DatabaseStorage.createExpense 6 Example.fireworks Example.db3
     = (DatabaseStorage.Fault DatabaseStorage.invalid_enum_value, Example.db3)
  /\ (exists s,
         DatabaseStorage.getBudgetSummary Example.db4
         = (DatabaseStorage.Ok s, Example.db4)
         /\ BudgetSummary.totalExpenses s = 120).
Proof.
  split; [vm_compute; reflexivity|]. split; [vm_compute; reflexivity|].
  eexists. split; [vm_compute; reflexivity|reflexivity].
Qed.

(** ** C9: the bulk import *)

Lemma carries_spread r e :
  carries r (spread_student e (PartialStudent.of_insert r)).
Proof.
  unfold carries, spread_student, PartialStudent.of_insert. simpl.
  repeat split; try (intros v ->; reflexivity).
Qed.

Lemma carries_new_attendee id now r : carries r (new_attendee id now r).
Proof.
  unfold carries, new_attendee. simpl.
  repeat split; try (intros v ->; reflexivity); auto.
Qed.


(** *** An attendee with the mobile number *)

Lemma existing_attendee_find mobile (l : list Student.t) :
  find (fun s => String.eqb (Student.mobile s) mobile) l
  = existing_attendee mobile l.
Proof.
  unfold existing_attendee. induction l as [|x l IH]; simpl; [reflexivity|].
  now destruct (String.eqb (Student.mobile x) mobile).
Qed.

Lemma existing_attendee_In mobile (l : list Student.t) e :
  existing_attendee mobile l = Some e -> In e l /\ Student.mobile e = mobile.
Proof.
  intros H. apply head_filter_In in H as [Hin Hm].
  split; [exact Hin|now apply String.eqb_eq].
Qed.





(** *** In memory *)

Lemma mem_existing_stored mobile st e :
  mem_wf st ->
  existing_attendee mobile (JsMap.values (MemStorage.studentMap st)) = Some e ->
  JsMap.get (Student.id e) (MemStorage.studentMap st) = Some e.
Proof.
  intros Hwf Hfind. apply existing_attendee_In in Hfind as [Hin _].
  apply student_stored; [apply Hwf|now apply mem_student_ids|exact Hin].
Qed.

Lemma mem_fresh_student st :
  mem_wf st ->
  JsMap.get (MemStorage.currentStudentId st) (MemStorage.studentMap st) = None.
Proof.
  intros (_ & Hst & _). apply get_None_keys. intros Hin.
  apply in_map_iff in Hin as (kv & Heq & Hin).
  rewrite List.Forall_forall in Hst. specialize (Hst _ Hin). lia.
Qed.

(** One turn of the loop is one upsert. *)
Lemma mem_import_one_upsert now r acc st :
  mem_wf st ->
  MemStorage.import_one now r (acc, st)
  = (acc ++ [fst (mem_upsert now r st)], snd (mem_upsert now r st)).
Proof.
  intros Hwf. unfold MemStorage.import_one, mem_upsert,
    MemStorage.getStudentByMobile.
  rewrite existing_attendee_find.
  destruct (existing_attendee _ _) as [e|] eqn:Hfind.
  - unfold MemStorage.updateStudent.
    now rewrite (mem_existing_stored _ _ _ Hwf Hfind).
  - unfold MemStorage.createStudent.
    cbn [MemStorage.studentMap MemStorage.with_currentStudentId].
    rewrite set_fresh by now apply mem_fresh_student.
    reflexivity.
Qed.

Lemma mem_upsert_wf now r st : mem_wf st -> mem_wf (snd (mem_upsert now r st)).
Proof.
  intros Hwf. pose proof (mem_fresh_student st Hwf) as Hfresh.
  unfold mem_upsert.
  destruct (existing_attendee _ _) as [e|] eqn:Hfind.
  - pose proof (mem_existing_stored _ _ _ Hwf Hfind) as Hget.
    pose proof (get_Some_In _ _ _ Hget) as Hin.
    destruct Hwf as (Hnd & Hst & Hcnd & Hc & Hone).
    repeat split;
      cbn [snd MemStorage.studentMap MemStorage.contributionMap
             MemStorage.currentStudentId MemStorage.currentContributionId
             MemStorage.with_studentMap]; try assumption.
    + rewrite keys_set_present; [exact Hnd|].
      apply (in_map fst) in Hin. exact Hin.
    + apply Forall_set; [exact Hst|]. simpl.
      rewrite List.Forall_forall in Hst. specialize (Hst _ Hin). simpl in Hst.
      split; [reflexivity|]. tauto.
  - destruct Hwf as (Hnd & Hst & Hcnd & Hc & Hone).
    repeat split;
      cbn [snd MemStorage.studentMap MemStorage.contributionMap
             MemStorage.currentStudentId MemStorage.currentContributionId
             MemStorage.with_studentMap MemStorage.with_currentStudentId];
      try assumption; try lia.
    + rewrite keys_app. simpl.
      apply List.NoDup_app; [exact Hnd| |].
      * apply List.NoDup_cons; [simpl; tauto|apply List.NoDup_nil].
      * intros k Hk [<-|[]]. apply get_None_keys in Hfresh. contradiction.
    + apply Forall_app. split.
      * eapply List.Forall_impl; [|exact Hst]. simpl. intros kv [? ?].
        split; [assumption|lia].
      * constructor; [|constructor]. simpl. split; [reflexivity|lia].
Qed.

Lemma mem_import_fold now records acc st :
  mem_wf st ->
  fold_left (fun acc studentData => MemStorage.import_one now studentData acc)
            records (acc, st)
  = (acc ++ fst (spec_import (mem_upsert now) records st),
     snd (spec_import (mem_upsert now) records st)).
Proof.
  revert acc st. induction records as [|r rest IH]; intros acc st Hwf.
  - simpl. now rewrite app_nil_r.
  - cbn [fold_left spec_import].
    rewrite (mem_import_one_upsert now r acc st Hwf).
    rewrite (IH _ _ (mem_upsert_wf now r st Hwf)).
    destruct (mem_upsert now r st) as [s st1]. cbn [fst snd].
    destruct (spec_import (mem_upsert now) rest st1) as [out st2].
    cbn [fst snd]. now rewrite <- app_assoc.
Qed.

Lemma mem_spec_import_carries now records st :
  mem_wf st ->
  Forall2 carries records (fst (spec_import (mem_upsert now) records st))
  /\ mem_wf (snd (spec_import (mem_upsert now) records st)).
Proof.
  revert st. induction records as [|r rest IH]; intros st Hwf.
  - split; [constructor|exact Hwf].
  - cbn [spec_import].
    pose proof (mem_upsert_wf now r st Hwf) as Hwf1.
    assert (Hc : carries r (fst (mem_upsert now r st))).
    { unfold mem_upsert.
      destruct (existing_attendee _ _);
        [apply carries_spread|apply carries_new_attendee]. }
    destruct (mem_upsert now r st) as [s st1].
    destruct (IH st1 Hwf1) as [Hout Hwf2].
    destruct (spec_import (mem_upsert now) rest st1) as [out st2].
    split; [constructor; assumption|exact Hwf2].
Qed.



(** *** In the database *)



Lemma head_filter_existsb {A : Type} (p : A -> bool) (l : list A) :
  head (List.filter p l) = None -> existsb p l = false.
Proof.
  induction l as [|x l IH]; simpl; [reflexivity|].
  destruct (p x); simpl; [discriminate|exact IH].
Qed.













(** The imported first student keeps the contributions paid so far and
    takes the section, the city and the status of the import. *)
Lemma bulk_import_example :
  head (fst (MemStorage.bulkImportStudents 7
               [Example.asha_moved; Example.chitra] Example.mem2))
  = Some (Student.mk 1 "Asha" "Rao" SectionName.C Gender.female "9000000001" None None
            (Some "Pune") None (Some attending) (Some paid) (Some 800) (Some 0)).
Proof. reflexivity. Qed.

(** ** C10: deleting a student *)

Lemma get_delete_other {V : Type} k k' (m : list (Z * V)) :
  k' <> k -> JsMap.get k' (JsMap.delete k m) = JsMap.get k' m.
Proof.
  intros Hne. induction m as [|[k0 v0] m IH]; simpl; [reflexivity|].
  destruct (Z.eqb_spec k0 k) as [->|Hne0]; simpl.
  - destruct (Z.eqb_spec k k'); [congruence|reflexivity].
  - destruct (k0 =? k'); [reflexivity|exact IH].
Qed.

Lemma length_delete {V : Type} k (m : list (Z * V)) :
  (length m <= length (JsMap.delete k m) + 1)%nat.
Proof.
  induction m as [|[k0 v0] m IH]; simpl; [lia|].
  destruct (k0 =? k); simpl; lia.
Qed.

Lemma db_deleteStudent_run id db :
  DatabaseStorage.deleteStudent id db
  = if existsb (fun row => Student.id row =? id) (DatabaseStorage.students db)
       && existsb (fun c => Js.strict_eq (Contribution.studentId c) (Some id))
                  (DatabaseStorage.contributions db)
    then (DatabaseStorage.Fault DatabaseStorage.foreign_key_violation, db)
    else (DatabaseStorage.Ok true,
          DatabaseStorage.with_students
            (List.filter (fun row => negb (Student.id row =? id))
                         (DatabaseStorage.students db))
            db).
Proof.
  unfold DatabaseStorage.deleteStudent, DatabaseStorage.bind,
    DatabaseStorage.read. now destruct (_ && _).
Qed.

(** C10.  [deleteStudent] leaves the contribution ledger as it is and
    every attendee with another [id] in place, so it removes at most the
    one record: the ledger rows of the deleted attendee stay, and the
    total of the durable dashboard, summed over the ledger, is the same
    after the call as before. *)
Theorem deleteStudent_leaves_ledger (st : MemStorage.t) (db : DatabaseStorage.t)
    (id : Z) :
  (let st' := snd (MemStorage.deleteStudent id st) in
   MemStorage.contributionMap st' = MemStorage.contributionMap st
   /\ rows_of id (JsMap.values (MemStorage.contributionMap st'))
      = rows_of id (JsMap.values (MemStorage.contributionMap st))
   /\ (forall k, k <> id ->
                 MemStorage.getStudent (Some k) st'
                 = MemStorage.getStudent (Some k) st)
   /\ (length (MemStorage.studentMap st)
       <= length (MemStorage.studentMap st') + 1)%nat)
  /\ (forall r db',
         DatabaseStorage.deleteStudent id db = (r, db') ->
         DatabaseStorage.contributions db' = DatabaseStorage.contributions db
         /\ rows_of id (DatabaseStorage.contributions db')
            = rows_of id (DatabaseStorage.contributions db)
         /\ (forall s, In s (DatabaseStorage.students db) ->
                       Student.id s <> id ->
                       In s (DatabaseStorage.students db'))
         /\ (exists s s',
                DatabaseStorage.getDashboardSummary db = (DatabaseStorage.Ok s, db)
                /\ DatabaseStorage.getDashboardSummary db'
                   = (DatabaseStorage.Ok s', db')
                /\ DashboardSummary.totalContributions s'
                   = DashboardSummary.totalContributions s
                /\ DashboardSummary.totalContributions s'
                   = Sql.sum Contribution.amount
                             (DatabaseStorage.contributions db))).
Proof.
  split.
  - intros st'. unfold st', MemStorage.deleteStudent.
    cbn [snd MemStorage.contributionMap MemStorage.studentMap
           MemStorage.with_studentMap].
    split; [reflexivity|]. split; [reflexivity|]. split.
    + intros k Hk. unfold MemStorage.getStudent.
      cbn [MemStorage.studentMap MemStorage.with_studentMap].
      now apply get_delete_other.
    + apply length_delete.
  - intros r db' Hrun. rewrite db_deleteStudent_run in Hrun.
    assert (Hledger : DatabaseStorage.contributions db'
                      = DatabaseStorage.contributions db).
    { destruct (_ && _); injection Hrun; intros <- _; reflexivity. }
    split; [exact Hledger|]. split; [now rewrite Hledger|]. split.
    + intros s Hs Hne.
      destruct (_ && _); injection Hrun; intros <- _; [exact Hs|].
      cbn [DatabaseStorage.students DatabaseStorage.with_students].
      apply filter_In. split; [exact Hs|].
      apply negb_true_iff. now apply Z.eqb_neq.
    + destruct (db_dashboard_run db) as (s & Hs & Htot & _).
      destruct (db_dashboard_run db') as (s' & Hs' & Htot' & _).
      exists s, s'. split; [exact Hs|]. split; [exact Hs'|].
      rewrite Htot', Htot, Hledger. split; reflexivity.
Qed.

(** The theorem at the first student: in memory the record goes and its
    two contributions stay; the database keeps both, because the store
    refuses to delete an attendee that the ledger references, and lets
    the second student go. *)
Lemma deleteStudent_leaves_ledger_witness :
  (MemStorage.getStudent (Some 2) (snd (MemStorage.deleteStudent 1 Example.mem2))
   = MemStorage.getStudent (Some 2) Example.mem2
   /\ MemStorage.getStudent (Some 1) (snd (MemStorage.deleteStudent 1 Example.mem2))
      = None
   /\ length (rows_of 1 (JsMap.values
                           (MemStorage.contributionMap
                              (snd (MemStorage.deleteStudent 1 Example.mem2)))))
      = 2%nat)
  /\ (exists db',
         DatabaseStorage.deleteStudent 2 Example.db2 = (DatabaseStorage.Ok true, db')
         /\ DatabaseStorage.contributions db'
            = DatabaseStorage.contributions Example.db2
         /\ map Student.id (DatabaseStorage.students db') = [1])
  /\ DatabaseStorage.deleteStudent 1 Example.db2
     = (DatabaseStorage.Fault DatabaseStorage.foreign_key_violation, Example.db2).
Proof.
  destruct (deleteStudent_leaves_ledger Example.mem2 Example.db2 1)
    as [(_ & Hrows & Hother & _) _].
  destruct (deleteStudent_leaves_ledger Example.mem2 Example.db2 2)
    as [_ Hdb].
  split; [|split].
  - split; [apply Hother; discriminate|]. split; [reflexivity|].
    cbv zeta in Hrows. rewrite Hrows. reflexivity.
  - eexists. split; [vm_compute; reflexivity|].
    split; [|reflexivity].
    refine (proj1 (Hdb (DatabaseStorage.Ok true) _ _)).
    vm_compute. reflexivity.
  - reflexivity.
Defined.

(** * More of the repository layer *)

(** ** Maps: keys under [set] and [delete] *)

Lemma keys_set {V : Type} k (v : V) m :
  JsMap.keys (JsMap.set k v m)
  = if JsMap.has k m then JsMap.keys m else JsMap.keys m ++ [k].
Proof.
  unfold JsMap.has. induction m as [|[k' v'] m IH]; simpl; [reflexivity|].
  destruct (k' =? k) eqn:Hk.
  - apply Z.eqb_eq in Hk. now subst.
  - simpl. rewrite IH. now destruct (JsMap.get k m).
Qed.

Lemma NoDup_keys_set {V : Type} k (v : V) m :
  List.NoDup (JsMap.keys m) -> List.NoDup (JsMap.keys (JsMap.set k v m)).
Proof.
  intros Hnd. rewrite keys_set. unfold JsMap.has.
  destruct (JsMap.get k m) eqn:Hget; [exact Hnd|].
  apply get_None_keys in Hget.
  apply List.NoDup_app; [exact Hnd| |].
  - apply List.NoDup_cons; [simpl; tauto|apply List.NoDup_nil].
  - intros x Hx [<-|[]]. contradiction.
Qed.

Lemma In_delete {V : Type} k (m : list (Z * V)) kv :
  In kv (JsMap.delete k m) -> In kv m.
Proof.
  induction m as [|[k0 v0] m IH]; simpl; [tauto|].
  destruct (k0 =? k); simpl; tauto.
Qed.

Lemma Forall_delete {V : Type} (P : Z * V -> Prop) k (m : list (Z * V)) :
  Forall P m -> Forall P (JsMap.delete k m).
Proof.
  rewrite !List.Forall_forall. intros H kv Hin. apply H.
  now apply In_delete in Hin.
Qed.

Lemma NoDup_keys_delete {V : Type} k (m : list (Z * V)) :
  List.NoDup (JsMap.keys m) -> List.NoDup (JsMap.keys (JsMap.delete k m)).
Proof.
  induction m as [|[k0 v0] m IH]; simpl; [tauto|].
  intros Hnd. apply List.NoDup_cons_iff in Hnd as [Hnot Hnd].
  destruct (k0 =? k); [exact Hnd|]. simpl.
  apply List.NoDup_cons; [|now apply IH].
  intros Hin. apply Hnot.
  apply in_map_iff in Hin as (kv & Heq & Hin).
  apply In_delete in Hin. rewrite <- Heq. now apply in_map.
Qed.



Lemma set_set {V : Type} k (v w : V) (m : list (Z * V)) :
  JsMap.set k w (JsMap.set k v m) = JsMap.set k w m.
Proof.
  induction m as [|[k0 v0] m IH]; simpl.
  - now rewrite Z.eqb_refl.
  - destruct (k0 =? k) eqn:Hk; simpl.
    + now rewrite Z.eqb_refl.
    + now rewrite Hk, IH.
Qed.


(** ** The invariant of [MemStorage] *)

Ltac mem_fields :=
  cbn [fst snd MemStorage.studentMap MemStorage.contributionMap
         MemStorage.budgetItemMap MemStorage.expenseMap
         MemStorage.currentStudentId MemStorage.currentContributionId
         MemStorage.currentBudgetItemId MemStorage.currentExpenseId
         MemStorage.with_studentMap MemStorage.with_contributionMap
         MemStorage.with_budgetItemMap MemStorage.with_expenseMap
         MemStorage.with_currentStudentId MemStorage.with_currentContributionId
         MemStorage.with_currentBudgetItemId MemStorage.with_currentExpenseId].

Lemma mem_createStudent_wf now i st :
  mem_wf st -> mem_wf (snd (MemStorage.createStudent now i st)).
Proof.
  intros Hwf. pose proof (mem_fresh_student st Hwf) as Hfresh.
  destruct Hwf as (Hnd & Hst & Hcnd & Hc & Hone).
  unfold MemStorage.createStudent. mem_fields.
  rewrite set_fresh by exact Hfresh.
  repeat split; mem_fields; try assumption; try lia.
  - rewrite keys_app. simpl.
    apply List.NoDup_app; [exact Hnd| |].
    + apply List.NoDup_cons; [simpl; tauto|apply List.NoDup_nil].
    + intros k Hk [<-|[]]. apply get_None_keys in Hfresh. contradiction.
  - apply Forall_app. split.
    + eapply List.Forall_impl; [|exact Hst]. simpl. intros kv [? ?].
      split; [assumption|lia].
    + constructor; [|constructor]. simpl. split; [reflexivity|lia].
Qed.

Lemma mem_updateStudent_wf id d st :
  mem_wf st -> mem_wf (snd (MemStorage.updateStudent id d st)).
Proof.
  intros Hwf. unfold MemStorage.updateStudent.
  destruct (JsMap.get id (MemStorage.studentMap st)) as [s|] eqn:Hget;
    [|exact Hwf].
  pose proof (get_Some_In _ _ _ Hget) as Hin.
  destruct Hwf as (Hnd & Hst & Hcnd & Hc & Hone).
  repeat split; mem_fields; try assumption.
  - now apply NoDup_keys_set.
  - apply Forall_set; [exact Hst|]. simpl.
    rewrite List.Forall_forall in Hst. specialize (Hst _ Hin). simpl in Hst.
    tauto.
Qed.

Lemma mem_deleteStudent_wf id st :
  mem_wf st -> mem_wf (snd (MemStorage.deleteStudent id st)).
Proof.
  intros (Hnd & Hst & Hcnd & Hc & Hone). unfold MemStorage.deleteStudent.
  repeat split; mem_fields; try assumption.
  - now apply NoDup_keys_delete.
  - now apply Forall_delete.
Qed.

Lemma mem_set_contribution_wf id c st :
  mem_wf st ->
  JsMap.get id (MemStorage.contributionMap st) = Some c ->
  forall c', Contribution.id c' = Contribution.id c ->
  mem_wf (MemStorage.with_contributionMap
            (JsMap.set id c' (MemStorage.contributionMap st)) st).
Proof.
  intros (Hnd & Hst & Hcnd & Hc & Hone) Hget c' Hid.
  pose proof (get_Some_In _ _ _ Hget) as Hin.
  repeat split; mem_fields; try assumption.
  - now apply NoDup_keys_set.
  - apply Forall_set; [exact Hc|]. simpl.
    rewrite List.Forall_forall in Hc. specialize (Hc _ Hin). simpl in Hc.
    rewrite Hid. tauto.
Qed.

Lemma mem_updateContribution_wf id d st :
  mem_wf st -> mem_wf (snd (MemStorage.updateContribution id d st)).
Proof.
  intros Hwf. unfold MemStorage.updateContribution.
  destruct (JsMap.get id (MemStorage.contributionMap st)) as [c|] eqn:Hget;
    [|exact Hwf].
  cbn [snd].
  match goal with
  | |- mem_wf (MemStorage.with_contributionMap
                 (JsMap.set id _ (MemStorage.contributionMap ?s)) ?s) =>
      assert (Hs : mem_wf s
                   /\ MemStorage.contributionMap s = MemStorage.contributionMap st)
  end.
  { destruct (PartialContribution.amount d) as [a|]; [|now split].
    destruct (negb (a =? Contribution.amount c)); [|now split].
    destruct (MemStorage.getStudent (Contribution.studentId c) st) as [s|];
      [|now split].
    split; [now apply mem_updateStudent_wf|].
    unfold MemStorage.updateStudent.
    now destruct (JsMap.get (Student.id s) (MemStorage.studentMap st)). }
  destruct Hs as [Hs Heq].
  apply (mem_set_contribution_wf id c); [exact Hs|now rewrite Heq|reflexivity].
Qed.

Lemma mem_deleteContribution_wf id st :
  mem_wf st -> mem_wf (snd (MemStorage.deleteContribution id st)).
Proof.
  intros Hwf. unfold MemStorage.deleteContribution.
  destruct (JsMap.get id (MemStorage.contributionMap st)) as [c|] eqn:Hget;
    [|exact Hwf].
  cbn [snd].
  match goal with
  | |- mem_wf (MemStorage.with_contributionMap
                 (JsMap.delete id (MemStorage.contributionMap ?s)) ?s) =>
      assert (Hs : mem_wf s) by
        (destruct (MemStorage.getStudent (Contribution.studentId c) st);
         [now apply mem_updateStudent_wf|exact Hwf]);
      destruct Hs as (Hnd & Hst & Hcnd & Hc & Hone)
  end.
  repeat split; mem_fields; try assumption.
  - now apply NoDup_keys_delete.
  - now apply Forall_delete.
Qed.

(** X1.  The well-formedness of a state of [MemStorage], which holds of
    the state the constructor builds ([init_wf]), is an invariant: each
    method that writes students or contributions keeps it.  So a student
    is always stored under its own [id], and no [id] is handed out twice,
    not even after a deletion. *)
Theorem mem_methods_keep_wf (st : MemStorage.t) :
  mem_wf st ->
  (forall now i, mem_wf (snd (MemStorage.createStudent now i st)))
  /\ (forall id d, mem_wf (snd (MemStorage.updateStudent id d st)))
  /\ (forall id, mem_wf (snd (MemStorage.deleteStudent id st)))
  /\ (forall now ic, mem_wf (snd (MemStorage.createContribution now ic st)))
  /\ (forall id d, mem_wf (snd (MemStorage.updateContribution id d st)))
  /\ (forall id, mem_wf (snd (MemStorage.deleteContribution id st)))
  /\ (forall now records,
         mem_wf (snd (MemStorage.bulkImportStudents now records st))).
Proof.
  intros Hwf.
  split; [|split; [|split; [|split; [|split; [|split]]]]].
  - intros. now apply mem_createStudent_wf.
  - intros. now apply mem_updateStudent_wf.
  - intros. now apply mem_deleteStudent_wf.
  - intros. now apply mem_create_wf.
  - intros. now apply mem_updateContribution_wf.
  - intros. now apply mem_deleteContribution_wf.
  - intros now records. unfold MemStorage.bulkImportStudents.
    rewrite (mem_import_fold now records [] st Hwf). cbn [snd].
    now apply mem_spec_import_carries.
Qed.

Lemma mem_methods_keep_wf_witness :
  mem_wf (snd (MemStorage.deleteStudent 1 Example.mem2))
  /\ mem_wf (snd (MemStorage.createStudent 9 Example.chitra
                    (snd (MemStorage.deleteStudent 2 Example.mem2))))
  /\ mem_wf (snd (MemStorage.updateContribution 1 (Example.edit 2 700)
                    Example.mem2)).
Proof.
  split; [|split].
  - apply (mem_methods_keep_wf Example.mem2 mem2_wf).
  - apply (mem_methods_keep_wf (snd (MemStorage.deleteStudent 2 Example.mem2))).
    apply (mem_methods_keep_wf Example.mem2 mem2_wf).
  - apply (mem_methods_keep_wf Example.mem2 mem2_wf).
Defined.

(** ** The invariant of [DatabaseStorage] *)

Ltac db_fields :=
  cbn [fst snd DatabaseStorage.students DatabaseStorage.contributions
         DatabaseStorage.budgetItems DatabaseStorage.expenses
         DatabaseStorage.students_id_seq DatabaseStorage.contributions_id_seq
         DatabaseStorage.budget_items_id_seq DatabaseStorage.expenses_id_seq
         DatabaseStorage.with_students DatabaseStorage.with_contributions
         DatabaseStorage.with_budgetItems DatabaseStorage.with_expenses
         DatabaseStorage.with_students_id_seq
         DatabaseStorage.with_contributions_id_seq
         DatabaseStorage.with_budget_items_id_seq
         DatabaseStorage.with_expenses_id_seq
         DatabaseStorage.executor DatabaseStorage.with_executor].

Ltac db_run :=
  unfold DatabaseStorage.bind, DatabaseStorage.read, DatabaseStorage.write,
    DatabaseStorage.ret, DatabaseStorage.raise; cbv beta iota zeta.

Lemma keeps_ret {A : Type} P (a : A) : keeps P (DatabaseStorage.ret a).
Proof. intros db H. exact H. Qed.

Lemma keeps_raise {A : Type} P f : keeps P (@DatabaseStorage.raise A f).
Proof. intros db H. exact H. Qed.

Lemma keeps_read {A : Type} P (f : DatabaseStorage.t -> A) :
  keeps P (DatabaseStorage.read f).
Proof. intros db H. exact H. Qed.

Lemma keeps_bind {A B : Type} P (m : DatabaseStorage.M A)
    (k : A -> DatabaseStorage.M B) :
  keeps P m -> (forall a, keeps P (k a)) -> keeps P (DatabaseStorage.bind m k).
Proof.
  intros Hm Hk db H. unfold DatabaseStorage.bind.
  specialize (Hm db H). destruct (m db) as [[a|f] db1]; cbn [snd] in *.
  - now apply Hk.
  - exact Hm.
Qed.

Lemma db_createStudent_run now i db :
  let id := DatabaseStorage.students_id_seq db in
  let db1 := DatabaseStorage.with_students_id_seq (id + 1) db in
  DatabaseStorage.createStudent now i db
  = if DatabaseStorage.amount_refused (InsertStudent.contributionAmount i)
    then (DatabaseStorage.Fault DatabaseStorage.numeric_value_out_of_range, db)
    else if existsb (fun row => String.eqb (Student.mobile row)
                                  (InsertStudent.mobile i))
                    (DatabaseStorage.students db)
    then (DatabaseStorage.Fault DatabaseStorage.unique_violation, db1)
    else (DatabaseStorage.Ok (DatabaseStorage.student_row id now i),
          DatabaseStorage.with_students
            (DatabaseStorage.students db
             ++ [DatabaseStorage.student_row id now i]) db1).
Proof.
  intros id db1. unfold DatabaseStorage.createStudent.
  destruct (DatabaseStorage.amount_refused _); [reflexivity|].
  db_run. db_fields. now destruct (existsb _ _).
Qed.

Lemma db_updateStudent_run id d db :
  let updated :=
    map (fun row => if Student.id row =? id then spread_student row d else row)
        (DatabaseStorage.students db) in
  DatabaseStorage.updateStudent id d db
  = if PartialStudent.is_empty d
    then (DatabaseStorage.Fault DatabaseStorage.no_values_to_set, db)
    else if DatabaseStorage.amount_refused (PartialStudent.contributionAmount d)
    then (DatabaseStorage.Fault DatabaseStorage.numeric_value_out_of_range, db)
    else if match PartialStudent.mobile d with
            | Some mobile =>
                existsb (fun row => Student.id row =? id)
                        (DatabaseStorage.students db)
                && existsb (fun row => negb (Student.id row =? id)
                                       && String.eqb (Student.mobile row) mobile)
                           (DatabaseStorage.students db)
            | None => false
            end
    then (DatabaseStorage.Fault DatabaseStorage.unique_violation, db)
    else (DatabaseStorage.Ok
            (head (List.filter (fun row => Student.id row =? id) updated)),
          DatabaseStorage.with_students updated db).
Proof.
  intros updated. unfold DatabaseStorage.updateStudent.
  destruct (PartialStudent.is_empty d); [reflexivity|].
  destruct (DatabaseStorage.amount_refused _); [reflexivity|]. db_run.
  now destruct (match PartialStudent.mobile d with Some _ => _ | None => _ end).
Qed.

Lemma map_update_absent {A : Type} (key : A -> Z) (f : A -> A) k (l : list A) :
  existsb (fun row => key row =? k) l = false ->
  map (fun row => if key row =? k then f row else row) l = l.
Proof.
  induction l as [|x l IH]; simpl; [reflexivity|].
  destruct (key x =? k); simpl; [discriminate|]. intros H. now rewrite IH.
Qed.

Lemma map_update_keys {A : Type} (key : A -> Z) (f : A -> A) k (l : list A) :
  (forall row, key (f row) = key row) ->
  map key (map (fun row => if key row =? k then f row else row) l) = map key l.
Proof.
  intros Hf. rewrite map_map. apply map_ext. intros row.
  now destruct (_ =? _).
Qed.

(** An update of the row with one primary key keeps the mobile numbers
    distinct when no other row has the new number. *)
Lemma NoDup_mobile_update k (f : Student.t -> Student.t) m
    (rows : list Student.t) :
  List.NoDup (map Student.id rows) ->
  List.NoDup (map Student.mobile rows) ->
  (forall row, Student.mobile (f row) = m) ->
  existsb (fun row => negb (Student.id row =? k)
                      && String.eqb (Student.mobile row) m) rows = false ->
  List.NoDup
    (map Student.mobile
       (map (fun row => if Student.id row =? k then f row else row) rows)).
Proof.
  intros Hid Hmob Hf Hclash.
  induction rows as [|r rows IH]; simpl; [constructor|].
  simpl in Hid, Hmob, Hclash.
  apply List.NoDup_cons_iff in Hid as [Hid1 Hid].
  apply List.NoDup_cons_iff in Hmob as [Hmob1 Hmob].
  apply orb_false_iff in Hclash as [Hr Hclash].
  specialize (IH Hid Hmob Hclash).
  assert (Hother : forall row, In row rows -> Student.id row <> k ->
                               Student.mobile row <> m).
  { intros row Hin Hne Heq.
    assert (Hex : existsb (fun row => negb (Student.id row =? k)
                                      && String.eqb (Student.mobile row) m)
                          rows = true).
    { apply existsb_exists. exists row. split; [exact Hin|].
      apply andb_true_iff. split.
      - apply negb_true_iff. now apply Z.eqb_neq.
      - now apply String.eqb_eq. }
    congruence. }
  destruct (Z.eqb_spec (Student.id r) k) as [Heq|Hne].
  - rewrite map_update_absent.
    + apply List.NoDup_cons; [|exact Hmob].
      rewrite Hf. intros Hin. apply in_map_iff in Hin as (row & Hm & Hin).
      apply (Hother row Hin); [|exact Hm].
      intros Hk. apply Hid1. rewrite Heq, <- Hk. now apply in_map.
    + destruct (existsb (fun row => Student.id row =? k) rows) eqn:Hex;
        [|reflexivity].
      apply existsb_exists in Hex as (row & Hin & Hk).
      apply Z.eqb_eq in Hk. exfalso. apply Hid1.
      rewrite Heq, <- Hk. now apply in_map.
  - apply List.NoDup_cons; [|exact IH].
    intros Hin. apply in_map_iff in Hin as (row' & Hm & Hin).
    apply in_map_iff in Hin as (row & <- & Hin).
    destruct (Z.eqb_spec (Student.id row) k) as [Hk|Hk].
    + rewrite Hf in Hm. simpl in Hr.
      apply String.eqb_neq in Hr. congruence.
    + apply Hmob1. rewrite <- Hm. now apply in_map.
Qed.

Lemma db_wf_update_students k d db :
  db_wf db ->
  match PartialStudent.mobile d with
  | Some mobile =>
      existsb (fun row => Student.id row =? k) (DatabaseStorage.students db)
      && existsb (fun row => negb (Student.id row =? k)
                             && String.eqb (Student.mobile row) mobile)
                 (DatabaseStorage.students db)
  | None => false
  end = false ->
  db_wf (DatabaseStorage.with_students
           (map (fun row => if Student.id row =? k
                            then spread_student row d else row)
                (DatabaseStorage.students db)) db).
Proof.
  intros (Hnd & Hst & Hcnd & Hc & Hone & Hmob) Hclash.
  split; [|split; [|split; [|split; [|split]]]]; db_fields; try assumption.
  - now rewrite (map_update_keys Student.id).
  - apply Forall_map. eapply List.Forall_impl; [|exact Hst].
    intros row Hrow. now destruct (_ =? _).
  - destruct (PartialStudent.mobile d) as [m|] eqn:Hm.
    + apply andb_false_iff in Hclash as [Habsent|Hclash].
      * now rewrite map_update_absent.
      * apply (NoDup_mobile_update k _ m); try assumption.
        intros row. unfold spread_student. simpl. now rewrite Hm.
    + replace (map Student.mobile _)
        with (map Student.mobile (DatabaseStorage.students db)); [exact Hmob|].
      rewrite map_map. apply map_ext. intros row.
      destruct (_ =? _); [|reflexivity].
      unfold spread_student. simpl. now rewrite Hm.
Qed.

Lemma keeps_createStudent now i :
  keeps db_wf (DatabaseStorage.createStudent now i).
Proof.
  intros db Hwf. rewrite db_createStudent_run.
  destruct (DatabaseStorage.amount_refused _); [exact Hwf|].
  destruct (existsb _ _) eqn:Hex; cbn [snd];
    destruct Hwf as (Hnd & Hst & Hcnd & Hc & Hone & Hmob);
    (split; [|split; [|split; [|split; [|split]]]]); db_fields;
    try assumption; try lia.
  - eapply List.Forall_impl; [|exact Hst]. simpl. intros row ?. lia.
  - rewrite map_app. simpl.
    apply List.NoDup_app; [exact Hnd| |].
    + apply List.NoDup_cons; [simpl; tauto|apply List.NoDup_nil].
    + intros k Hk [<-|[]]. apply in_map_iff in Hk as (row & Heq & Hrow).
      rewrite List.Forall_forall in Hst. specialize (Hst _ Hrow). lia.
  - apply Forall_app. split.
    + eapply List.Forall_impl; [|exact Hst]. simpl. intros row ?. lia.
    + constructor; [|constructor]. simpl. lia.
  - rewrite map_app. simpl.
    apply List.NoDup_app; [exact Hmob| |].
    + apply List.NoDup_cons; [simpl; tauto|apply List.NoDup_nil].
    + intros m Hmo [<-|[]]. apply in_map_iff in Hmo as (row & Heq & Hrow).
      assert (existsb (fun row => String.eqb (Student.mobile row)
                                    (InsertStudent.mobile i))
                      (DatabaseStorage.students db) = true); [|congruence].
      apply existsb_exists. exists row. split; [exact Hrow|].
      now apply String.eqb_eq.
Qed.

Lemma keeps_updateStudent id d :
  keeps db_wf (DatabaseStorage.updateStudent id d).
Proof.
  intros db Hwf. rewrite db_updateStudent_run.
  destruct (PartialStudent.is_empty d); [exact Hwf|].
  destruct (DatabaseStorage.amount_refused _); [exact Hwf|].
  destruct (match PartialStudent.mobile d with Some _ => _ | None => _ end)
    eqn:Hclash; [exact Hwf|].
  cbn [snd]. now apply db_wf_update_students.
Qed.

Lemma NoDup_map_filter {A B : Type} (f : A -> B) (p : A -> bool) (l : list A) :
  List.NoDup (map f l) -> List.NoDup (map f (List.filter p l)).
Proof.
  induction l as [|x l IH]; simpl; [tauto|].
  intros Hnd. apply List.NoDup_cons_iff in Hnd as [Hnot Hnd].
  destruct (p x); simpl; [|now apply IH].
  apply List.NoDup_cons; [|now apply IH].
  intros Hin. apply Hnot. apply in_map_iff in Hin as (y & Heq & Hin).
  apply filter_In in Hin as [Hin _]. rewrite <- Heq. now apply in_map.
Qed.

Lemma db_wf_filter_students (p : Student.t -> bool) db :
  db_wf db ->
  db_wf (DatabaseStorage.with_students
           (List.filter p (DatabaseStorage.students db)) db).
Proof.
  intros (Hnd & Hst & Hcnd & Hc & Hone & Hmob).
  split; [|split; [|split; [|split; [|split]]]]; db_fields; try assumption.
  - now apply NoDup_map_filter.
  - rewrite List.Forall_forall in *. intros row Hin.
    apply filter_In in Hin as [Hin _]. now apply Hst.
  - now apply NoDup_map_filter.
Qed.


Lemma keeps_deleteStudent id : keeps db_wf (DatabaseStorage.deleteStudent id).
Proof.
  intros db Hwf. unfold DatabaseStorage.deleteStudent. db_run.
  destruct (_ && _); cbn [snd]; [exact Hwf|].
  now apply db_wf_filter_students.
Qed.

Lemma db_wf_contributions rows n db :
  db_wf db ->
  List.NoDup (map Contribution.id rows) ->
  Forall (fun c => Contribution.id c < n) rows ->
  db_wf (DatabaseStorage.with_contributions rows
           (DatabaseStorage.with_contributions_id_seq n db)).
Proof.
  intros (Hnd & Hst & Hcnd & Hc & Hone & Hmob) Hr1 Hr2.
  split; [|split; [|split; [|split; [|split]]]]; db_fields; assumption.
Qed.

Lemma db_with_contributions_id_seq_same db :
  DatabaseStorage.with_contributions_id_seq
    (DatabaseStorage.contributions_id_seq db) db = db.
Proof. now destruct db. Qed.

Lemma keeps_insert_contribution now ic :
  keeps db_wf (DatabaseStorage.insert_contribution now ic).
Proof.
  intros db Hwf. unfold DatabaseStorage.insert_contribution. db_run.
  unfold DatabaseStorage.getStudent. db_run. db_fields.
  pose proof Hwf as (Hnd & Hst & Hcnd & Hc & Hone & Hmob).
  assert (Hseq : db_wf (DatabaseStorage.with_contributions_id_seq
                          (DatabaseStorage.contributions_id_seq db + 1) db)).
  { rewrite <- (db_with_contributions_id_seq_same db) at 2.
    replace (DatabaseStorage.with_contributions_id_seq _
               (DatabaseStorage.with_contributions_id_seq _ db))
      with (DatabaseStorage.with_contributions (DatabaseStorage.contributions db)
              (DatabaseStorage.with_contributions_id_seq
                 (DatabaseStorage.contributions_id_seq db + 1) db))
      by now destruct db.
    apply db_wf_contributions; [exact Hwf|exact Hcnd|].
    eapply List.Forall_impl; [|exact Hc]. simpl. intros c ?. lia. }
  assert (Hrow : forall row,
             Contribution.id row = DatabaseStorage.contributions_id_seq db ->
             db_wf (DatabaseStorage.with_contributions
                      (DatabaseStorage.contributions db ++ [row])
                      (DatabaseStorage.with_contributions_id_seq
                         (DatabaseStorage.contributions_id_seq db + 1) db))).
  { intros row Hid. apply db_wf_contributions; [exact Hwf| |].
    - rewrite map_app. simpl.
      apply List.NoDup_app; [exact Hcnd| |].
      + apply List.NoDup_cons; [simpl; tauto|apply List.NoDup_nil].
      + intros k Hk [<-|[]]. apply in_map_iff in Hk as (c & Heq & Hin).
        rewrite List.Forall_forall in Hc. specialize (Hc _ Hin). lia.
    - apply Forall_app. split.
      + eapply List.Forall_impl; [|exact Hc]. simpl. intros c ?. lia.
      + constructor; [|constructor]. lia. }
  destruct (mjoin (InsertContribution.studentId ic)) as [k|];
    [destruct (head _)|]; cbn [snd]; first [exact Hseq | now apply Hrow].
Qed.

Lemma keeps_getContributions q :
  keeps db_wf (DatabaseStorage.getContributions q).
Proof.
  intros db Hwf. unfold DatabaseStorage.getContributions. db_run.
  destruct (Js.truthy (ContributionQuery.limit q)); [|exact Hwf].
  destruct (ContributionQuery.offset q) as [offset|];
    [destruct (offset <? 0)|]; exact Hwf.
Qed.

Lemma keeps_createContribution now ic :
  keeps db_wf (DatabaseStorage.createContribution now ic).
Proof.
  unfold DatabaseStorage.createContribution.
  apply keeps_bind; [apply keeps_insert_contribution|]. intros result.
  apply keeps_bind; [apply keeps_read|]. intros [student|];
    [|apply keeps_ret].
  apply keeps_bind; [apply keeps_getContributions|]. intros rows.
  apply keeps_bind; [apply keeps_updateStudent|]. intros _. apply keeps_ret.
Qed.

Lemma keeps_update_contribution id d :
  keeps db_wf (DatabaseStorage.update_contribution id d).
Proof.
  intros db Hwf. unfold DatabaseStorage.update_contribution.
  destruct (PartialContribution.is_empty d); [exact Hwf|].
  db_run. unfold DatabaseStorage.getStudent. db_run.
  assert (Hok : db_wf (DatabaseStorage.with_contributions
                         (map (fun row => if Contribution.id row =? id
                                          then spread_contribution row d
                                          else row)
                              (DatabaseStorage.contributions db)) db)).
  { pose proof Hwf as (Hnd & Hst & Hcnd & Hc & Hone & Hmob).
    rewrite <- (db_with_contributions_id_seq_same db) at 2.
    apply db_wf_contributions; [exact Hwf| |].
    - now rewrite (map_update_keys Contribution.id).
    - apply Forall_map. eapply List.Forall_impl; [|exact Hc].
      intros row Hrow. now destruct (_ =? _). }
  destruct (mjoin (PartialContribution.studentId d)) as [k|];
    [destruct (head _); [|destruct (existsb _ _)]|]; cbn [snd];
    first [exact Hwf | exact Hok].
Qed.

Lemma keeps_updateContribution id d :
  keeps db_wf (DatabaseStorage.updateContribution id d).
Proof.
  unfold DatabaseStorage.updateContribution.
  apply keeps_bind; [apply keeps_read|]. intros [c|]; [|apply keeps_ret].
  apply keeps_bind; [|intros _; apply keeps_update_contribution].
  destruct (PartialContribution.amount d) as [a|]; [|apply keeps_ret].
  destruct (negb _); [|apply keeps_ret].
  apply keeps_bind; [apply keeps_read|]. intros [s|]; [|apply keeps_ret].
  apply keeps_bind; [apply keeps_updateStudent|]. intros _. apply keeps_ret.
Qed.

Lemma keeps_deleteContribution id :
  keeps db_wf (DatabaseStorage.deleteContribution id).
Proof.
  unfold DatabaseStorage.deleteContribution.
  apply keeps_bind; [apply keeps_read|]. intros [c|]; [|apply keeps_ret].
  apply keeps_bind; [apply keeps_read|]. intros student.
  apply keeps_bind.
  - destruct student as [s|]; [|apply keeps_ret].
    destruct (Js.truthy _); [|apply keeps_ret].
    apply keeps_bind; [apply keeps_updateStudent|]. intros _. apply keeps_ret.
  - intros _ db Hwf. db_run. cbn [snd].
    pose proof Hwf as (Hnd & Hst & Hcnd & Hc & Hone & Hmob).
    rewrite <- (db_with_contributions_id_seq_same db) at 2.
    apply db_wf_contributions; [exact Hwf| |].
    + now apply NoDup_map_filter.
    + rewrite List.Forall_forall in *. intros row Hin.
      apply filter_In in Hin as [Hin _]. now apply Hc.
Qed.

Lemma keeps_import_loop now records acc :
  keeps db_wf (DatabaseStorage.import_loop now records acc).
Proof.
  revert acc. induction records as [|r rest IH]; intros acc;
    cbn [DatabaseStorage.import_loop]; [apply keeps_ret|].
  apply keeps_bind; [apply keeps_read|]. intros [e|].
  - apply keeps_bind; [apply keeps_updateStudent|]. intros [u|]; apply IH.
  - apply keeps_bind; [apply keeps_createStudent|]. intros s. apply IH.
Qed.

(** X2.  The well-formedness of a state of the database, which holds
    of the empty database ([init_wf]), is an invariant: every method that
    writes students or contributions leaves it in force, whether the
    method completes or a statement of it is refused.  In particular the
    primary keys and the mobile numbers stay unique, also in the state
    that a faulted method leaves. *)
Theorem db_methods_keep_wf (db : DatabaseStorage.t) :
  db_wf db ->
  (forall now i, db_wf (snd (DatabaseStorage.createStudent now i db)))
  /\ (forall id d, db_wf (snd (DatabaseStorage.updateStudent id d db)))
  /\ (forall id, db_wf (snd (DatabaseStorage.deleteStudent id db)))
  /\ (forall now ic, db_wf (snd (DatabaseStorage.createContribution now ic db)))
  /\ (forall id d, db_wf (snd (DatabaseStorage.updateContribution id d db)))
  /\ (forall id, db_wf (snd (DatabaseStorage.deleteContribution id db)))
  /\ (forall now records,
         db_wf (snd (DatabaseStorage.bulkImportStudents now records db))).
Proof.
  intros Hwf.
  split; [|split; [|split; [|split; [|split; [|split]]]]]; intros.
  - now apply keeps_createStudent.
  - now apply keeps_updateStudent.
  - now apply keeps_deleteStudent.
  - now apply keeps_createContribution.
  - now apply keeps_updateContribution.
  - now apply keeps_deleteContribution.
  - now apply keeps_import_loop.
Qed.

(** The theorem at a creation that the unique mobile number refuses, at
    a contribution that the foreign key refuses, and at an edit. *)
Lemma db_methods_keep_wf_witness :
  fst (DatabaseStorage.createStudent 9 Example.asha Example.db2)
  = DatabaseStorage.Fault DatabaseStorage.unique_violation
  /\ db_wf (snd (DatabaseStorage.createStudent 9 Example.asha Example.db2))
  /\ db_wf (snd (DatabaseStorage.createContribution 4 (Example.gift 9 250)
                   Example.db2))
  /\ db_wf (snd (DatabaseStorage.updateContribution 1 (Example.edit 2 700)
                   Example.db2)).
Proof.
  split; [reflexivity|]. split; [|split];
    apply (db_methods_keep_wf Example.db2 db2_wf).
Defined.

(** ** The student methods *)


(** X3.  [createStudent] of [MemStorage] hands out the value of the
    counter, which no stored student has; afterwards the student is found
    under that [id], every other [id] reads as before, and the student is
    the last one that [getStudents] lists. *)
Theorem mem_createStudent_round_trip (now : Z) (i : InsertStudent.t)
    (st : MemStorage.t) :
  mem_wf st ->
  let s := fst (MemStorage.createStudent now i st) in
  let st' := snd (MemStorage.createStudent now i st) in
  Student.id s = MemStorage.currentStudentId st
  /\ MemStorage.getStudent (Some (Student.id s)) st = None
  /\ MemStorage.getStudent (Some (Student.id s)) st' = Some s
  /\ (forall k, k <> Student.id s ->
                MemStorage.getStudent (Some k) st'
                = MemStorage.getStudent (Some k) st)
  /\ MemStorage.getStudents st' = MemStorage.getStudents st ++ [s]
  /\ MemStorage.currentStudentId st' = MemStorage.currentStudentId st + 1.
Proof.
  intros Hwf s st'. pose proof (mem_fresh_student st Hwf) as Hfresh.
  unfold s, st', MemStorage.createStudent, MemStorage.getStudent,
    MemStorage.getStudents.
  mem_fields. cbn [Student.id].
  split; [reflexivity|]. split; [exact Hfresh|].
  split; [apply get_set_same|]. split.
  - intros k Hk. now apply get_set_other.
  - split; [|reflexivity]. rewrite set_fresh by exact Hfresh.
    now rewrite values_app.
Qed.

Lemma mem_createStudent_round_trip_witness :
  Student.id (fst (MemStorage.createStudent 9 Example.chitra Example.mem2)) = 3
  /\ MemStorage.getStudent (Some 3) Example.mem2 = None
  /\ MemStorage.getStudent (Some 3)
       (snd (MemStorage.createStudent 9 Example.chitra Example.mem2))
     = Some (fst (MemStorage.createStudent 9 Example.chitra Example.mem2)).
Proof.
  destruct (mem_createStudent_round_trip 9 Example.chitra Example.mem2 mem2_wf)
    as (H1 & H2 & H3 & _).
  split; [exact H1|]. split; [exact H2|exact H3].
Defined.

Lemma mem_found_by_mobile mobile st e :
  mem_wf st ->
  MemStorage.getStudentByMobile mobile st = Some e ->
  JsMap.get (Student.id e) (MemStorage.studentMap st) = Some e
  /\ Student.mobile e = mobile.
Proof.
  intros Hwf Hfind. unfold MemStorage.getStudentByMobile in Hfind.
  rewrite existing_attendee_find in Hfind. split.
  - now apply (mem_existing_stored mobile).
  - now apply existing_attendee_In in Hfind.
Qed.

Lemma find_app_Some {A : Type} (p : A -> bool) (l1 l2 : list A) x :
  find p l1 = Some x -> find p (l1 ++ l2) = Some x.
Proof.
  induction l1 as [|y l1 IH]; simpl; [discriminate|].
  destruct (p y); [auto|exact IH].
Qed.



(** X4.  Only the database keeps the mobile numbers unique.  With a
    mobile number that a stored student has, [createStudent] of
    [MemStorage] stores a second student with the number, and
    [getStudentByMobile] goes on returning the earlier one; the database
    refuses the row, keeps its students and has drawn the serial.  (The
    [contributionAmount] of the record fits its column.) *)
Theorem createStudent_with_known_mobile (now : Z) (i : InsertStudent.t)
    (st : MemStorage.t) (db : DatabaseStorage.t) (ms ds : Student.t) :
  MemStorage.getStudentByMobile (InsertStudent.mobile i) st = Some ms ->
  fst (DatabaseStorage.getStudentByMobile (InsertStudent.mobile i) db)
  = DatabaseStorage.Ok (Some ds) ->
  DatabaseStorage.amount_refused (InsertStudent.contributionAmount i) = false ->
  mem_wf st ->
  (let s := fst (MemStorage.createStudent now i st) in
   let st' := snd (MemStorage.createStudent now i st) in
   MemStorage.getStudentByMobile (InsertStudent.mobile i) st' = Some ms
   /\ Student.mobile s = Student.mobile ms
   /\ Student.id s <> Student.id ms
   /\ In ms (MemStorage.getStudents st') /\ In s (MemStorage.getStudents st'))
  /\ DatabaseStorage.createStudent now i db
     = (DatabaseStorage.Fault DatabaseStorage.unique_violation,
        DatabaseStorage.with_students_id_seq
          (DatabaseStorage.students_id_seq db + 1) db).
Proof.
  intros Hms Hds Hfit Hwf. split.
  - intros s st'.
    destruct (mem_found_by_mobile _ _ _ Hwf Hms) as [Hget Hmob].
    pose proof (mem_fresh_student st Hwf) as Hfresh.
    assert (Hvals : MemStorage.getStudents st'
                    = MemStorage.getStudents st ++ [s]).
    { unfold st', s, MemStorage.createStudent, MemStorage.getStudents.
      mem_fields. rewrite set_fresh by exact Hfresh. now rewrite values_app. }
    split.
    { unfold MemStorage.getStudentByMobile in *.
      change (JsMap.values (MemStorage.studentMap st'))
        with (MemStorage.getStudents st').
      rewrite Hvals. now apply find_app_Some. }
    split; [now rewrite Hmob|]. split.
    { intros Heq. change (Student.id s) with (MemStorage.currentStudentId st) in Heq.
      rewrite <- Heq in Hget. congruence. }
    rewrite Hvals. split; apply in_or_app.
    + left. unfold MemStorage.getStudentByMobile in Hms.
      now apply find_some in Hms.
    + right. now left.
  - rewrite db_createStudent_run, Hfit.
    assert (Hfind : head (List.filter
                            (fun row => String.eqb (Student.mobile row)
                                                   (InsertStudent.mobile i))
                            (DatabaseStorage.students db)) = Some ds).
    { injection Hds. intros H. exact H. }
    now rewrite (head_filter_exists _ _ _ Hfind).
Qed.

Lemma createStudent_with_known_mobile_witness :
  MemStorage.getStudentByMobile "9000000001"
    (snd (MemStorage.createStudent 9 Example.asha_moved Example.mem2))
  = MemStorage.getStudentByMobile "9000000001" Example.mem2
  /\ length (MemStorage.getStudents
               (snd (MemStorage.createStudent 9 Example.asha_moved Example.mem2)))
     = 3%nat
  /\ DatabaseStorage.createStudent 9 Example.asha_moved Example.db2
     = (DatabaseStorage.Fault DatabaseStorage.unique_violation,
        DatabaseStorage.with_students_id_seq 4 Example.db2).
Proof.
  destruct (createStudent_with_known_mobile 9 Example.asha_moved
              Example.mem2 Example.db2 _ _ eq_refl eq_refl eq_refl mem2_wf)
    as [(Hm & _) Hdb].
  split; [exact Hm|]. split; [reflexivity|exact Hdb].
Defined.



Lemma filter_keep_all {A : Type} (p : A -> bool) (l : list A) :
  existsb (fun x => negb (p x)) l = false -> List.filter p l = l.
Proof.
  induction l as [|x l IH]; simpl; [reflexivity|].
  destruct (p x); simpl; [|discriminate]. intros H. now rewrite IH.
Qed.

Lemma existsb_negb_negb {A : Type} (p : A -> bool) (l : list A) :
  existsb (fun x => negb (negb (p x))) l = existsb p l.
Proof.
  induction l as [|x l IH]; simpl; [reflexivity|].
  now rewrite negb_involutive, IH.
Qed.

Lemma db_state_eta db :
  DatabaseStorage.with_students (DatabaseStorage.students db) db = db.
Proof. now destruct db. Qed.



Lemma spread_student_idem s d :
  spread_student (spread_student s d) d = spread_student s d.
Proof.
  destruct d as [a b c e f g h i j k l m]. unfold spread_student. simpl.
  f_equal; try (now destruct a); try (now destruct b); try (now destruct c);
    try (now destruct e); try (now destruct f); try (now destruct g);
    try (now destruct h); try (now destruct i); try (now destruct j);
    try (now destruct k); try (now destruct l); try (now destruct m).
Qed.




(** X8.  [updateStudent] in the database.  An update with no property
    is refused, and so are one whose [contributionAmount] does not fit the
    column and one whose mobile number another row has; all three leave
    the state as it was.  For an [id] that no row has, any other update
    returns nothing and changes nothing.  An update that completes can be
    made again with the same result and the same state. *)
Theorem db_updateStudent_laws (id : Z) (d : PartialStudent.t)
    (db : DatabaseStorage.t) :
  db_wf db ->
  DatabaseStorage.updateStudent id PartialStudent.empty db
  = (DatabaseStorage.Fault DatabaseStorage.no_values_to_set, db)
  /\ (DatabaseStorage.amount_refused (PartialStudent.contributionAmount d)
      = true ->
      DatabaseStorage.updateStudent id d db
      = (DatabaseStorage.Fault DatabaseStorage.numeric_value_out_of_range, db))
  /\ (forall s other mobile,
         DatabaseStorage.amount_refused (PartialStudent.contributionAmount d)
         = false ->
         fst (DatabaseStorage.getStudent (Some id) db)
         = DatabaseStorage.Ok (Some s) ->
         PartialStudent.mobile d = Some mobile ->
         fst (DatabaseStorage.getStudentByMobile mobile db)
         = DatabaseStorage.Ok (Some other) ->
         Student.id other <> id ->
         DatabaseStorage.updateStudent id d db
         = (DatabaseStorage.Fault DatabaseStorage.unique_violation, db))
  /\ (PartialStudent.is_empty d = false ->
      DatabaseStorage.amount_refused (PartialStudent.contributionAmount d)
      = false ->
      fst (DatabaseStorage.getStudent (Some id) db) = DatabaseStorage.Ok None ->
      DatabaseStorage.updateStudent id d db = (DatabaseStorage.Ok None, db))
  /\ (forall r db',
         DatabaseStorage.updateStudent id d db = (DatabaseStorage.Ok r, db') ->
         DatabaseStorage.updateStudent id d db' = (DatabaseStorage.Ok r, db')).
Proof.
  intros Hwf. split; [reflexivity|]. split; [|split; [|split]].
  - intros Hfit. rewrite db_updateStudent_run, Hfit.
    destruct d as [? ? ? ? ? ? ? ? ? ? ? [[v|]|]]; try discriminate.
    now destruct firstName, lastName, section, gender, mobile, email, dob,
      city, work, attendingStatus, paidStatus.
  - intros s other mobile Hfit Hs Hm Ho Hne.
    rewrite db_getStudent_key in Hs. cbn [fst] in Hs.
    assert (Hh : head (List.filter (fun row => Student.id row =? id)
                                   (DatabaseStorage.students db)) = Some s).
    { injection Hs. intros H. exact H. }
    assert (Hf : head (List.filter
                         (fun row => String.eqb (Student.mobile row) mobile)
                         (DatabaseStorage.students db)) = Some other).
    { injection Ho. intros H. exact H. }
    rewrite db_updateStudent_run, Hm.
    assert (Hne' : PartialStudent.is_empty d = false).
    { destruct d as [? ? ? ? mo ? ? ? ? ? ? ?]. simpl in Hm. subst mo.
      now destruct firstName, lastName, section, gender. }
    rewrite Hne', Hfit, (head_filter_exists _ _ _ Hh). cbn [andb].
    replace (existsb _ (DatabaseStorage.students db)) with true; [reflexivity|].
    symmetry. apply existsb_exists. exists other.
    apply head_filter_In in Hf as [Hin Hmob]. split; [exact Hin|].
    rewrite Hmob, andb_true_r. apply negb_true_iff. now apply Z.eqb_neq.
  - intros Hne Hfit Hnone. rewrite db_getStudent_key in Hnone.
    cbn [fst] in Hnone.
    assert (Hh : head (List.filter (fun row => Student.id row =? id)
                                   (DatabaseStorage.students db)) = None).
    { injection Hnone. intros H. exact H. }
    pose proof (head_filter_existsb _ _ Hh) as Hex.
    rewrite db_updateStudent_run, Hne, Hfit, Hex.
    rewrite (map_update_absent Student.id) by exact Hex.
    rewrite Hh, db_state_eta. now destruct (PartialStudent.mobile d).
  - intros r db' Hrun. rewrite db_updateStudent_run in Hrun.
    rewrite db_updateStudent_run.
    destruct (PartialStudent.is_empty d); [discriminate|].
    destruct (DatabaseStorage.amount_refused _); [discriminate|].
    set (f := fun row : Student.t =>
                if Student.id row =? id then spread_student row d else row)
      in *.
    assert (Hff : forall rows, map f (map f rows) = map f rows).
    { intros rows. rewrite map_map. apply map_ext. intros row. unfold f.
      destruct (Student.id row =? id) eqn:Hk; [|now rewrite Hk].
      change (Student.id (spread_student row d)) with (Student.id row).
      now rewrite Hk, spread_student_idem. }
    assert (Hid : forall rows,
               existsb (fun row => Student.id row =? id) (map f rows)
               = existsb (fun row => Student.id row =? id) rows).
    { intros rows. induction rows as [|x rows IH]; simpl; [reflexivity|].
      rewrite IH. f_equal. unfold f.
      destruct (Student.id x =? id) eqn:Hk; [|exact Hk].
      change (Student.id (spread_student x d)) with (Student.id x). exact Hk. }
    assert (Hmo : forall m rows,
               existsb (fun row => negb (Student.id row =? id)
                                   && String.eqb (Student.mobile row) m)
                       (map f rows)
               = existsb (fun row => negb (Student.id row =? id)
                                     && String.eqb (Student.mobile row) m)
                         rows).
    { intros m rows. induction rows as [|x rows IH]; simpl; [reflexivity|].
      rewrite IH. f_equal. unfold f.
      destruct (Student.id x =? id) eqn:Hk; [|now rewrite Hk].
      change (Student.id (spread_student x d)) with (Student.id x).
      now rewrite Hk. }
    destruct (match PartialStudent.mobile d with Some _ => _ | None => _ end)
      eqn:Hclash; [discriminate|].
    injection Hrun as <- <-. db_fields.
    replace (match PartialStudent.mobile d with
             | Some mobile =>
                 existsb (fun row => Student.id row =? id)
                         (map f (DatabaseStorage.students db))
                 && existsb (fun row => negb (Student.id row =? id)
                                        && String.eqb (Student.mobile row) mobile)
                            (map f (DatabaseStorage.students db))
             | None => false
             end) with false.
    + rewrite Hff. reflexivity.
    + rewrite <- Hclash. destruct (PartialStudent.mobile d); [|reflexivity].
      now rewrite Hid, Hmo.
Qed.

Lemma db_updateStudent_laws_witness :
  DatabaseStorage.updateStudent 2 (PartialStudent.of_insert Example.asha_moved)
    Example.db2
  = (DatabaseStorage.Fault DatabaseStorage.unique_violation, Example.db2)
  /\ DatabaseStorage.updateStudent 9
       (PartialStudent.of_insert Example.asha_moved) Example.db2
     = (DatabaseStorage.Ok None, Example.db2)
  /\ (exists r db',
         DatabaseStorage.updateStudent 1
           (PartialStudent.of_insert Example.asha_moved) Example.db2
         = (DatabaseStorage.Ok r, db')
         /\ DatabaseStorage.updateStudent 1
              (PartialStudent.of_insert Example.asha_moved) db'
            = (DatabaseStorage.Ok r, db')).
Proof.
  destruct (db_updateStudent_laws 2
              (PartialStudent.of_insert Example.asha_moved) Example.db2 db2_wf)
    as (_ & _ & Hclash & _).
  destruct (db_updateStudent_laws 9
              (PartialStudent.of_insert Example.asha_moved) Example.db2 db2_wf)
    as (_ & _ & _ & Hmiss & _).
  destruct (db_updateStudent_laws 1
              (PartialStudent.of_insert Example.asha_moved) Example.db2 db2_wf)
    as (_ & _ & _ & _ & Hidem).
  split; [|split].
  - eapply Hclash; [reflexivity|reflexivity|reflexivity|reflexivity|].
    simpl. discriminate.
  - now apply Hmiss.
  - eexists _, _. split; [vm_compute; reflexivity|].
    apply Hidem. vm_compute. reflexivity.
Defined.

(** ** The contribution methods and the students *)

Lemma without_amounts_update k x (l : list Student.t) :
  without_amounts
    (map (fun s => if Student.id s =? k
                   then spread_student s (contribution_update x false) else s) l)
  = without_amounts l.
Proof.
  unfold without_amounts. rewrite map_map. apply map_ext. intros s.
  now destruct (_ =? _).
Qed.

Lemma mem_updateStudent_amount_only k x st :
  mem_wf st ->
  without_amounts
    (MemStorage.getStudents
       (snd (MemStorage.updateStudent k (contribution_update x false) st)))
  = without_amounts (MemStorage.getStudents st)
  /\ MemStorage.contributionMap
       (snd (MemStorage.updateStudent k (contribution_update x false) st))
     = MemStorage.contributionMap st.
Proof.
  intros Hwf. unfold MemStorage.getStudents.
  destruct (JsMap.get k (MemStorage.studentMap st)) as [s|] eqn:Hget.
  - destruct (mem_updateStudent_values st k s (contribution_update x false))
      as [Hl Hv]; [apply Hwf|now apply mem_student_ids|exact Hget|].
    split; [|exact Hl]. rewrite Hv.
    unfold without_amounts. rewrite map_map. apply map_ext_in. intros s' Hin.
    destruct (Z.eqb_spec (Student.id s') k) as [Hk|]; [|reflexivity].
    assert (Hs : JsMap.get (Student.id s') (MemStorage.studentMap st) = Some s')
      by (apply student_stored; [apply Hwf|now apply mem_student_ids|exact Hin]).
    rewrite Hk, Hget in Hs. now injection Hs as ->.
  - unfold MemStorage.updateStudent. rewrite Hget. now split.
Qed.

Lemma db_updateStudent_amount_only k x L :
  keeps (fun db => without_amounts (DatabaseStorage.students db) = L)
        (DatabaseStorage.updateStudent k (contribution_update x false)).
Proof.
  intros db H. destruct (Sql.int4 x) eqn:Hfit.
  - rewrite db_updateStudent_amount by exact Hfit. cbn [snd]. db_fields.
    now rewrite without_amounts_update.
  - now rewrite db_updateStudent_refused.
Qed.

(** X9.  [updateContribution] and [deleteContribution] change nothing
    of a student but the running total: the students are the same ones, in
    the same order, with the same name, section, attendance and payment
    status, in both backends and whether or not the database method
    completes.  So a student that the first payment has set to [paid]
    stays [paid] when that payment is deleted. *)
Theorem ledger_edits_touch_totals_only (st : MemStorage.t)
    (db : DatabaseStorage.t) (id : Z) (d : PartialContribution.t) :
  mem_wf st ->
  without_amounts
    (MemStorage.getStudents (snd (MemStorage.updateContribution id d st)))
  = without_amounts (MemStorage.getStudents st)
  /\ without_amounts
       (MemStorage.getStudents (snd (MemStorage.deleteContribution id st)))
     = without_amounts (MemStorage.getStudents st)
  /\ without_amounts
       (DatabaseStorage.students
          (snd (DatabaseStorage.updateContribution id d db)))
     = without_amounts (DatabaseStorage.students db)
  /\ without_amounts
       (DatabaseStorage.students (snd (DatabaseStorage.deleteContribution id db)))
     = without_amounts (DatabaseStorage.students db).
Proof.
  intros Hwf. split; [|split; [|split]].
  - unfold MemStorage.updateContribution.
    destruct (JsMap.get id (MemStorage.contributionMap st)) as [c|];
      [|reflexivity].
    cbn [snd]. unfold MemStorage.getStudents. mem_fields.
    destruct (PartialContribution.amount d) as [a|]; [|reflexivity].
    destruct (negb _); [|reflexivity].
    destruct (MemStorage.getStudent _ st) as [s|]; [|reflexivity].
    now apply mem_updateStudent_amount_only.
  - unfold MemStorage.deleteContribution.
    destruct (JsMap.get id (MemStorage.contributionMap st)) as [c|];
      [|reflexivity].
    cbn [snd]. unfold MemStorage.getStudents. mem_fields.
    destruct (MemStorage.getStudent _ st) as [s|]; [|reflexivity].
    now apply mem_updateStudent_amount_only.
  - assert (H : keeps (fun db' => without_amounts (DatabaseStorage.students db')
                                  = without_amounts (DatabaseStorage.students db))
                      (DatabaseStorage.updateContribution id d));
      [|now apply H].
    unfold DatabaseStorage.updateContribution.
    apply keeps_bind; [apply keeps_read|]. intros [c|]; [|apply keeps_ret].
    apply keeps_bind.
    + destruct (PartialContribution.amount d) as [a|]; [|apply keeps_ret].
      destruct (negb _); [|apply keeps_ret].
      apply keeps_bind; [apply keeps_read|]. intros [s|]; [|apply keeps_ret].
      apply keeps_bind; [apply db_updateStudent_amount_only|].
      intros _. apply keeps_ret.
    + intros _ db0 H0. unfold DatabaseStorage.update_contribution.
      destruct (PartialContribution.is_empty d); [exact H0|].
      db_run. unfold DatabaseStorage.getStudent. db_run.
      destruct (mjoin (PartialContribution.studentId d)) as [k|];
        [destruct (head _); [|destruct (existsb _ _)]|]; exact H0.
  - assert (H : keeps (fun db' => without_amounts (DatabaseStorage.students db')
                                  = without_amounts (DatabaseStorage.students db))
                      (DatabaseStorage.deleteContribution id));
      [|now apply H].
    unfold DatabaseStorage.deleteContribution.
    apply keeps_bind; [apply keeps_read|]. intros [c|]; [|apply keeps_ret].
    apply keeps_bind; [apply keeps_read|]. intros student.
    apply keeps_bind.
    + destruct student as [s|]; [|apply keeps_ret].
      destruct (Js.truthy _); [|apply keeps_ret].
      apply keeps_bind; [apply db_updateStudent_amount_only|].
      intros _. apply keeps_ret.
    + intros _ db0 H0. db_run. exact H0.
Qed.

(** The theorem at an edit and at the deletion of the first payment of
    the first student, who stays [paid]. *)
Lemma ledger_edits_touch_totals_only_witness :
  without_amounts
    (MemStorage.getStudents
       (snd (MemStorage.updateContribution 1 (Example.edit 1 700) Example.mem2)))
  = without_amounts (MemStorage.getStudents Example.mem2)
  /\ mem_paidStatus 1 (snd (MemStorage.deleteContribution 1 Example.mem1))
     = Some paid
  /\ mem_contributionAmount 1 (snd (MemStorage.deleteContribution 1 Example.mem1))
     = Some 0
  /\ without_amounts
       (MemStorage.getStudents (snd (MemStorage.deleteContribution 1 Example.mem1)))
     = without_amounts (MemStorage.getStudents Example.mem1).
Proof.
  split; [apply (ledger_edits_touch_totals_only Example.mem2 Example.db2 1
                   (Example.edit 1 700) mem2_wf)|].
  split; [reflexivity|]. split; [reflexivity|].
  apply (ledger_edits_touch_totals_only Example.mem1 Example.db1 1
           (Example.edit 1 700) mem1_wf).
Defined.

Lemma delete_snoc_fresh {V : Type} k (v : V) (m : list (Z * V)) :
  JsMap.get k m = None -> JsMap.delete k (m ++ [(k, v)]) = m.
Proof.
  induction m as [|[k0 v0] m IH]; simpl.
  - now rewrite Z.eqb_refl.
  - destruct (k0 =? k); [discriminate|]. intros H. now rewrite IH.
Qed.

Lemma get_snoc_fresh {V : Type} k (v : V) (m : list (Z * V)) :
  JsMap.get k m = None -> JsMap.get k (m ++ [(k, v)]) = Some v.
Proof.
  induction m as [|[k0 v0] m IH]; simpl.
  - now rewrite Z.eqb_refl.
  - destruct (k0 =? k); [discriminate|]. exact IH.
Qed.

(** X10.  A contribution that is created and then deleted, in memory.
    The ledger is again the one before the two calls and the running
    total of the attendee is again what it read as, floored at 0; the
    payment status is the one that [createContribution] left, so the
    promotion to [paid] of a first payment is not taken back. *)
Theorem mem_create_then_delete (now : Z) (ic : InsertContribution.t)
    (st : MemStorage.t) (k : Z) (s : Student.t) :
  mem_wf st ->
  mjoin (InsertContribution.studentId ic) = Some k ->
  MemStorage.getStudent (Some k) st = Some s ->
  let c := fst (MemStorage.createContribution now ic st) in
  let st1 := snd (MemStorage.createContribution now ic st) in
  let st2 := snd (MemStorage.deleteContribution (Contribution.id c) st1) in
  fst (MemStorage.deleteContribution (Contribution.id c) st1) = true
  /\ MemStorage.contributionMap st2 = MemStorage.contributionMap st
  /\ mem_contributionAmount k st2
     = Some (Z.max 0 (Js.or_zero (Student.contributionAmount s)))
  /\ mem_paidStatus k st2 = mem_paidStatus k st1
  /\ (rows_of k (JsMap.values (MemStorage.contributionMap st)) = [] ->
      Student.paidStatus s = Some not_paid ->
      mem_paidStatus k st2 = Some paid).
Proof.
  intros Hwf Hk Hs c st1 st2.
  pose proof (mem_fresh_contribution st Hwf) as Hfresh.
  pose proof (mem_student_ids st Hwf) as Hids.
  assert (Hsk : Student.id s = k) by exact (student_key _ _ _ Hids Hs).
  unfold MemStorage.getStudent in Hs.
  pose proof (mem_create_run now ic st Hwf) as Hrun. cbv zeta in Hrun.
  change (Contribution.studentId
            (contribution_row (MemStorage.currentContributionId st) now ic))
    with (mjoin (InsertContribution.studentId ic)) in Hrun.
  rewrite Hk in Hrun. unfold MemStorage.getStudent in Hrun.
  rewrite Hs, Hsk in Hrun.
  set (id := MemStorage.currentContributionId st) in *.
  set (row := contribution_row id now ic) in *.
  set (promote := (Z.of_nat _ =? 1) && _) in Hrun.
  set (s1 := spread_student s _) in Hrun.
  assert (Hc : c = row) by (unfold c; now rewrite Hrun).
  assert (Hst1 : st1
                 = MemStorage.with_studentMap
                     (JsMap.set k s1 (MemStorage.studentMap st))
                     (MemStorage.with_contributionMap
                        (MemStorage.contributionMap st ++ [(id, row)])
                        (MemStorage.with_currentContributionId (id + 1) st)))
    by (unfold st1; now rewrite Hrun).
  assert (Hdel : MemStorage.deleteContribution id st1
                 = (true,
                    MemStorage.with_contributionMap (MemStorage.contributionMap st)
                      (MemStorage.with_studentMap
                         (JsMap.set k
                            (spread_student s1
                               (contribution_update
                                  (Z.max 0 (Js.or_zero (Student.contributionAmount s1)
                                            - Contribution.amount row)) false))
                            (MemStorage.studentMap st))
                         (MemStorage.with_currentContributionId (id + 1) st)))).
  { rewrite Hst1. unfold MemStorage.deleteContribution. mem_fields.
    rewrite (get_snoc_fresh _ _ _ Hfresh).
    change (Contribution.studentId row)
      with (mjoin (InsertContribution.studentId ic)).
    rewrite Hk. unfold MemStorage.getStudent. mem_fields.
    rewrite get_set_same.
    change (Student.id s1) with (Student.id s). rewrite Hsk.
    unfold MemStorage.updateStudent. mem_fields. rewrite get_set_same.
    mem_fields. unfold JsMap.has. rewrite (get_snoc_fresh _ _ _ Hfresh).
    rewrite (delete_snoc_fresh _ _ _ Hfresh), set_set. reflexivity. }
  assert (Hcid : Contribution.id c = id) by now rewrite Hc.
  unfold st2. rewrite Hcid, Hdel. cbn [fst snd].
  split; [reflexivity|]. split; [reflexivity|].
  unfold mem_contributionAmount, mem_paidStatus. mem_fields.
  rewrite get_set_same. rewrite Hst1. mem_fields. rewrite get_set_same.
  split.
  { rewrite spread_update_amount. unfold s1. rewrite spread_update_amount.
    unfold row. cbn [Js.or_zero Contribution.amount contribution_row].
    f_equal. lia. }
  split; [reflexivity|].
  intros Hrows Hpaid. rewrite spread_update_paid. unfold s1.
  cbn [Student.paidStatus spread_student contribution_update
         PartialStudent.paidStatus].
  assert (Hp : promote = true).
  { unfold promote. rewrite Hpaid. cbn [paid_is PaidStatus_eqb negb].
    rewrite andb_true_r.
    assert (Hk0 : k <> 0).
    { destruct Hwf as (_ & Hst & _). rewrite List.Forall_forall in Hst.
      apply get_Some_In in Hs. specialize (Hst _ Hs). simpl in Hst. lia. }
    rewrite mem_rows_of_nonzero by exact Hk0.
    rewrite rows_of_app, Hrows, rows_of_own; [reflexivity|].
    unfold row. simpl. exact Hk. }
  now rewrite Hp.
Qed.

Lemma mem_create_then_delete_witness :
  let st1 := snd (MemStorage.createContribution 4 (Example.gift 2 250)
                    Example.mem2) in
  let st2 := snd (MemStorage.deleteContribution 3 st1) in
  MemStorage.contributionMap st2 = MemStorage.contributionMap Example.mem2
  /\ mem_contributionAmount 2 st2 = Some 0
  /\ mem_paidStatus 2 Example.mem2 = Some not_paid
  /\ mem_paidStatus 2 st2 = Some paid.
Proof.
  destruct (mem_create_then_delete 4 (Example.gift 2 250) Example.mem2 2 _
              mem2_wf eq_refl eq_refl)
    as (_ & Hl & Ha & _ & Hp).
  split; [exact Hl|]. split; [exact Ha|]. split; [reflexivity|].
  now apply Hp.
Defined.

(** ** The summaries *)

Lemma count_cons {A : Type} (p : A -> bool) x (l : list A) :
  count p (x :: l) = (if p x then 1 else 0) + count p l.
Proof. unfold count. simpl. destruct (p x); simpl; lia. Qed.

(** A count over the students is the sum of the counts over the four
    sections. *)
Lemma count_by_section (p : Student.t -> bool) (l : list Student.t) :
  Sql.sum (fun sec => count p (List.filter
                                 (fun s => SectionName.eqb (Student.section s) sec)
                                 l))
          sections
  = count p l.
Proof.
  unfold sections. cbn [Sql.sum foldr].
  induction l as [|x l IH]; [reflexivity|].
  cbn [List.filter]. rewrite (count_cons p x l).
  destruct (Student.section x); cbn [SectionName.eqb];
    rewrite count_cons; lia.
Qed.

Lemma sum_map {A B : Type} (f : B -> Z) (g : A -> B) (l : list A) :
  Sql.sum f (map g l) = Sql.sum (fun x => f (g x)) l.
Proof. induction l as [|x l IH]; simpl; [reflexivity|]. now rewrite IH. Qed.

Lemma count_true_length {A : Type} (l : list A) :
  count (fun _ => true) l = Z.of_nat (length l).
Proof.
  unfold count. f_equal. f_equal. induction l as [|x l IH]; simpl; congruence.
Qed.

Lemma sum_ext {A : Type} (f g : A -> Z) (l : list A) :
  (forall x, f x = g x) -> Sql.sum f l = Sql.sum g l.
Proof.
  intros H. induction l as [|x l IH]; simpl; [reflexivity|].
  now rewrite H, IH.
Qed.

Lemma section_stats_sums (l : list Student.t) :
  Sql.sum SectionStat.totalStudents (map (section_stat l) sections)
  = Z.of_nat (length l)
  /\ Sql.sum SectionStat.attendingCount (map (section_stat l) sections)
     = count (fun s => attending_is attending (Student.attendingStatus s)) l
  /\ Sql.sum SectionStat.paidCount (map (section_stat l) sections)
     = count (fun s => paid_is paid (Student.paidStatus s)) l
  /\ Sql.sum SectionStat.pendingCount (map (section_stat l) sections)
     = count (fun s => paid_is pending (Student.paidStatus s)) l
  /\ Sql.sum SectionStat.notConfirmedCount (map (section_stat l) sections)
     = count (fun s => attending_is not_confirmed (Student.attendingStatus s)) l.
Proof.
  rewrite !sum_map. unfold section_stat.
  cbn [SectionStat.totalStudents SectionStat.attendingCount
         SectionStat.paidCount SectionStat.pendingCount
         SectionStat.notConfirmedCount].
  split.
  { rewrite <- count_true_length, <- (count_by_section (fun _ => true) l).
    apply sum_ext. intros sec. now rewrite count_true_length. }
  repeat split; apply count_by_section.
Qed.

(** X11.  The section statistics of a dashboard add up to its totals:
    over the four sections, [totalStudents], [attendingCount] and
    [paidCount] sum to the fields of the same name of the summary, in both
    backends, and in the database [pendingCount] and [notConfirmedCount]
    do so too. *)
Theorem section_stats_add_up (st : MemStorage.t) (db : DatabaseStorage.t) :
  (let d := MemStorage.getDashboardSummary st in
   Sql.sum SectionStat.totalStudents (DashboardSummary.sectionStats d)
   = DashboardSummary.totalStudents d
   /\ Sql.sum SectionStat.attendingCount (DashboardSummary.sectionStats d)
      = DashboardSummary.attendingCount d
   /\ Sql.sum SectionStat.paidCount (DashboardSummary.sectionStats d)
      = DashboardSummary.paidCount d)
  /\ (exists d,
         DatabaseStorage.getDashboardSummary db = (DatabaseStorage.Ok d, db)
         /\ Sql.sum SectionStat.totalStudents (DashboardSummary.sectionStats d)
            = DashboardSummary.totalStudents d
         /\ Sql.sum SectionStat.attendingCount (DashboardSummary.sectionStats d)
            = DashboardSummary.attendingCount d
         /\ Sql.sum SectionStat.paidCount (DashboardSummary.sectionStats d)
            = DashboardSummary.paidCount d
         /\ Some (Sql.sum SectionStat.pendingCount
                          (DashboardSummary.sectionStats d))
            = DashboardSummary.pendingCount d
         /\ Some (Sql.sum SectionStat.notConfirmedCount
                          (DashboardSummary.sectionStats d))
            = DashboardSummary.notConfirmedCount d).
Proof.
  split.
  - cbv zeta. unfold MemStorage.getDashboardSummary.
    cbn [DashboardSummary.sectionStats DashboardSummary.totalStudents
           DashboardSummary.attendingCount DashboardSummary.paidCount].
    destruct (section_stats_sums (MemStorage.getStudents st))
      as (H1 & H2 & H3 & _).
    auto.
  - eexists. split.
    + unfold DatabaseStorage.getDashboardSummary, DatabaseStorage.getStudents.
      db_run. reflexivity.
    + cbn [DashboardSummary.sectionStats DashboardSummary.totalStudents
             DashboardSummary.attendingCount DashboardSummary.paidCount
             DashboardSummary.pendingCount DashboardSummary.notConfirmedCount].
      match goal with
      | |- context [section_stat ?l] =>
          destruct (section_stats_sums l) as (H1 & H2 & H3 & H4 & H5)
      end.
      rewrite H1, H2, H3, H4, H5. auto.
Qed.

Lemma count_order_by {A : Type} (p : A -> bool) (before : A -> A -> bool)
    (rank : A -> Z) (l : list A) :
  count p (Sql.order_by before rank l) = count p l.
Proof.
  unfold count. f_equal.
  apply Permutation_length. apply Permutation_list_filter.
  apply order_by_Permutation.
Qed.

(** X12.  In the database, where the two status columns are never
    [NULL], the counts of the dashboard partition the students: every
    student is attending, not attending or not confirmed, and every student
    is paid, pending, not paid or not applicable. *)
Theorem db_dashboard_counts_add_up (db : DatabaseStorage.t) :
  statuses_not_null (DatabaseStorage.students db) ->
  exists d notAttending notConfirmed pending notPaid,
    DatabaseStorage.getDashboardSummary db = (DatabaseStorage.Ok d, db)
    /\ DashboardSummary.notAttendingCount d = Some notAttending
    /\ DashboardSummary.notConfirmedCount d = Some notConfirmed
    /\ DashboardSummary.pendingCount d = Some pending
    /\ DashboardSummary.notPaidCount d = Some notPaid
    /\ DashboardSummary.totalStudents d
       = Z.of_nat (length (DatabaseStorage.students db))
    /\ DashboardSummary.totalStudents d
       = DashboardSummary.attendingCount d + notAttending + notConfirmed
    /\ DashboardSummary.totalStudents d
       = DashboardSummary.paidCount d + pending + notPaid
         + count (fun s => paid_is not_applicable (Student.paidStatus s))
                 (DatabaseStorage.students db).
Proof.
  intros Hnn. eexists _, _, _, _, _. split.
  { unfold DatabaseStorage.getDashboardSummary, DatabaseStorage.getStudents.
    db_run. reflexivity. }
  cbn [DashboardSummary.notAttendingCount DashboardSummary.notConfirmedCount
         DashboardSummary.pendingCount DashboardSummary.notPaidCount
         DashboardSummary.totalStudents DashboardSummary.attendingCount
         DashboardSummary.paidCount].
  do 4 (split; [reflexivity|]).
  rewrite !count_order_by, length_order_by.
  split; [reflexivity|].
  unfold statuses_not_null in Hnn.
  induction Hnn as [|s rows [Ha Hp] _ IH]; [now split|].
  rewrite !count_cons. cbn [length]. rewrite Nat2Z.inj_succ.
  destruct IH as [IH1 IH2]. split.
  - destruct (Student.attendingStatus s) as [[]|]; [| | |contradiction];
      cbn [attending_is AttendingStatus_eqb]; lia.
  - destruct (Student.paidStatus s) as [[]|]; [| | | |contradiction];
      cbn [paid_is PaidStatus_eqb]; lia.
Qed.

Lemma db_dashboard_counts_add_up_witness :
  exists d,
    DatabaseStorage.getDashboardSummary Example.db2 = (DatabaseStorage.Ok d, Example.db2)
    /\ DashboardSummary.totalStudents d = 2
    /\ DashboardSummary.attendingCount d = 1
    /\ DashboardSummary.notConfirmedCount d = Some 1
    /\ DashboardSummary.paidCount d = 1
    /\ DashboardSummary.notPaidCount d = Some 1.
Proof.
  assert (Hnn : statuses_not_null (DatabaseStorage.students Example.db2)).
  { repeat constructor; discriminate. }
  destruct (db_dashboard_counts_add_up Example.db2 Hnn)
    as (d & n1 & n2 & n3 & n4 & Hrun & _).
  exists d. split; [exact Hrun|].
  vm_compute in Hrun. injection Hrun as <-. repeat split.
Defined.

Lemma sum_by_category_cons {A : Type} (f : A -> Z) (cat : A -> string)
    (cs : list string) x (l : list A) :
  List.NoDup cs ->
  Sql.sum (fun c => Sql.sum f (List.filter (fun y => String.eqb (cat y) c)
                                           (x :: l))) cs
  = (if existsb (String.eqb (cat x)) cs then f x else 0)
    + Sql.sum (fun c => Sql.sum f (List.filter (fun y => String.eqb (cat y) c) l))
              cs.
Proof.
  induction cs as [|c cs IH]; intros Hnd; [reflexivity|].
  apply List.NoDup_cons_iff in Hnd as [Hnot Hnd]. specialize (IH Hnd).
  rewrite !sum_cons, IH. cbn [existsb List.filter].
  destruct (String.eqb_spec (cat x) c) as [Heq|Hne]; cbn [orb].
  - assert (Hex : existsb (String.eqb (cat x)) cs = false).
    { destruct (existsb _ cs) eqn:E; [|reflexivity].
      apply existsb_exists in E as (c' & Hin & Hc).
      apply String.eqb_eq in Hc. congruence. }
    rewrite Hex, sum_cons. lia.
  - lia.
Qed.

(** Over a list of distinct categories, the sums per category add up to
    the sum of the rows whose category is in the list. *)
Lemma sum_by_category {A : Type} (f : A -> Z) (cat : A -> string)
    (cs : list string) (l : list A) :
  List.NoDup cs ->
  Sql.sum (fun c => Sql.sum f (List.filter (fun x => String.eqb (cat x) c) l)) cs
  = Sql.sum f (List.filter (fun x => existsb (String.eqb (cat x)) cs) l).
Proof.
  intros Hnd. induction l as [|x l IH].
  - cbn [List.filter]. clear Hnd.
    induction cs as [|c cs IHc]; [reflexivity|]. now rewrite sum_cons, IHc.
  - rewrite sum_by_category_cons by exact Hnd. rewrite IH.
    cbn [List.filter]. destruct (existsb _ cs); rewrite ?sum_cons; lia.
Qed.

Lemma categories_NoDup : List.NoDup categories.
Proof.
  unfold categories.
  repeat (apply List.NoDup_cons;
          [simpl; intuition discriminate|]).
  apply List.NoDup_nil.
Qed.

Lemma sum_filter_split {A : Type} (f : A -> Z) (p : A -> bool) (l : list A) :
  Sql.sum f l
  = Sql.sum f (List.filter p l) + Sql.sum f (List.filter (fun x => negb (p x)) l).
Proof.
  induction l as [|x l IH]; simpl; [reflexivity|].
  destruct (p x); simpl; lia.
Qed.

Lemma spec_breakdown_sums (items : list BudgetItem.t)
    (expenses : list Expense.t) :
  sum_estimated items
  = Sql.sum CategoryEntry.estimatedAmount (spec_breakdown items expenses)
    + uncovered_estimated items
  /\ sum_expenses expenses
     = Sql.sum CategoryEntry.actualAmount (spec_breakdown items expenses)
       + uncovered_expenses expenses.
Proof.
  unfold spec_breakdown, uncovered_estimated, uncovered_expenses,
    sum_estimated, sum_expenses, fixed_category.
  rewrite !sum_map. cbn [CategoryEntry.estimatedAmount CategoryEntry.actualAmount].
  rewrite !sum_by_category by apply categories_NoDup.
  split; apply sum_filter_split.
Qed.


Lemma db_budget_summary_run db :
  DatabaseStorage.getBudgetSummary db
  = (DatabaseStorage.Ok
       {| BudgetSummary.totalBudget :=
            sum_estimated (DatabaseStorage.budgetItems db);
          BudgetSummary.totalExpenses :=
            sum_expenses (DatabaseStorage.expenses db);
          BudgetSummary.totalContributions :=
            Sql.sum Contribution.amount (DatabaseStorage.contributions db);
          BudgetSummary.balance :=
            Sql.sum Contribution.amount (DatabaseStorage.contributions db)
            - sum_expenses (DatabaseStorage.expenses db);
          BudgetSummary.categoryBreakdown :=
            spec_breakdown (DatabaseStorage.budgetItems db)
                           (DatabaseStorage.expenses db) |},
     db).
Proof.
  unfold DatabaseStorage.getBudgetSummary, DatabaseStorage.getBudgetItems,
    DatabaseStorage.getExpenses.
  db_run. rewrite reduce_add_sum. do 3 f_equal.
  unfold spec_breakdown. apply map_ext. intros c.
  rewrite reduce_add_sum, add_expense_lookup, lookup_empty.
  cbn [Js.or_zero]. unfold sum_expenses, sum_estimated.
  now rewrite sum_filter_order_by.
Qed.



Lemma sum_share_none (students : list Student.t) (c : Contribution.t) k :
  Contribution.studentId c = Some k ->
  ~ In k (map Student.id students) ->
  Sql.sum (fun s => share (Student.id s) c) students = 0.
Proof.
  intros Hc Hnot. induction students as [|s l IH]; [reflexivity|].
  simpl in Hnot. rewrite sum_cons, share_other, IH; [reflexivity|tauto|].
  rewrite Hc. intros [= Heq]. apply Hnot. left. congruence.
Qed.

(** The shares of one ledger row, over students with distinct [id]s, add
    up to the amount of the row when a student has the [studentId] of the
    row. *)
Lemma sum_share_owner (students : list Student.t) (c : Contribution.t) k :
  List.NoDup (map Student.id students) ->
  Contribution.studentId c = Some k ->
  In k (map Student.id students) ->
  Sql.sum (fun s => share (Student.id s) c) students = Contribution.amount c.
Proof.
  intros Hnd Hc Hin. induction students as [|s l IH]; [destruct Hin|].
  simpl in Hnd, Hin. apply List.NoDup_cons_iff in Hnd as [Hnot Hnd].
  rewrite sum_cons.
  destruct (Z.eq_dec (Student.id s) k) as [Heq|Hne].
  - rewrite Heq, (share_owner _ _ Hc).
    rewrite (sum_share_none l c k Hc); [lia|]. now rewrite <- Heq.
  - rewrite share_other by (rewrite Hc; congruence).
    destruct Hin as [Hin|Hin]; [contradiction|]. now rewrite IH.
Qed.

Lemma sum_ledger_sums (students : list Student.t)
    (ledger : list Contribution.t) :
  List.NoDup (map Student.id students) ->
  Forall (fun c => match Contribution.studentId c with
                   | Some k => In k (map Student.id students)
                   | None => False
                   end) ledger ->
  Sql.sum (fun s => ledger_sum (Student.id s) ledger) students
  = Sql.sum Contribution.amount ledger.
Proof.
  intros Hnd Hl. induction Hl as [|c l Hc _ IH].
  - clear Hnd. induction students as [|s rest IH]; [reflexivity|].
    now rewrite sum_cons, ledger_sum_nil, IH.
  - rewrite sum_cons, <- IH.
    destruct (Contribution.studentId c) as [k|] eqn:Hk; [|contradiction].
    rewrite <- (sum_share_owner students c k Hnd Hk Hc).
    clear. induction students as [|s rest IH]; [reflexivity|].
    rewrite !sum_cons, ledger_sum_cons, IH. lia.
Qed.

Lemma mem_values_ids st :
  mem_wf st ->
  map Student.id (JsMap.values (MemStorage.studentMap st))
  = JsMap.keys (MemStorage.studentMap st).
Proof.
  intros Hwf. pose proof (mem_student_ids st Hwf) as Hid.
  unfold JsMap.values, JsMap.keys. rewrite map_map.
  induction Hid as [|kv m H _ IH]; simpl; [reflexivity|]. now rewrite H, IH.
Qed.

(** X14.  In memory the summaries take [totalContributions] from the
    running totals of the students, the database takes it from the ledger.
    While every student's running total reads as the sum of the student's
    ledger rows and every ledger row references a stored student, the
    two are the same number: the total of the in-memory dashboard and
    budget summary is the sum of the amounts of the ledger. *)
Theorem mem_totalContributions_is_ledger_total (st : MemStorage.t) :
  mem_wf st ->
  consistent_or_zero (JsMap.values (MemStorage.studentMap st))
                     (JsMap.values (MemStorage.contributionMap st)) ->
  mem_no_orphans st ->
  DashboardSummary.totalContributions (MemStorage.getDashboardSummary st)
  = Sql.sum Contribution.amount (JsMap.values (MemStorage.contributionMap st))
  /\ BudgetSummary.totalContributions (MemStorage.getBudgetSummary st)
     = Sql.sum Contribution.amount (JsMap.values (MemStorage.contributionMap st))
  /\ BudgetSummary.balance (MemStorage.getBudgetSummary st)
     = Sql.sum Contribution.amount (JsMap.values (MemStorage.contributionMap st))
       - sum_expenses (MemStorage.getExpenses st).
Proof.
  intros Hwf Hc Hno.
  assert (Htot : Sql.sum (fun s => Js.or_zero (Student.contributionAmount s))
                         (MemStorage.getStudents st)
                 = Sql.sum Contribution.amount
                           (JsMap.values (MemStorage.contributionMap st))).
  { unfold MemStorage.getStudents.
    rewrite <- (sum_ledger_sums (JsMap.values (MemStorage.studentMap st))).
    - unfold consistent_or_zero, consistent_by, reads_or_zero in Hc.
      induction Hc as [|s l Hs _ IH]; [reflexivity|].
      now rewrite !sum_cons, Hs, IH.
    - rewrite mem_values_ids by exact Hwf. apply Hwf.
    - rewrite mem_values_ids by exact Hwf.
      eapply List.Forall_impl; [|exact Hno]. intros c. cbv beta.
      destruct (Contribution.studentId c) as [k|]; [|tauto].
      unfold JsMap.has. intros Hhas.
      destruct (JsMap.get k (MemStorage.studentMap st)) eqn:Hget;
        [|discriminate].
      apply get_Some_In in Hget. now apply (in_map fst) in Hget. }
  unfold MemStorage.getDashboardSummary, MemStorage.getBudgetSummary.
  cbn [DashboardSummary.totalContributions BudgetSummary.totalContributions
         BudgetSummary.balance].
  rewrite !reduce_add_sum, Htot. auto.
Qed.

(** The theorem at the reunion with contributions of 500 and 300; after
    the first student is deleted the ledger still sums to 800 and the
    in-memory total is 0. *)
Lemma mem_totalContributions_is_ledger_total_witness :
  DashboardSummary.totalContributions (MemStorage.getDashboardSummary Example.mem2)
  = 800
  /\ Sql.sum Contribution.amount
       (JsMap.values (MemStorage.contributionMap
                        (snd (MemStorage.deleteStudent 1 Example.mem2)))) = 800
  /\ DashboardSummary.totalContributions
       (MemStorage.getDashboardSummary (snd (MemStorage.deleteStudent 1 Example.mem2)))
     = 0.
Proof.
  assert (Hc : consistent_or_zero
                 (JsMap.values (MemStorage.studentMap Example.mem2))
                 (JsMap.values (MemStorage.contributionMap Example.mem2)))
    by (repeat constructor).
  assert (Hno : mem_no_orphans Example.mem2) by (repeat constructor).
  destruct (mem_totalContributions_is_ledger_total Example.mem2 mem2_wf Hc Hno)
    as (H & _).
  split; [rewrite H; reflexivity|]. split; reflexivity.
Defined.

(** ** The expense and budget methods *)





Lemma db_createExpense_run now i db :
  let id := DatabaseStorage.expenses_id_seq db in
  let row :=
    {| Expense.id := id;
       Expense.title := InsertExpense.title i;
       Expense.category := InsertExpense.category i;
       Expense.description := InsertExpense.description i;
       Expense.amount := InsertExpense.amount i;
       Expense.date := InsertExpense.date i;
       Expense.receiptImage := mjoin (InsertExpense.receiptImage i);
       Expense.createdBy := mjoin (InsertExpense.createdBy i);
       Expense.createdAt := Some now |} in
  DatabaseStorage.createExpense now i db
  = if DatabaseStorage.is_expense_category (InsertExpense.category i)
    then (DatabaseStorage.Ok row,
          DatabaseStorage.with_expenses (DatabaseStorage.expenses db ++ [row])
            (DatabaseStorage.with_expenses_id_seq (id + 1) db))
    else (DatabaseStorage.Fault DatabaseStorage.invalid_enum_value, db).
Proof.
  intros id row. unfold DatabaseStorage.createExpense.
  now destruct (DatabaseStorage.is_expense_category _).
Qed.

Lemma db_createBudgetItem_run now i db :
  let id := DatabaseStorage.budget_items_id_seq db in
  let row :=
    {| BudgetItem.id := id;
       BudgetItem.name := InsertBudgetItem.name i;
       BudgetItem.category := InsertBudgetItem.category i;
       BudgetItem.description := InsertBudgetItem.description i;
       BudgetItem.estimatedAmount := InsertBudgetItem.estimatedAmount i;
       BudgetItem.createdAt := Some now |} in
  DatabaseStorage.createBudgetItem now i db
  = if DatabaseStorage.is_expense_category (InsertBudgetItem.category i)
    then (DatabaseStorage.Ok row,
          DatabaseStorage.with_budgetItems
            (DatabaseStorage.budgetItems db ++ [row])
            (DatabaseStorage.with_budget_items_id_seq (id + 1) db))
    else (DatabaseStorage.Fault DatabaseStorage.invalid_enum_value, db).
Proof.
  intros id row. unfold DatabaseStorage.createBudgetItem.
  now destruct (DatabaseStorage.is_expense_category _).
Qed.

Lemma db_updateExpense_run id d db :
  let updated :=
    map (fun row => if Expense.id row =? id then spread_expense row d else row)
        (DatabaseStorage.expenses db) in
  DatabaseStorage.updateExpense id d db
  = if PartialExpense.is_empty d
    then (DatabaseStorage.Fault DatabaseStorage.no_values_to_set, db)
    else if DatabaseStorage.category_refused (PartialExpense.category d)
    then (DatabaseStorage.Fault DatabaseStorage.invalid_enum_value, db)
    else (DatabaseStorage.Ok
            (head (List.filter (fun row => Expense.id row =? id) updated)),
          DatabaseStorage.with_expenses updated db).
Proof.
  intros updated. unfold DatabaseStorage.updateExpense.
  destruct (PartialExpense.is_empty d); [reflexivity|].
  now destruct (DatabaseStorage.category_refused _).
Qed.

Lemma db_updateBudgetItem_run id d db :
  let updated :=
    map (fun row => if BudgetItem.id row =? id
                    then spread_budgetItem row d else row)
        (DatabaseStorage.budgetItems db) in
  DatabaseStorage.updateBudgetItem id d db
  = if PartialBudgetItem.is_empty d
    then (DatabaseStorage.Fault DatabaseStorage.no_values_to_set, db)
    else if DatabaseStorage.category_refused (PartialBudgetItem.category d)
    then (DatabaseStorage.Fault DatabaseStorage.invalid_enum_value, db)
    else (DatabaseStorage.Ok
            (head (List.filter (fun row => BudgetItem.id row =? id) updated)),
          DatabaseStorage.with_budgetItems updated db).
Proof.
  intros updated. unfold DatabaseStorage.updateBudgetItem.
  destruct (PartialBudgetItem.is_empty d); [reflexivity|].
  now destruct (DatabaseStorage.category_refused _).
Qed.

Lemma db_deleteExpense_run id db :
  DatabaseStorage.deleteExpense id db
  = (DatabaseStorage.Ok true,
     DatabaseStorage.with_expenses
       (List.filter (fun row => negb (Expense.id row =? id))
                    (DatabaseStorage.expenses db)) db).
Proof. reflexivity. Qed.

Lemma db_deleteBudgetItem_run id db :
  DatabaseStorage.deleteBudgetItem id db
  = (DatabaseStorage.Ok true,
     DatabaseStorage.with_budgetItems
       (List.filter (fun row => negb (BudgetItem.id row =? id))
                    (DatabaseStorage.budgetItems db)) db).
Proof. reflexivity. Qed.

Lemma category_accepted_spread (old : string) (c : option string) :
  DatabaseStorage.is_expense_category old = true ->
  DatabaseStorage.category_refused c = false ->
  DatabaseStorage.is_expense_category (default old c) = true.
Proof.
  intros Hold Hc. destruct c as [c|]; [|exact Hold].
  simpl in *. now apply negb_false_iff in Hc.
Qed.

Ltac books_split := split; [|split; [|split]]; db_fields.

Lemma keeps_books_createExpense now i :
  keeps db_books_wf (DatabaseStorage.createExpense now i).
Proof.
  intros db Hwf. rewrite db_createExpense_run.
  destruct (DatabaseStorage.is_expense_category _) eqn:Hcat; [|exact Hwf].
  destruct Hwf as (Hnd & Hall & Hbnd & Hball). cbn [snd].
  books_split; try assumption.
  - rewrite map_app. simpl.
    apply List.NoDup_app; [exact Hnd| |].
    + apply List.NoDup_cons; [simpl; tauto|apply List.NoDup_nil].
    + intros k Hk [<-|[]]. apply in_map_iff in Hk as (row & Heq & Hrow).
      rewrite List.Forall_forall in Hall. specialize (Hall _ Hrow). lia.
  - apply Forall_app. split.
    + eapply List.Forall_impl; [|exact Hall]. simpl. intros row [? ?].
      split; [lia|assumption].
    + constructor; [|constructor]. simpl. split; [lia|exact Hcat].
Qed.

Lemma keeps_books_createBudgetItem now i :
  keeps db_books_wf (DatabaseStorage.createBudgetItem now i).
Proof.
  intros db Hwf. rewrite db_createBudgetItem_run.
  destruct (DatabaseStorage.is_expense_category _) eqn:Hcat; [|exact Hwf].
  destruct Hwf as (Hnd & Hall & Hbnd & Hball). cbn [snd].
  books_split; try assumption.
  - rewrite map_app. simpl.
    apply List.NoDup_app; [exact Hbnd| |].
    + apply List.NoDup_cons; [simpl; tauto|apply List.NoDup_nil].
    + intros k Hk [<-|[]]. apply in_map_iff in Hk as (row & Heq & Hrow).
      rewrite List.Forall_forall in Hball. specialize (Hball _ Hrow). lia.
  - apply Forall_app. split.
    + eapply List.Forall_impl; [|exact Hball]. simpl. intros row [? ?].
      split; [lia|assumption].
    + constructor; [|constructor]. simpl. split; [lia|exact Hcat].
Qed.

Lemma keeps_books_updateExpense id d :
  keeps db_books_wf (DatabaseStorage.updateExpense id d).
Proof.
  intros db Hwf. rewrite db_updateExpense_run.
  destruct (PartialExpense.is_empty d); [exact Hwf|].
  destruct (DatabaseStorage.category_refused _) eqn:Hcat; [exact Hwf|].
  destruct Hwf as (Hnd & Hall & Hbnd & Hball). cbn [snd].
  books_split; try assumption.
  - now rewrite (map_update_keys Expense.id).
  - apply Forall_map. eapply List.Forall_impl; [|exact Hall].
    intros row [Hlt Hc]. destruct (_ =? _); [|now split].
    split; [exact Hlt|]. now apply category_accepted_spread.
Qed.

Lemma keeps_books_updateBudgetItem id d :
  keeps db_books_wf (DatabaseStorage.updateBudgetItem id d).
Proof.
  intros db Hwf. rewrite db_updateBudgetItem_run.
  destruct (PartialBudgetItem.is_empty d); [exact Hwf|].
  destruct (DatabaseStorage.category_refused _) eqn:Hcat; [exact Hwf|].
  destruct Hwf as (Hnd & Hall & Hbnd & Hball). cbn [snd].
  books_split; try assumption.
  - now rewrite (map_update_keys BudgetItem.id).
  - apply Forall_map. eapply List.Forall_impl; [|exact Hball].
    intros row [Hlt Hc]. destruct (_ =? _); [|now split].
    split; [exact Hlt|]. now apply category_accepted_spread.
Qed.

Lemma Forall_list_filter {A : Type} (P : A -> Prop) (p : A -> bool) (l : list A) :
  Forall P l -> Forall P (List.filter p l).
Proof.
  rewrite !List.Forall_forall. intros H x Hin.
  apply filter_In in Hin as [Hin _]. now apply H.
Qed.

Lemma keeps_books_deleteExpense id :
  keeps db_books_wf (DatabaseStorage.deleteExpense id).
Proof.
  intros db (Hnd & Hall & Hbnd & Hball). rewrite db_deleteExpense_run.
  cbn [snd]. books_split; try assumption.
  - now apply NoDup_map_filter.
  - now apply Forall_list_filter.
Qed.

Lemma keeps_books_deleteBudgetItem id :
  keeps db_books_wf (DatabaseStorage.deleteBudgetItem id).
Proof.
  intros db (Hnd & Hall & Hbnd & Hball). rewrite db_deleteBudgetItem_run.
  cbn [snd]. books_split; try assumption.
  - now apply NoDup_map_filter.
  - now apply Forall_list_filter.
Qed.

Lemma uncovered_estimated_none (items : list BudgetItem.t) :
  Forall (fun item => fixed_category (BudgetItem.category item) = true) items ->
  uncovered_estimated items = 0.
Proof.
  unfold uncovered_estimated. induction 1 as [|x l Hx _ IH]; [reflexivity|].
  cbn [List.filter]. rewrite Hx. cbn [negb]. exact IH.
Qed.

Lemma uncovered_expenses_none (expenses : list Expense.t) :
  Forall (fun expense => fixed_category (Expense.category expense) = true)
         expenses ->
  uncovered_expenses expenses = 0.
Proof.
  unfold uncovered_expenses. induction 1 as [|x l Hx _ IH]; [reflexivity|].
  cbn [List.filter]. rewrite Hx. cbn [negb]. exact IH.
Qed.

(** X16.  In the database every budget item and every expense has one
    of the nine categories: this, with the distinct primary keys, holds of
    the empty database and is kept by the six methods that write the two
    tables, whether they complete or are refused.  So there the category
    breakdown leaves nothing out: its entries add up to [totalBudget] and
    to [totalExpenses]. *)
Theorem db_books_invariant (db : DatabaseStorage.t) :
  db_books_wf DatabaseStorage.init
  /\ (db_books_wf db ->
      (forall now i, db_books_wf (snd (DatabaseStorage.createBudgetItem now i db)))
      /\ (forall id d, db_books_wf (snd (DatabaseStorage.updateBudgetItem id d db)))
      /\ (forall id, db_books_wf (snd (DatabaseStorage.deleteBudgetItem id db)))
      /\ (forall now i, db_books_wf (snd (DatabaseStorage.createExpense now i db)))
      /\ (forall id d, db_books_wf (snd (DatabaseStorage.updateExpense id d db)))
      /\ (forall id, db_books_wf (snd (DatabaseStorage.deleteExpense id db)))
      /\ exists b,
          DatabaseStorage.getBudgetSummary db = (DatabaseStorage.Ok b, db)
          /\ BudgetSummary.totalBudget b
             = Sql.sum CategoryEntry.estimatedAmount
                       (BudgetSummary.categoryBreakdown b)
          /\ BudgetSummary.totalExpenses b
             = Sql.sum CategoryEntry.actualAmount
                       (BudgetSummary.categoryBreakdown b)).
Proof.
  split.
  { repeat split; constructor. }
  intros Hwf.
  split; [intros; now apply keeps_books_createBudgetItem|].
  split; [intros; now apply keeps_books_updateBudgetItem|].
  split; [intros; now apply keeps_books_deleteBudgetItem|].
  split; [intros; now apply keeps_books_createExpense|].
  split; [intros; now apply keeps_books_updateExpense|].
  split; [intros; now apply keeps_books_deleteExpense|].
  eexists. split; [apply db_budget_summary_run|].
  cbn [BudgetSummary.totalBudget BudgetSummary.totalExpenses
         BudgetSummary.categoryBreakdown].
  destruct (spec_breakdown_sums (DatabaseStorage.budgetItems db)
                                (DatabaseStorage.expenses db)) as [Hb He].
  destruct Hwf as (_ & Hall & _ & Hball).
  rewrite uncovered_estimated_none in Hb
    by (eapply List.Forall_impl; [|exact Hball]; intros x [_ Hx]; exact Hx).
  rewrite uncovered_expenses_none in He
    by (eapply List.Forall_impl; [|exact Hall]; intros x [_ Hx]; exact Hx).
  lia.
Qed.

Lemma db4_books_wf : db_books_wf Example.db4.
Proof.
  repeat split; vm_compute;
    repeat first [apply List.NoDup_nil | apply List.NoDup_cons
                 | apply Forall_nil | apply Forall_cons | split];
    try reflexivity; try (cbn; intuition (discriminate || congruence)).
Qed.

(** The theorem at the reunion with two expenses and a budget item, and
    at an expense for fireworks, which is refused. *)
Lemma db_books_invariant_witness :
  fst (DatabaseStorage.createExpense 7 Example.fireworks Example.db4)
  = DatabaseStorage.Fault DatabaseStorage.invalid_enum_value
  /\ db_books_wf (snd (DatabaseStorage.createExpense 7 Example.fireworks
                         Example.db4))
  /\ db_books_wf (snd (DatabaseStorage.deleteExpense 1 Example.db4))
  /\ (exists b,
         DatabaseStorage.getBudgetSummary Example.db4
         = (DatabaseStorage.Ok b, Example.db4)
         /\ BudgetSummary.totalExpenses b
            = Sql.sum CategoryEntry.actualAmount
                      (BudgetSummary.categoryBreakdown b)).
Proof.
  destruct (proj2 (db_books_invariant Example.db4) db4_books_wf)
    as (_ & _ & _ & Hc & _ & Hd & b & Hrun & _ & Hb).
  split; [reflexivity|]. split; [apply Hc|]. split; [apply Hd|].
  exists b. split; [exact Hrun|exact Hb].
Defined.

Lemma db_expense_state_eta db :
  DatabaseStorage.with_expenses (DatabaseStorage.expenses db) db = db.
Proof. now destruct db. Qed.




(** ** The listings *)


(** ** [getStudents] with its options, in memory *)















(** ** The routes *)

(** X20.  The three access levels of the routes are nested: a request
    that [requireSuperAdmin] lets pass is let pass by [requireAdmin], and
    one that [requireAdmin] lets pass by [requireAuth].  A request without
    user gets [401] from [requireAuth] and [403] from the other two.
    [checkSectionAccess] stops a section admin exactly when a section is
    named, in the path or else in the query, that is not the admin's own,
    and stops nobody else. *)
Theorem access_levels_nested (user : option User.t) (u : User.t)
    (params_section query_section : option string) :
  (Routes.requireSuperAdmin user = Routes.next ->
   Routes.requireAdmin user = Routes.next)
  /\ (Routes.requireAdmin user = Routes.next ->
      Routes.requireAuth user = Routes.next)
  /\ (Routes.requireSuperAdmin user = Routes.next
      <-> exists a, user = Some a /\ User.role a = Role.superadmin)
  /\ (Routes.requireAdmin user = Routes.next
      <-> exists a, user = Some a /\ User.role a <> Role.student)
  /\ Routes.requireAuth None = Routes.reply 401 "Authentication required"
  /\ Routes.requireAdmin None = Routes.reply 403 "Admin privileges required"
  /\ Routes.requireSuperAdmin None
     = Routes.reply 403 "Superadmin privileges required"
  /\ (User.role u <> Role.section_admin ->
      Routes.checkSectionAccess u params_section query_section = Routes.next)
  /\ (User.role u = Role.section_admin ->
      let section :=
        if Js.truthy_string params_section then params_section
        else query_section in
      Routes.checkSectionAccess u params_section query_section
      = if Js.truthy_string section
           && negb (Routes.own_section u (default ""%string section))
        then Routes.reply 403 "You can only access your assigned section"
        else Routes.next).
Proof.
  split; [|split; [|split; [|split; [|split; [|split; [|split; [|split]]]]]]].
  - destruct user as [a|]; [|discriminate].
    unfold Routes.requireSuperAdmin, Routes.requireAdmin, Routes.is_superadmin,
      Routes.is_section_admin.
    now destruct (User.role a).
  - destruct user as [a|]; [reflexivity|discriminate].
  - unfold Routes.requireSuperAdmin, Routes.is_superadmin. split.
    + destruct user as [a|]; [|discriminate].
      destruct (User.role a) eqn:Hr; try discriminate. eauto.
    + intros (a & -> & Hr). now rewrite Hr.
  - unfold Routes.requireAdmin, Routes.is_superadmin, Routes.is_section_admin.
    split.
    + destruct user as [a|]; [|discriminate].
      destruct (User.role a) eqn:Hr; try discriminate; intros _;
        exists a; (split; [reflexivity|]); rewrite Hr; discriminate.
    + intros (a & -> & Hr). destruct (User.role a); [reflexivity..|].
      contradiction.
  - reflexivity.
  - reflexivity.
  - reflexivity.
  - intros Hr. unfold Routes.checkSectionAccess, Routes.is_superadmin,
      Routes.is_section_admin.
    destruct (User.role u); [reflexivity|contradiction|reflexivity].
  - intros Hr section. unfold Routes.checkSectionAccess, Routes.is_superadmin,
      Routes.is_section_admin. rewrite Hr. fold section.
    destruct section as [s|]; [|reflexivity].
    change (default ""%string (Some s)) with s.
    now destruct (Js.truthy_string (Some s)), (Routes.own_section u s).
Qed.

Lemma db_deleteStudent_absent id db :
  existsb (fun row => Student.id row =? id) (DatabaseStorage.students db) = false ->
  DatabaseStorage.deleteStudent id db = (DatabaseStorage.Ok true, db).
Proof.
  intros Hex. rewrite db_deleteStudent_run, Hex. cbn [andb].
  rewrite filter_keep_all by now rewrite existsb_negb_negb.
  now rewrite db_state_eta.
Qed.

Lemma db_budget_state_eta db :
  DatabaseStorage.with_budgetItems (DatabaseStorage.budgetItems db) db = db.
Proof. now destruct db. Qed.

(** X21.  The four [DELETE] routes, which only a superadmin passes.  The
    routes of students, budget items and expenses never answer [404]: for
    an [id] that no row has they answer [204] and change nothing, because
    the delete methods of the database return [true] whatever they find.
    Only the route of contributions, whose method looks the row up first,
    answers [404] for such an [id].  A student that the ledger references
    is answered with [500] and stays. *)
Theorem delete_routes (user : option User.t) (id : Z) (db : DatabaseStorage.t) :
  (Routes.requireSuperAdmin user <> Routes.next ->
   Routes.delete_student user id db
   = (Routes.message 403 "Superadmin privileges required", db)
   /\ Routes.delete_budget_item user id db
      = (Routes.message 403 "Superadmin privileges required", db)
   /\ Routes.delete_expense user id db
      = (Routes.message 403 "Superadmin privileges required", db)
   /\ Routes.delete_contribution user id db
      = (Routes.message 403 "Superadmin privileges required", db))
  /\ Routes.status_of (fst (Routes.delete_student user id db)) <> 404
  /\ Routes.status_of (fst (Routes.delete_budget_item user id db)) <> 404
  /\ Routes.status_of (fst (Routes.delete_expense user id db)) <> 404
  /\ (Routes.requireSuperAdmin user = Routes.next ->
      (fst (DatabaseStorage.getStudent (Some id) db) = DatabaseStorage.Ok None ->
       Routes.delete_student user id db = (Routes.send 204, db))
      /\ (fst (DatabaseStorage.getBudgetItem id db) = DatabaseStorage.Ok None ->
          Routes.delete_budget_item user id db = (Routes.send 204, db))
      /\ (fst (DatabaseStorage.getExpense id db) = DatabaseStorage.Ok None ->
          Routes.delete_expense user id db = (Routes.send 204, db))
      /\ (fst (DatabaseStorage.getContribution id db) = DatabaseStorage.Ok None ->
          Routes.delete_contribution user id db
          = (Routes.message 404 "Contribution not found", db))
      /\ (forall s,
             fst (DatabaseStorage.getStudent (Some id) db)
             = DatabaseStorage.Ok (Some s) ->
             existsb (fun c => Js.strict_eq (Contribution.studentId c) (Some id))
                     (DatabaseStorage.contributions db) = true ->
             Routes.delete_student user id db
             = (Routes.message 500 "Failed to delete student", db))).
Proof.
  split; [|split; [|split; [|split]]].
  - intros Hno. unfold Routes.delete_student, Routes.delete_budget_item,
      Routes.delete_expense, Routes.delete_contribution, Routes.behind.
    destruct (Routes.requireSuperAdmin user) as [|status text] eqn:Hv;
      [contradiction|].
    unfold Routes.requireSuperAdmin in Hv.
    destruct user as [a|]; [destruct (negb _)|]; inversion Hv; auto.
  - unfold Routes.delete_student, Routes.behind.
    destruct (Routes.requireSuperAdmin user) as [|status text] eqn:Hv.
    + rewrite db_deleteStudent_run. destruct (_ && _); cbn; discriminate.
    + unfold Routes.requireSuperAdmin in Hv.
      destruct user as [a|]; [destruct (negb _)|]; inversion Hv; cbn;
        discriminate.
  - unfold Routes.delete_budget_item, Routes.behind.
    destruct (Routes.requireSuperAdmin user) as [|status text] eqn:Hv.
    + cbn. discriminate.
    + unfold Routes.requireSuperAdmin in Hv.
      destruct user as [a|]; [destruct (negb _)|]; inversion Hv; cbn;
        discriminate.
  - unfold Routes.delete_expense, Routes.behind.
    destruct (Routes.requireSuperAdmin user) as [|status text] eqn:Hv.
    + cbn. discriminate.
    + unfold Routes.requireSuperAdmin in Hv.
      destruct user as [a|]; [destruct (negb _)|]; inversion Hv; cbn;
        discriminate.
  - intros Hv. unfold Routes.delete_student, Routes.delete_budget_item,
      Routes.delete_expense, Routes.delete_contribution, Routes.behind.
    rewrite Hv. split; [|split; [|split; [|split]]].
    + intros Hnone. rewrite db_getStudent_key in Hnone. cbn [fst] in Hnone.
      assert (Hh : head (List.filter (fun row => Student.id row =? id)
                                     (DatabaseStorage.students db)) = None)
        by (injection Hnone; intros H; exact H).
      now rewrite (db_deleteStudent_absent _ _ (head_filter_existsb _ _ Hh)).
    + intros Hnone.
      assert (Hh : head (List.filter (fun row => BudgetItem.id row =? id)
                                     (DatabaseStorage.budgetItems db)) = None)
        by (injection Hnone; intros H; exact H).
      rewrite db_deleteBudgetItem_run.
      rewrite filter_keep_all
        by (rewrite existsb_negb_negb; now apply head_filter_existsb).
      now rewrite db_budget_state_eta.
    + intros Hnone.
      assert (Hh : head (List.filter (fun row => Expense.id row =? id)
                                     (DatabaseStorage.expenses db)) = None)
        by (injection Hnone; intros H; exact H).
      rewrite db_deleteExpense_run.
      rewrite filter_keep_all
        by (rewrite existsb_negb_negb; now apply head_filter_existsb).
      now rewrite db_expense_state_eta.
    + intros Hnone.
      assert (Hh : head (List.filter (fun row => Contribution.id row =? id)
                                     (DatabaseStorage.contributions db)) = None)
        by (injection Hnone; intros H; exact H).
      now rewrite (db_delete_missing _ _ Hh).
    + intros s Hs Href. rewrite db_getStudent_key in Hs. cbn [fst] in Hs.
      assert (Hh : head (List.filter (fun row => Student.id row =? id)
                                     (DatabaseStorage.students db)) = Some s)
        by (injection Hs; intros H; exact H).
      now rewrite db_deleteStudent_run, (head_filter_exists _ _ _ Hh), Href.
Qed.


Lemma access_levels_nested_witness :
  Routes.requireSuperAdmin (Some Example.admin) = Routes.next
  /\ Routes.requireAdmin (Some Example.admin) = Routes.next
  /\ Routes.requireAuth (Some Example.admin) = Routes.next
  /\ Routes.requireAdmin (Some Example.pupil)
     = Routes.reply 403 "Admin privileges required"
  /\ Routes.checkSectionAccess Example.admin_a None (Some "B"%string)
     = Routes.reply 403 "You can only access your assigned section"
  /\ Routes.checkSectionAccess Example.admin_a (Some "A"%string) (Some "B"%string)
     = Routes.next
  /\ Routes.checkSectionAccess Example.pupil None (Some "B"%string)
     = Routes.next.
Proof.
  destruct (access_levels_nested (Some Example.admin) Example.admin_a
              None (Some "B"%string))
    as (H1 & H2 & _ & _ & _ & _ & _ & _ & H3).
  destruct (access_levels_nested (Some Example.admin) Example.admin_a
              (Some "A"%string) (Some "B"%string))
    as (_ & _ & _ & _ & _ & _ & _ & _ & H4).
  destruct (access_levels_nested (Some Example.admin) Example.pupil
              None (Some "B"%string))
    as (_ & _ & _ & _ & _ & _ & _ & H5 & _).
  split; [reflexivity|]. split; [now apply H1|].
  split; [apply H2; now apply H1|]. split; [reflexivity|].
  split; [exact (H3 eq_refl)|]. split; [exact (H4 eq_refl)|].
  apply H5. discriminate.
Defined.

(** The theorem at the reunion: a student and a contribution that are
    not there, and the first student, who has contributions. *)
Lemma delete_routes_witness :
  Routes.delete_student (Some Example.admin) 9 Example.db4
  = (Routes.send 204, Example.db4)
  /\ Routes.delete_expense (Some Example.admin) 9 Example.db4
     = (Routes.send 204, Example.db4)
  /\ Routes.delete_contribution (Some Example.admin) 9 Example.db4
     = (Routes.message 404 "Contribution not found", Example.db4)
  /\ Routes.delete_student (Some Example.admin) 1 Example.db4
     = (Routes.message 500 "Failed to delete student", Example.db4)
  /\ Routes.delete_student (Some Example.admin_a) 1 Example.db4
     = (Routes.message 403 "Superadmin privileges required", Example.db4).
Proof.
  destruct (delete_routes (Some Example.admin) 9 Example.db4)
    as (_ & _ & _ & _ & H9).
  destruct (H9 eq_refl) as (Hs & _ & He & Hc & _).
  destruct (delete_routes (Some Example.admin) 1 Example.db4)
    as (_ & _ & _ & _ & H1).
  destruct (H1 eq_refl) as (_ & _ & _ & _ & Href).
  destruct (delete_routes (Some Example.admin_a) 1 Example.db4) as (Hno & _).
  split; [now apply Hs|]. split; [now apply He|]. split; [now apply Hc|].
  split; [eapply Href; reflexivity|].
  apply Hno. discriminate.
Defined.






(** ** Successive edits of one contribution *)

Lemma mem_update_amount_run (st : MemStorage.t) (id a k : Z)
    (c : Contribution.t) (s : Student.t) :
  mem_wf st ->
  MemStorage.getContribution id st = Some c ->
  Contribution.studentId c = Some k ->
  MemStorage.getStudent (Some k) st = Some s ->
  let st1 := snd (MemStorage.updateContribution id (Example.set_amount a) st) in
  exists s1,
    MemStorage.getStudent (Some k) st1 = Some s1
    /\ Js.or_zero (Student.contributionAmount s1)
       = Js.or_zero (Student.contributionAmount s) + (a - Contribution.amount c)
    /\ MemStorage.getContribution id st1
       = Some (spread_contribution c (Example.set_amount a))
    /\ MemStorage.contributionMap st1
       = JsMap.set id (spread_contribution c (Example.set_amount a))
           (MemStorage.contributionMap st)
    /\ mem_wf st1.
Proof.
  intros Hwf Hc Hk Hs st1.
  assert (Hwf1 : mem_wf st1) by now apply mem_updateContribution_wf.
  unfold MemStorage.getContribution in Hc.
  pose proof (student_key _ _ _ (mem_student_ids st Hwf) Hs) as Hsk.
  unfold st1, MemStorage.updateContribution in *. rewrite Hc in *.
  cbn [Example.set_amount PartialContribution.amount] in *.
  rewrite Hk in *. rewrite Hs in *.
  unfold MemStorage.getStudent, MemStorage.getContribution in *.
  destruct (Z.eqb_spec a (Contribution.amount c)) as [Heq|Hne];
    cbn [negb snd] in *; mem_fields.
  - exists s. split; [exact Hs|]. split; [lia|].
    split; [apply get_set_same|]. split; [reflexivity|exact Hwf1].
  - rewrite Hsk. unfold MemStorage.updateStudent. rewrite Hs. mem_fields.
    eexists. split; [apply get_set_same|].
    split; [now rewrite spread_update_amount|].
    split; [apply get_set_same|]. split; [reflexivity|].
    revert Hwf1. rewrite Hsk. unfold MemStorage.updateStudent. rewrite Hs.
    now mem_fields.
Qed.

(** X23.  Two edits of the amount of a contribution, one after the
    other, leave the ledger and the running total of its attendee as the
    single edit to the last amount does: the total reads as the one before,
    shifted by the difference between the last amount and the stored one.
    Editing the amount back restores what the total read as. *)
Theorem mem_amount_edits_compose (st : MemStorage.t) (id a b k : Z)
    (c : Contribution.t) (s : Student.t) :
  mem_wf st ->
  MemStorage.getContribution id st = Some c ->
  Contribution.studentId c = Some k ->
  MemStorage.getStudent (Some k) st = Some s ->
  let st1 := snd (MemStorage.updateContribution id (Example.set_amount a) st) in
  let st2 := snd (MemStorage.updateContribution id (Example.set_amount b) st1) in
  let st' := snd (MemStorage.updateContribution id (Example.set_amount b) st) in
  MemStorage.contributionMap st2 = MemStorage.contributionMap st'
  /\ Js.or_zero (mem_contributionAmount k st2)
     = Js.or_zero (mem_contributionAmount k st')
  /\ Js.or_zero (mem_contributionAmount k st')
     = Js.or_zero (Student.contributionAmount s) + (b - Contribution.amount c)
  /\ (b = Contribution.amount c ->
      Js.or_zero (mem_contributionAmount k st2)
      = Js.or_zero (Student.contributionAmount s)).
Proof.
  intros Hwf Hc Hk Hs st1 st2 st'.
  destruct (mem_update_amount_run st id a k c s Hwf Hc Hk Hs)
    as (s1 & Hs1 & Ha1 & Hc1 & Hm1 & Hwf1).
  fold st1 in Hs1, Hc1, Hm1, Hwf1.
  destruct (mem_update_amount_run st1 id b k _ s1 Hwf1 Hc1 Hk Hs1)
    as (s2 & Hs2 & Ha2 & _ & Hm2 & _).
  fold st2 in Hs2, Hm2.
  destruct (mem_update_amount_run st id b k c s Hwf Hc Hk Hs)
    as (s' & Hs' & Ha' & _ & Hm' & _).
  fold st' in Hs', Hm'.
  unfold mem_contributionAmount. unfold MemStorage.getStudent in Hs2, Hs'.
  rewrite Hs2, Hs', Ha2, Ha', Ha1.
  cbn [Contribution.amount spread_contribution Example.set_amount
         PartialContribution.amount] in *.
  change (default (Contribution.amount c) (Some a)) with a.
  split.
  - rewrite Hm2, Hm', Hm1, set_set. reflexivity.
  - split; [lia|]. split; [reflexivity|]. intros ->. lia.
Qed.

(** The theorem at the first contribution of the reunion, of 500, edited
    to 700 and then to 650, and edited to 700 and back. *)
Lemma mem_amount_edits_compose_witness :
  mem_contributionAmount 1
    (snd (MemStorage.updateContribution 1 (Example.set_amount 650)
            (snd (MemStorage.updateContribution 1 (Example.set_amount 700)
                    Example.mem2))))
  = Some 950
  /\ Js.or_zero
       (mem_contributionAmount 1
          (snd (MemStorage.updateContribution 1 (Example.set_amount 500)
                  (snd (MemStorage.updateContribution 1 (Example.set_amount 700)
                          Example.mem2)))))
     = 800.
Proof.
  destruct (mem_amount_edits_compose Example.mem2 1 700 500 1 _ _
              mem2_wf eq_refl eq_refl eq_refl)
    as (_ & _ & _ & Hback).
  split; [reflexivity|]. now apply Hback.
Defined.

(** ** [getExpenses] of the two backends on the same expenses *)





(** ** The budget methods *)






